(** * The HTTP-to-stdio bridge of xero-mcp-server

    A shallow embedding of the bridge: the Express wrapper that spawns one
    child process per provider, speaks newline-delimited JSON-RPC with it
    over stdin and stdout, and answers HTTP requests with what the child
    answered. The repository holds it in three versions:

    - the multi-provider bridge (xero and supabase, provider registry,
      routing, fan-out): [Module Xero], [Module Supabase] and the handlers
      of [Section Handlers];
    - the original single-provider wrapper, first half of [mcp-server.js]:
      [Module Legacy] and [Module LegacyHttp];
    - the xero-only bridge, second half of [mcp-server.js]: its
      [initMCPServer] and [sendMCPMessage] are those of [Module Xero]; its
      handlers are not modelled.

    Conventions of the embedding:
    - a JavaScript string is a [string]: a sequence of code units below 256
      (text outside Latin-1 is not modelled);
    - a JavaScript value that came out of [JSON.parse] or goes into
      [JSON.stringify] is a [Json]; [undefined] is [None] of [option Json];
      numbers are integers ([Z]);
    - [JSON.parse] is an interface ([JsonParser]): every general statement
      holds for any parser, concrete runs use [Parser.json_parse];
    - what is written to a child's stdin is recorded as the message object
      (the bytes are [JSON.stringify(message)] and a line feed);
    - promises, listeners and timers are explicit state of a session; one
      event of the Node event loop is one [step];
    - an HTTP handler runs in the monad [M]: state of both sessions,
      exceptions, and awaits that the environment ([World]) settles. *)

From Stdlib Require Import ZArith Ascii String List Bool Lia.
From stdpp Require Import base option list strings gmap.

Import ListNotations.
#[local] Set Warnings "-register-all".
#[local] Set Warnings "-automation".
#[local] Set Warnings "-notation-overridden,-ambiguous-paths".

Local Open Scope string_scope.
Local Open Scope Z_scope.

(** ** JavaScript strings *)

Module Js.

(** [WhiteSpace] and [LineTerminator] code units below 256, as stripped by
    [String.prototype.trim]. *)
Definition is_space (c : ascii) : bool :=
  let n := nat_of_ascii c in
  (Nat.eqb n 9 || Nat.eqb n 10 || Nat.eqb n 11 || Nat.eqb n 12
   || Nat.eqb n 13 || Nat.eqb n 32 || Nat.eqb n 160)%bool.

Fixpoint trimStart (s : string) : string :=
  match s with
  | String c r => if is_space c then trimStart r else s
  | EmptyString => EmptyString
  end.

(** [trimEnd]: a space is dropped when everything after it was dropped. *)
Fixpoint trimEnd (s : string) : string :=
  match s with
  | EmptyString => EmptyString
  | String c r =>
      match trimEnd r with
      | EmptyString => if is_space c then EmptyString else String c EmptyString
      | r' => String c r'
      end
  end.

(** [s.trim()] *)
Definition trim (s : string) : string := trimEnd (trimStart s).

(** [s.split(sep)] for a one-character separator: never the empty list. *)
Fixpoint split (sep : ascii) (s : string) : list string :=
  match s with
  | EmptyString => [EmptyString]
  | String c r =>
      if Ascii.eqb c sep then EmptyString :: split sep r
      else match split sep r with
           | h :: t => String c h :: t
           | [] => [String c EmptyString]
           end
  end.

(** [parts.join(sep)] *)
Fixpoint join (sep : string) (parts : list string) : string :=
  match parts with
  | [] => EmptyString
  | [p] => p
  | p :: rest => p +:+ sep +:+ join sep rest
  end.

(** [s.includes(c)] for a one-character needle. *)
Fixpoint includes (c : ascii) (s : string) : bool :=
  match s with
  | EmptyString => false
  | String a r => Ascii.eqb a c || includes c r
  end.

(** [s.startsWith(c)] for a one-character prefix. *)
Definition startsWith (c : ascii) (s : string) : bool :=
  match s with
  | String a _ => Ascii.eqb a c
  | EmptyString => false
  end.

(** [Boolean(s)] on a string: the empty string is falsy. *)
Definition nonempty (s : string) : bool :=
  match s with EmptyString => false | _ => true end.

(** Lower-casing of one code unit below 256: A-Z and the Latin-1 capitals
    (192..222 except the multiplication sign 215) move up by 32. *)
Definition lower_ascii (c : ascii) : ascii :=
  let n := nat_of_ascii c in
  if ((Nat.leb 65 n && Nat.leb n 90)
      || (Nat.leb 192 n && Nat.leb n 222 && negb (Nat.eqb n 215)))%bool
  then ascii_of_nat (n + 32) else c.

(** [s.toLowerCase()] *)
Fixpoint toLowerCase (s : string) : string :=
  match s with
  | EmptyString => EmptyString
  | String c r => String (lower_ascii c) (toLowerCase r)
  end.

(** Decimal rendering of an integer, as [String(n)] gives it. *)
Fixpoint digits (fuel : nat) (n : N) (acc : string) : string :=
  match fuel with
  | O => acc
  | S f =>
      let d := ascii_of_N (48 + N.modulo n 10) in
      let q := N.div n 10 in
      if N.eqb q 0 then String d acc else digits f q (String d acc)
  end.

Definition string_of_Z (z : Z) : string :=
  match z with
  | Z0 => "0"
  | Zpos p => digits (Pos.to_nat p) (Npos p) EmptyString
  | Zneg p => String "-" (digits (Pos.to_nat p) (Npos p) EmptyString)
  end.

(** JSON texts are written below with apostrophes for the double quotes;
    [quoted] puts the double quotes (code 34) back. *)
Fixpoint quoted (s : string) : string :=
  match s with
  | EmptyString => EmptyString
  | String c r =>
      String (if Ascii.eqb c "'" then "034"%char else c) (quoted r)
  end.

End Js.

(** ** JSON values *)

(** What [JSON.parse] gives. [JNum n] is a number that is an integer (one
    that a double holds exactly, below 2^53 in magnitude); the bridge
    compares numbers (ids) and never computes with them. *)
Inductive Json : Type :=
| JNull
| JBool (b : bool)
| JNum (n : Z)
| JStr (s : string)
| JArr (items : list Json)
| JObj (fields : list (string * Json)).

(** An object keeps its keys in insertion order (integer-like keys, which
    JavaScript enumerates first, get no special place); a key is looked up
    by its first (and, after [obj_set], only) occurrence. *)
Fixpoint obj_get (fields : list (string * Json)) (k : string) : option Json :=
  match fields with
  | [] => None
  | (k', v) :: rest => if String.eqb k' k then Some v else obj_get rest k
  end.

(** [o[k] = v]: the value is replaced in place, a new key goes last. *)
Fixpoint obj_set (fields : list (string * Json)) (k : string) (v : Json)
  : list (string * Json) :=
  match fields with
  | [] => [(k, v)]
  | (k', v') :: rest =>
      if String.eqb k' k then (k', v) :: rest else (k', v') :: obj_set rest k v
  end.

(** [{...a, ...b}] on key lists: every key of [b] is set in turn. *)
Definition obj_assign (a b : list (string * Json)) : list (string * Json) :=
  fold_left (fun acc kv => obj_set acc (fst kv) (snd kv)) b a.

(** [v?.k]: [undefined] on [undefined], [null] and on values that have no
    own property [k] (numbers, booleans, strings and arrays have none of the
    names the bridge reads: id, result, method, params, name, provider,
    arguments, tools). *)
Definition prop (v : option Json) (k : string) : option Json :=
  match v with
  | Some (JObj fields) => obj_get fields k
  | _ => None
  end.

(** JavaScript truthiness. *)
Definition truthy (v : option Json) : bool :=
  match v with
  | None => false
  | Some JNull => false
  | Some (JBool b) => b
  | Some (JNum n) => negb (Z.eqb n 0)
  | Some (JStr s) => Js.nonempty s
  | Some (JArr _) => true
  | Some (JObj _) => true
  end.

(** [a === b] where at least one side was freshly built by [JSON.parse]:
    primitives compare by value, two objects or arrays are never the same
    reference. *)
Definition strict_eq (a b : option Json) : bool :=
  match a, b with
  | None, None => true
  | Some JNull, Some JNull => true
  | Some (JBool x), Some (JBool y) => Bool.eqb x y
  | Some (JNum x), Some (JNum y) => Z.eqb x y
  | Some (JStr x), Some (JStr y) => String.eqb x y
  | _, _ => false
  end.

(** [v == null] *)
Definition nullish (v : option Json) : bool :=
  match v with
  | None => true
  | Some JNull => true
  | _ => false
  end.

(** [a || b] *)
Definition js_or (a b : option Json) : option Json :=
  if truthy a then a else b.

(** [String(v)] (also what a template literal does and, on a value that
    is not [null], what [v.toString()] gives), when it returns: see
    [stringifies]. An integer is written in decimal, which is what
    JavaScript does below 10^21 in magnitude. *)
Fixpoint to_String (v : Json) : string :=
  match v with
  | JNull => "null"
  | JBool true => "true"
  | JBool false => "false"
  | JNum n => Js.string_of_Z n
  | JStr s => s
  | JArr items =>
      Js.join ","
        (map (fun x => match x with JNull => EmptyString | _ => to_String x end)
             items)
  | JObj _ => "[object Object]"
  end.

Definition String_of (v : option Json) : string :=
  match v with
  | None => "undefined"
  | Some j => to_String j
  end.

(** Whether [String(v)] returns. A parsed object that has an own property
    [toString] (its value is never a function) has no usable [toString] nor
    [valueOf], and the conversion throws a [TypeError]; so does the
    conversion of an array with such an element. An object without it is
    [[object Object]]. *)
Fixpoint stringifies (v : Json) : bool :=
  match v with
  | JObj fields =>
      negb (existsb (fun kv => String.eqb (fst kv) "toString") fields)
  | JArr items => forallb stringifies items
  | _ => true
  end.

(** The same for a value that may be [undefined]. *)
Definition converts (v : option Json) : bool :=
  match v with
  | Some j => stringifies j
  | None => true
  end.

(** [typeof v === 'string'] *)
Definition is_string (v : option Json) : bool :=
  match v with Some (JStr _) => true | _ => false end.

(** The own enumerable keys that [{...v}] copies. *)
Fixpoint index_fields (i : Z) (items : list Json) : list (string * Json) :=
  match items with
  | [] => []
  | x :: rest => (Js.string_of_Z i, x) :: index_fields (i + 1) rest
  end.

Fixpoint char_fields (i : Z) (s : string) : list (string * Json) :=
  match s with
  | EmptyString => []
  | String c r =>
      (Js.string_of_Z i, JStr (String c EmptyString)) :: char_fields (i + 1) r
  end.

Definition spread (v : option Json) : list (string * Json) :=
  match v with
  | Some (JObj fields) => fields
  | Some (JArr items) => index_fields 0 items
  | Some (JStr s) => char_fields 0 s
  | _ => []
  end.

(** [JSON.parse]: [None] when it throws a [SyntaxError]. *)
Class JsonParser := JSON_parse : string -> option Json.

(** ** A concrete [JSON.parse]

    A recursive-descent parser for the JSON grammar with integer numbers
    and the two-character escapes. On a number with a fraction or an
    exponent and on a [\u] escape it gives [None], where [JSON.parse] gives
    a value: concrete runs below stay clear of both. *)

Module Parser.

Fixpoint skip_ws (s : string) : string :=
  match s with
  | String c r =>
      let n := nat_of_ascii c in
      if (Nat.eqb n 32 || Nat.eqb n 9 || Nat.eqb n 10 || Nat.eqb n 13)%bool
      then skip_ws r else s
  | EmptyString => EmptyString
  end.

Definition is_digit (c : ascii) : bool :=
  let n := nat_of_ascii c in (Nat.leb 48 n && Nat.leb n 57)%bool.

Definition digit_val (c : ascii) : Z := Z.of_nat (nat_of_ascii c) - 48.

Fixpoint take_digits (s : string) (acc : Z) : Z * string :=
  match s with
  | String c r =>
      if is_digit c then take_digits r (10 * acc + digit_val c) else (acc, s)
  | EmptyString => (acc, s)
  end.

(** After the integer part: a fraction or an exponent is not supported. *)
Definition ends_number (s : string) : bool :=
  match s with
  | String c _ =>
      negb (Ascii.eqb c "." || Ascii.eqb c "e" || Ascii.eqb c "E")
  | EmptyString => true
  end.

Definition parse_nat (s : string) : option (Z * string) :=
  match s with
  | String c r =>
      if Ascii.eqb c "0" then
        if ends_number r then Some (0, r) else None
      else if is_digit c then
        let '(n, rest) := take_digits r (digit_val c) in
        if ends_number rest then Some (n, rest) else None
      else None
  | EmptyString => None
  end.

Definition parse_number (s : string) : option (Json * string) :=
  match s with
  | String "-" r =>
      match parse_nat r with
      | Some (n, rest) => Some (JNum (- n), rest)
      | None => None
      end
  | _ =>
      match parse_nat s with
      | Some (n, rest) => Some (JNum n, rest)
      | None => None
      end
  end.

Definition unescape (c : ascii) : option ascii :=
  if Ascii.eqb c "034" then Some "034"%char
  else if Ascii.eqb c "\" then Some "\"%char
  else if Ascii.eqb c "/" then Some "/"%char
  else if Ascii.eqb c "b" then Some (ascii_of_nat 8)
  else if Ascii.eqb c "f" then Some (ascii_of_nat 12)
  else if Ascii.eqb c "n" then Some (ascii_of_nat 10)
  else if Ascii.eqb c "r" then Some (ascii_of_nat 13)
  else if Ascii.eqb c "t" then Some (ascii_of_nat 9)
  else None.

(** The characters after an opening quote, up to the closing one. *)
Fixpoint parse_chars (s : string) : option (string * string) :=
  match s with
  | EmptyString => None
  | String c r =>
      if Ascii.eqb c "034" then Some (EmptyString, r)
      else if Ascii.eqb c "\" then
        match r with
        | String e r' =>
            match unescape e, parse_chars r' with
            | Some a, Some (str, rest) => Some (String a str, rest)
            | _, _ => None
            end
        | EmptyString => None
        end
      else if Nat.ltb (nat_of_ascii c) 32 then None
      else match parse_chars r with
           | Some (str, rest) => Some (String c str, rest)
           | None => None
           end
  end.

Fixpoint expect (lit : string) (s : string) : option string :=
  match lit, s with
  | EmptyString, _ => Some s
  | String a l, String b r => if Ascii.eqb a b then expect l r else None
  | String _ _, EmptyString => None
  end.

Fixpoint parse_value (fuel : nat) (s : string) {struct fuel}
  : option (Json * string) :=
  match fuel with
  | O => None
  | S f =>
      match skip_ws s with
      | String "n" r => option_map (fun rest => (JNull, rest)) (expect "ull" r)
      | String "t" r =>
          option_map (fun rest => (JBool true, rest)) (expect "rue" r)
      | String "f" r =>
          option_map (fun rest => (JBool false, rest)) (expect "alse" r)
      | String "034" r =>
          option_map (fun '(str, rest) => (JStr str, rest)) (parse_chars r)
      | String "[" r =>
          match skip_ws r with
          | String "]" r' => Some (JArr [], r')
          | r1 =>
              option_map (fun '(items, rest) => (JArr items, rest))
                         (parse_elems f r1)
          end
      | String "{" r =>
          match skip_ws r with
          | String "}" r' => Some (JObj [], r')
          | r1 =>
              option_map
                (fun '(fields, rest) => (JObj (obj_assign [] fields), rest))
                (parse_members f r1)
          end
      | s' => parse_number s'
      end
  end
with parse_elems (fuel : nat) (s : string) {struct fuel}
  : option (list Json * string) :=
  match fuel with
  | O => None
  | S f =>
      match parse_value f s with
      | Some (v, rest) =>
          match skip_ws rest with
          | String "," r =>
              option_map (fun '(items, rest') => (v :: items, rest'))
                         (parse_elems f r)
          | String "]" r => Some ([v], r)
          | _ => None
          end
      | None => None
      end
  end
with parse_members (fuel : nat) (s : string) {struct fuel}
  : option (list (string * Json) * string) :=
  match fuel with
  | O => None
  | S f =>
      match skip_ws s with
      | String "034" r =>
          match parse_chars r with
          | Some (k, rest) =>
              match skip_ws rest with
              | String ":" r1 =>
                  match parse_value f r1 with
                  | Some (v, rest1) =>
                      match skip_ws rest1 with
                      | String "," r2 =>
                          option_map
                            (fun '(fields, rest') => ((k, v) :: fields, rest'))
                            (parse_members f r2)
                      | String "}" r2 => Some ([(k, v)], r2)
                      | _ => None
                      end
                  | None => None
                  end
              | _ => None
              end
          | None => None
          end
      | _ => None
      end
  end.

(** The whole text is one value, blanks around it allowed. *)
Definition json_parse : JsonParser := fun s =>
  match parse_value (2 * String.length s + 2) s with
  | Some (v, rest) =>
      match skip_ws rest with
      | EmptyString => Some v
      | _ => None
      end
  | None => None
  end.

End Parser.

(** ** Sessions: one child process per provider

    The state that the bridge keeps for one provider, with the part of the
    Node runtime the bridge relies on made explicit: the promises it
    created, the [data] listeners registered on each child's stdout, the
    timers it armed, and the exceptions that escaped to the event loop. *)

Inductive pstate : Type :=
| Pending
| Resolved (v : Json)
| Rejected (message : string).

(** The [data] listeners (four in the bridge, one more in the legacy
    wrapper), each with the promise it settles (which also identifies the
    closure) and its captured variables. *)
Inductive listener : Type :=
| LegacyInitData (p : nat)
| XeroInitData (p : nat)
| XeroData (p : nat)
| SupabaseInitData (p : nat) (initBuffer : string)
| SupabaseData (p : nat) (expectedId : option Json) (callBuffer : string).

Definition listener_id (l : listener) : nat :=
  match l with
  | LegacyInitData p => p
  | XeroInitData p => p
  | XeroData p => p
  | SupabaseInitData p _ => p
  | SupabaseData p _ _ => p
  end.

Inductive timer : Type :=
| InitTimer (p : nat)
| CallTimer (p : nat).

Definition timer_eqb (a b : timer) : bool :=
  match a, b with
  | InitTimer p, InitTimer q => Nat.eqb p q
  | CallTimer p, CallTimer q => Nat.eqb p q
  | _, _ => false
  end.

(** A spawned child: what was written to its stdin (oldest first), the
    listeners on its stdout in registration order, and whether it exited. *)
Record child : Type := mkChild {
  stdin : list Json;
  stdout_listeners : list listener;
  exited : bool
}.

Record session : Type := mkSession {
  process : option nat;    (* mcpServerProcess / supabaseProcess: a handle *)
  nextId : Z;              (* messageId / supabaseMessageId *)
  children : list child;   (* every child ever spawned, by handle *)
  promises : list pstate;  (* every promise ever created, by number *)
  timers : list timer;     (* armed, not yet fired *)
  uncaught : list string   (* exceptions that reached the event loop *)
}.

(** [let process = null; let messageId = 1;] *)
Definition fresh : session :=
  {| process := None; nextId := 1; children := []; promises := [];
     timers := []; uncaught := [] |}.

Inductive event : Type :=
| StdoutData (h : nat) (data : string)   (* child h: stdout 'data' *)
| Exit (h : nat) (code : Z)              (* child h: 'exit' *)
| ChildError (h : nat)                   (* child h: 'error' (spawn failed) *)
| TimerFires (t : timer).                (* a 10 s timer expires *)

Definition set_process (o : option nat) (st : session) : session :=
  {| process := o; nextId := nextId st; children := children st;
     promises := promises st; timers := timers st; uncaught := uncaught st |}.

Definition set_children (cs : list child) (st : session) : session :=
  {| process := process st; nextId := nextId st; children := cs;
     promises := promises st; timers := timers st; uncaught := uncaught st |}.

Definition set_promises (ps : list pstate) (st : session) : session :=
  {| process := process st; nextId := nextId st; children := children st;
     promises := ps; timers := timers st; uncaught := uncaught st |}.

Definition set_timers (ts : list timer) (st : session) : session :=
  {| process := process st; nextId := nextId st; children := children st;
     promises := promises st; timers := ts; uncaught := uncaught st |}.

(** [messageId++]: the old value is the id. *)
Definition take_id (st : session) : Z * session :=
  (nextId st,
   {| process := process st; nextId := nextId st + 1; children := children st;
      promises := promises st; timers := timers st; uncaught := uncaught st |}).

(** An exception that leaves a listener or a timer callback. No
    [uncaughtException] handler is registered, so it ends the bridge
    process: the session is recorded as it is at that moment, and a state
    with a non-empty [uncaught] is that of a bridge that is gone (see
    [alive]). *)
Definition throw_uncaught (what : string) (st : session) : session :=
  {| process := process st; nextId := nextId st; children := children st;
     promises := promises st; timers := timers st;
     uncaught := uncaught st ++ [what] |}.

(** No exception has left a callback: the bridge process is still there. *)
Definition alive (st : session) : Prop := uncaught st = [].

(** [new Promise(...)]: the next free number. *)
Definition new_promise (s0 : pstate) (st : session) : session * nat :=
  (set_promises (promises st ++ [s0]) st, length (promises st)).

(** [resolve] and [reject] act on a pending promise only. *)
Definition settle (p : nat) (s1 : pstate) (st : session) : session :=
  match promises st !! p with
  | Some Pending => set_promises (<[p := s1]> (promises st)) st
  | _ => st
  end.

Definition resolve (p : nat) (v : Json) : session -> session :=
  settle p (Resolved v).

Definition reject (p : nat) (message : string) : session -> session :=
  settle p (Rejected message).

(** [spawn(...)]: a new handle; [spawn] returns one even when the binary is
    missing (the failure comes later, as an 'error' event). The command
    line and the environment overlay are not modelled. *)
Definition spawn (st : session) : session * nat :=
  (set_children (children st ++ [mkChild [] [] false]) st,
   length (children st)).

Definition alter_child (f : child -> child) (h : nat) (st : session)
  : session :=
  set_children (alter f h (children st)) st.

(** [child.stdin.write(JSON.stringify(message) + "\n")] *)
Definition write (h : nat) (message : Json) : session -> session :=
  alter_child
    (fun c => mkChild (stdin c ++ [message]) (stdout_listeners c) (exited c)) h.

(** [child.stdout.on('data', l)] *)
Definition on_data (h : nat) (l : listener) : session -> session :=
  alter_child
    (fun c => mkChild (stdin c) (stdout_listeners c ++ [l]) (exited c)) h.

(** [child.stdout.removeListener('data', l)] *)
Definition removeListener (h : nat) (p : nat) : session -> session :=
  alter_child
    (fun c =>
       mkChild (stdin c)
               (List.filter (fun l => negb (Nat.eqb (listener_id l) p))
                            (stdout_listeners c))
               (exited c)) h.

(** A listener writes back its captured buffer. *)
Definition store_listener (h : nat) (l : listener) : session -> session :=
  alter_child
    (fun c =>
       mkChild (stdin c)
               (map (fun l' => if Nat.eqb (listener_id l') (listener_id l)
                               then l else l')
                    (stdout_listeners c))
               (exited c)) h.

Definition mark_exited (h : nat) : session -> session :=
  alter_child (fun c => mkChild (stdin c) (stdout_listeners c) true) h.

(** [setTimeout(cb, 10000)] *)
Definition setTimeout (t : timer) (st : session) : session :=
  set_timers (timers st ++ [t]) st.

Definition armed (t : timer) (st : session) : bool :=
  existsb (timer_eqb t) (timers st).

Definition disarm (t : timer) (st : session) : session :=
  set_timers (List.filter (fun t' => negb (timer_eqb t t')) (timers st)) st.

(** [lines.pop()]: the last segment and the ones before it. *)
Fixpoint pop (lines : list string) : list string * string :=
  match lines with
  | [] => ([], EmptyString)
  | [x] => ([], x)
  | x :: rest => let '(front, final) := pop rest in (x :: front, final)
  end.

(** [line.startsWith('{') || line.startsWith('[')] *)
Definition looks_like_json (line : string) : bool :=
  Js.startsWith "{" line || Js.startsWith "[" line.

(** The [initialize] request. *)
Definition initMessage (id : Z) : Json :=
  JObj [("jsonrpc", JStr "2.0"); ("id", JNum id);
        ("method", JStr "initialize");
        ("params",
         JObj [("protocolVersion", JStr "2024-11-05");
               ("capabilities", JObj [("tools", JObj [])]);
               ("clientInfo",
                JObj [("name", JStr "http-wrapper");
                      ("version", JStr "1.0.0")])])].

(** The listeners of a [data] event run in registration order, on the list
    as it was when the event was emitted; an exception in one of them
    leaves [emit] and the others do not run. *)
Fixpoint emit (run : listener -> session -> session * bool)
         (ls : list listener) (st : session) : session :=
  match ls with
  | [] => st
  | l :: rest =>
      let '(st', threw) := run l st in
      if threw then st' else emit run rest st'
  end.

Definition listeners_of (h : nat) (st : session) : list listener :=
  match children st !! h with
  | Some c => stdout_listeners c
  | None => []
  end.

(** The message of the [SyntaxError] that [JSON.parse] throws and of the
    [TypeError] of a property read on [null]; the engine's wording is not
    modelled. *)
Definition SyntaxError : string := "SyntaxError".
Definition TypeError : string := "TypeError".

(** The error of an 'error' event that has no listener: the emitter throws
    it. *)
Definition UnhandledError : string := "Unhandled error event".

(** *** The xero provider: [initMCPServer], [sendMCPMessage] *)

Module Xero.
Section WithParser.
Context `{JsonParser}.

(** The loop of [onInitData] over the trimmed, non-empty lines of one
    chunk: is there a line that parses to a value with a truthy [result]? *)
Fixpoint result_frame_in (lines : list string) : bool :=
  match lines with
  | [] => false
  | line :: rest =>
      if negb (looks_like_json line) then result_frame_in rest
      else match JSON_parse line with
           | Some parsed =>
               if truthy (Some parsed) && truthy (prop (Some parsed) "result")
               then true
               else result_frame_in rest
           | None => result_frame_in rest
           end
  end.

(** [onInitData]: the [removeListener] and the [resolve(true)] sit inside
    the [try]; with no process handle the [TypeError] is swallowed by the
    [catch] and nothing happens. *)
Definition onInitData (p : nat) (data : string) (st : session) : session :=
  let lines := List.filter Js.nonempty (map Js.trim (Js.split "010" data)) in
  if result_frame_in lines then
    match process st with
    | Some cur => resolve p (JBool true) (removeListener cur p st)
    | None => st
    end
  else st.

(** [onData] of [sendMCPMessage]: the first chunk that is not blank is the
    response. The boolean says that an exception left the listener. *)
Definition onData (p : nat) (data : string) (st : session) : session * bool :=
  let response := Js.trim data in
  if Js.nonempty response then
    match process st with
    | None => (throw_uncaught TypeError st, true)
    | Some cur =>
        let st1 := removeListener cur p st in
        match JSON_parse response with
        | Some v => (resolve p v st1, false)
        | None => (throw_uncaught SyntaxError st1, true)
        end
    end
  else (st, false).

Definition run_listener (data : string) (l : listener) (st : session)
  : session * bool :=
  match l with
  | XeroInitData p => (onInitData p data st, false)
  | XeroData p => onData p data st
  | _ => (st, false)
  end.

(** The callbacks of the two [setTimeout(..., 10000)]. *)
Definition timeout (t : timer) (st : session) : session :=
  match t with
  | InitTimer p =>
      let st1 := match process st with
                 | Some cur => removeListener cur p st
                 | None => st
                 end in
      reject p "Timeout during initialization" st1
  | CallTimer p =>
      match process st with
      | Some cur =>
          reject p "Timeout waiting for response" (removeListener cur p st)
      | None => throw_uncaught TypeError st
      end
  end.

(** [initMCPServer()]: the promise it returns. *)
Definition initMCPServer (st : session) : session * nat :=
  match process st with
  | Some _ => new_promise (Resolved (JBool true)) st
  | None =>
      let '(st1, p) := new_promise Pending st in
      let '(st2, h) := spawn st1 in
      let st3 := set_process (Some h) st2 in
      let '(id, st4) := take_id st3 in
      let st5 := on_data h (XeroInitData p) st4 in
      let st6 := write h (initMessage id) st5 in
      (setTimeout (InitTimer p) st6, p)
  end.

(** [sendMCPMessage(message)]: the promise it returns. *)
Definition sendMCPMessage (message : Json) (st : session) : session * nat :=
  let '(st1, p) := new_promise Pending st in
  match process st1 with
  | None => (reject p "MCP server not running" st1, p)
  | Some h =>
      let st2 := write h message st1 in
      let st3 := on_data h (XeroData p) st2 in
      (setTimeout (CallTimer p) st3, p)
  end.

(** One event of the event loop. The 'error' and 'exit' handlers only
    log. *)
Definition step (st : session) (e : event) : session :=
  match e with
  | StdoutData h data => emit (run_listener data) (listeners_of h st) st
  | Exit h _ => mark_exited h st
  | ChildError _ => st
  | TimerFires t => if armed t st then timeout t (disarm t st) else st
  end.

End WithParser.
End Xero.

(** *** The supabase provider: [initSupabaseServer], [sendSupabaseMessage] *)

Module Supabase.
Section WithParser.
Context `{JsonParser}.

(** The loop of [onInitData] over the complete lines. *)
Fixpoint result_frame_in (lines : list string) : bool :=
  match lines with
  | [] => false
  | raw :: rest =>
      let line := Js.trim raw in
      if negb (Js.nonempty line) || negb (looks_like_json line)
      then result_frame_in rest
      else match JSON_parse line with
           | Some response =>
               if truthy (Some response)
                  && truthy (prop (Some response) "result")
               then true
               else result_frame_in rest
           | None => result_frame_in rest
           end
  end.

(** The loop of [onData] over the complete lines: the first frame whose
    [id] is the expected one (any frame when no id is expected). *)
Fixpoint matching_frame (expectedId : option Json) (lines : list string)
  : option Json :=
  match lines with
  | [] => None
  | raw :: rest =>
      let line := Js.trim raw in
      if negb (Js.nonempty line) || negb (looks_like_json line)
      then matching_frame expectedId rest
      else match JSON_parse line with
           | None => matching_frame expectedId rest
           | Some parsed =>
               if truthy (Some parsed)
                  && (strict_eq (prop (Some parsed) "id") expectedId
                      || nullish expectedId)
               then Some parsed
               else matching_frame expectedId rest
           end
  end.

(** [buffer += data; lines = buffer.split("\n"); buffer = lines.pop()] *)
Definition take_lines (buffer data : string) : list string * string :=
  pop (Js.split "010" (buffer +:+ data)).

(** The listener of one call seen on its own: the chunks of the stream in
    turn, until a frame is delivered. *)
Fixpoint deliver (expectedId : option Json) (callBuffer : string)
         (chunks : list string) : option Json :=
  match chunks with
  | [] => None
  | data :: rest =>
      let '(lines, buffer) := take_lines callBuffer data in
      match matching_frame expectedId lines with
      | Some parsed => Some parsed
      | None => deliver expectedId buffer rest
      end
  end.

(** [onInitData] on the stdout of child [h]; as for xero, a missing process
    handle makes the inner [try] swallow a [TypeError]. *)
Definition onInitData (h p : nat) (initBuffer data : string) (st : session)
  : session :=
  let '(lines, rest) := take_lines initBuffer data in
  let st1 := store_listener h (SupabaseInitData p rest) st in
  if result_frame_in lines then
    match process st1 with
    | Some cur => resolve p (JBool true) (removeListener cur p st1)
    | None => st1
    end
  else st1.

(** [onData] of [sendSupabaseMessage]; with no process handle the
    [TypeError] of the [try] is raised again by the [catch] block. *)
Definition onData (h p : nat) (expectedId : option Json)
           (callBuffer data : string) (st : session) : session * bool :=
  let '(lines, rest) := take_lines callBuffer data in
  let st1 := store_listener h (SupabaseData p expectedId rest) st in
  match matching_frame expectedId lines with
  | Some parsed =>
      match process st1 with
      | Some cur => (resolve p parsed (removeListener cur p st1), false)
      | None => (throw_uncaught TypeError st1, true)
      end
  | None => (st1, false)
  end.

Definition run_listener (h : nat) (data : string) (l : listener)
           (st : session) : session * bool :=
  match l with
  | SupabaseInitData p initBuffer => (onInitData h p initBuffer data st, false)
  | SupabaseData p expectedId callBuffer =>
      onData h p expectedId callBuffer data st
  | _ => (st, false)
  end.

Definition timeout (t : timer) (st : session) : session :=
  match t with
  | InitTimer p =>
      let st1 := match process st with
                 | Some cur => removeListener cur p st
                 | None => st
                 end in
      reject p "Supabase MCP init timeout" st1
  | CallTimer p =>
      match process st with
      | Some cur =>
          reject p "Supabase response timeout" (removeListener cur p st)
      | None => throw_uncaught TypeError st
      end
  end.

(** [initSupabaseServer()] in an environment in which the executor reaches
    [spawn] and [spawn] returns a handle: the early return, and the
    executor from the [spawn] call on. The code before it, which puts the
    command line together and can throw, is [SpawnSpec];
    [SpawnSpec.initSupabaseServer] is the whole function. *)
Definition initSupabaseServer (st : session) : session * nat :=
  match process st with
  | Some _ => new_promise (Resolved (JBool true)) st
  | None =>
      let '(st1, p) := new_promise Pending st in
      let '(st2, h) := spawn st1 in
      let st3 := set_process (Some h) st2 in
      let '(id, st4) := take_id st3 in
      let st5 := on_data h (SupabaseInitData p EmptyString) st4 in
      let st6 := write h (initMessage id) st5 in
      (setTimeout (InitTimer p) st6, p)
  end.

(** [sendSupabaseMessage(message)] *)
Definition sendSupabaseMessage (message : Json) (st : session)
  : session * nat :=
  let '(st1, p) := new_promise Pending st in
  match process st1 with
  | None => (reject p "Supabase server not running" st1, p)
  | Some h =>
      let expectedId := prop (Some message) "id" in
      let st2 := on_data h (SupabaseData p expectedId EmptyString) st1 in
      let st3 := write h message st2 in
      (setTimeout (CallTimer p) st3, p)
  end.

(** One event of the event loop. The 'error' and 'exit' handlers log and
    set [supabaseProcess = null]. *)
Definition step (st : session) (e : event) : session :=
  match e with
  | StdoutData h data => emit (run_listener h data) (listeners_of h st) st
  | Exit h _ => set_process None (mark_exited h st)
  | ChildError _ => set_process None st
  | TimerFires t => if armed t st then timeout t (disarm t st) else st
  end.

End WithParser.
End Supabase.

(** *** The legacy wrapper: [initMCPServer] of [mcp-server.js] *)

Module Legacy.
Section WithParser.
Context `{JsonParser}.

(** [onInitData]: the first chunk that is not blank decides. *)
Definition onInitData (p : nat) (data : string) (st : session)
  : session * bool :=
  let response := Js.trim data in
  if Js.nonempty response then
    match process st with
    | None => (throw_uncaught TypeError st, true)
    | Some cur =>
        let st1 := removeListener cur p st in
        match JSON_parse response with
        | Some parsed =>
            if truthy (Some parsed) && truthy (prop (Some parsed) "result")
            then (resolve p (JBool true) st1, false)
            else (reject p "MCP initialization failed" st1, false)
        | None => (reject p SyntaxError st1, false)
        end
    end
  else (st, false).

Definition run_listener (data : string) (l : listener) (st : session)
  : session * bool :=
  match l with
  | LegacyInitData p => onInitData p data st
  | XeroData p => Xero.onData p data st
  | _ => (st, false)
  end.

Definition timeout (t : timer) (st : session) : session :=
  match process st with
  | None => throw_uncaught TypeError st
  | Some cur =>
      match t with
      | InitTimer p =>
          reject p "Timeout during initialization" (removeListener cur p st)
      | CallTimer p =>
          reject p "Timeout waiting for response" (removeListener cur p st)
      end
  end.

Definition initMCPServer (st : session) : session * nat :=
  match process st with
  | Some _ => new_promise (Resolved (JBool true)) st
  | None =>
      let '(st1, p) := new_promise Pending st in
      let '(st2, h) := spawn st1 in
      let st3 := set_process (Some h) st2 in
      let '(id, st4) := take_id st3 in
      let st5 := on_data h (LegacyInitData p) st4 in
      let st6 := write h (initMessage id) st5 in
      (setTimeout (InitTimer p) st6, p)
  end.

(** No 'exit' or 'error' handler is registered: an 'error' event of the
    child is thrown by the emitter. *)
Definition step (st : session) (e : event) : session :=
  match e with
  | StdoutData h data => emit (run_listener data) (listeners_of h st) st
  | Exit h _ => mark_exited h st
  | ChildError _ => throw_uncaught UnhandledError st
  | TimerFires t => if armed t st then timeout t (disarm t st) else st
  end.

End WithParser.
End Legacy.

(** ** The HTTP handlers

    A handler runs on the state of both sessions. Where it awaits a promise
    that is still pending, the environment says how that promise settles
    (the child's answer, or the timer): [init_settles] for the handshake of
    a cold start, [send_settles] for a call. A promise that never settles
    blocks the handler. *)

Inductive provider : Type := XeroP | SupabaseP.

Record bridge : Type := mkBridge {
  xero : session;
  supabase : session
}.

Definition boot : bridge := {| xero := fresh; supabase := fresh |}.

Definition session_of (k : provider) (b : bridge) : session :=
  match k with XeroP => xero b | SupabaseP => supabase b end.

Definition with_session (k : provider) (st : session) (b : bridge) : bridge :=
  match k with
  | XeroP => {| xero := st; supabase := supabase b |}
  | SupabaseP => {| xero := xero b; supabase := st |}
  end.

Record World : Type := mkWorld {
  init_settles : provider -> pstate;
  send_settles : provider -> Json -> pstate
}.

Record response : Type := mkResponse {
  status : nat;
  body : Json
}.

(** The outcome of running a piece of handler code: a value, an exception
    (its [message]), or a wait that never ends. *)
Inductive result (A : Type) : Type :=
| Done (a : A) (b : bridge)
| Thrown (message : string) (b : bridge)
| Blocked (b : bridge).

Arguments Done {A} a b.
Arguments Thrown {A} message b.
Arguments Blocked {A} b.

Definition M (A : Type) : Type := bridge -> result A.

Definition ret {A} (a : A) : M A := fun b => Done a b.

Definition bind {A B} (m : M A) (f : A -> M B) : M B :=
  fun b =>
    match m b with
    | Done a b' => f a b'
    | Thrown e b' => Thrown e b'
    | Blocked b' => Blocked b'
    end.

Definition throw {A} (message : string) : M A := fun b => Thrown message b.

(** [try { m } catch (e) { h(e.message) }] *)
Definition try_catch {A} (m : M A) (h : string -> M A) : M A :=
  fun b =>
    match m b with
    | Thrown e b' => h e b'
    | r => r
    end.

Declare Scope handler_scope.
Delimit Scope handler_scope with handler.
Notation "x <- m ;; k" := (bind m (fun x => k))
  (at level 100, m at next level, right associativity) : handler_scope.
Notation "m ;;; k" := (bind m (fun _ => k))
  (at level 100, right associativity) : handler_scope.
Local Open Scope handler_scope.

(** [await promise]: a promise of session [k], as started by [start]; a
    pending one settles as [how] says. *)
Definition await (k : provider) (start : session -> session * nat)
           (how : pstate) : M Json :=
  fun b =>
    let '(st, p) := start (session_of k b) in
    let st' := settle p how st in
    let b' := with_session k st' b in
    match promises st' !! p with
    | Some (Resolved v) => Done v b'
    | Some (Rejected message) => Thrown message b'
    | _ => Blocked b'
    end.

(** [messageId++] and [supabaseMessageId++] *)
Definition next_id (k : provider) : M Z :=
  fun b =>
    let '(id, st) := take_id (session_of k b) in
    Done id (with_session k st b).

(** [res.json(v)] and [res.status(c).json(v)] *)
Definition json (v : Json) : M response := ret (mkResponse 200 v).
Definition status_json (c : nat) (v : Json) : M response :=
  ret (mkResponse c v).

(** [e?.message || fallback] *)
Definition message_or (message fallback : string) : string :=
  if Js.nonempty message then message else fallback.

Definition error_envelope (code : Z) (message : string) : Json :=
  JObj [("jsonrpc", JStr "2.0");
        ("error", JObj [("code", JNum code); ("message", JStr message)])].

(** [{ jsonrpc: '2.0', id, method: 'tools/list', params: {} }] *)
Definition tools_list (id : Z) : Json :=
  JObj [("jsonrpc", JStr "2.0"); ("id", JNum id);
        ("method", JStr "tools/list"); ("params", JObj [])].

(** [{ jsonrpc: '2.0', id, method: 'tools/call',
       params: { name, arguments } }] *)
Definition tools_call (id : Z) (name : string) (args : Json) : Json :=
  JObj [("jsonrpc", JStr "2.0"); ("id", JNum id);
        ("method", JStr "tools/call");
        ("params", JObj [("name", JStr name); ("arguments", args)])].

(** [{ jsonrpc: '2.0', result: { tools } }] *)
Definition tools_result (tools : list Json) : Json :=
  JObj [("jsonrpc", JStr "2.0"); ("result", JObj [("tools", JArr tools)])].

(** [a && b] *)
Definition js_and (a b : option Json) : option Json :=
  if truthy a then b else a.

(** [v || {}] *)
Definition or_empty_object (v : option Json) : Json :=
  match js_or v (Some (JObj [])) with
  | Some j => j
  | None => JObj []
  end.

(** [v.k], which throws on [undefined] and [null]. *)
Definition member (v : option Json) (k : string) : M (option Json) :=
  match v with
  | None => throw TypeError
  | Some JNull => throw TypeError
  | _ => ret (prop v k)
  end.

(** [req.query.provider] as the query-string parser gives it for a
    parameter given once: [undefined] or a string (the empty string is
    falsy). *)
Definition query_given (q : option string) : option string :=
  match q with
  | Some s => if Js.nonempty s then Some s else None
  | None => None
  end.

(** [const [prefix, ...rest] = raw.split('.')] *)
Definition prefix_of (raw : string) : string :=
  match Js.split "." raw with
  | prefix :: _ => prefix
  | [] => EmptyString
  end.

Definition rest_of (raw : string) : string :=
  match Js.split "." raw with
  | _ :: rest => Js.join "." rest
  | [] => EmptyString
  end.

(** The registry [providers = { xero: ..., supabase: ... }]. *)
Definition providers : gmap string provider :=
  <["xero" := XeroP]> (<["supabase" := SupabaseP]> ∅).

(** The names every object inherits from [Object.prototype]. *)
Definition inherited_names : list string :=
  ["constructor"; "__proto__"; "hasOwnProperty"; "isPrototypeOf";
   "propertyIsEnumerable"; "toLocaleString"; "toString"; "valueOf";
   "__defineGetter__"; "__defineSetter__"; "__lookupGetter__";
   "__lookupSetter__"].

(** [providers[key]]: an entry of the registry, an inherited property
    (truthy, but without [init] and [send]), or [undefined]. *)
Inductive entry : Type :=
| Registered (k : provider)
| Inherited
| Undefined.

Definition providers_at (key : string) : entry :=
  match providers !! key with
  | Some k => Registered k
  | None =>
      if existsb (String.eqb key) inherited_names then Inherited
      else Undefined
  end.

(** [resp?.result?.tools || []], on which [map] is then called. *)
Definition tools_of (resp : Json) : M (list Json) :=
  match js_or (prop (prop (Some resp) "result") "tools") (Some (JArr [])) with
  | Some (JArr items) => ret items
  | _ => throw TypeError
  end.

(** [{ ...t, name: `${key}.${t.name}` }] on a tool that is not [null]. *)
Definition namespaced (key : string) (t : Json) : Json :=
  JObj (obj_set (spread (Some t)) "name"
                (JStr (key +:+ "." +:+ String_of (prop (Some t) "name")))).

(** The same as the callback of [tools.map]: reading [t.name] throws on
    [null], and the template literal throws on a name that does not
    convert to a string. *)
Definition prefixed (key : string) (t : Json) : M Json :=
  member (Some t) "name" ;;;
  if converts (prop (Some t) "name") then ret (namespaced key t)
  else throw TypeError.

(** [tools.map(f)] *)
Fixpoint map_tools (f : Json -> M Json) (tools : list Json) : M (list Json) :=
  match tools with
  | [] => ret []
  | t :: rest =>
      t' <- f t ;;
      rest' <- map_tools f rest ;;
      ret (t' :: rest')
  end.

Section Handlers.
Context `{JsonParser}.
Variable W : World.

(** [await providers.xero.init()] and [await providers.supabase.init()]
    (supabase in an environment in which the executor reaches [spawn], as
    [Supabase.initSupabaseServer] says). *)
Definition init (k : provider) : M Json :=
  match k with
  | XeroP => await XeroP Xero.initMCPServer (init_settles W XeroP)
  | SupabaseP =>
      await SupabaseP Supabase.initSupabaseServer (init_settles W SupabaseP)
  end.

(** [await providers.xero.send(m)] and [await providers.supabase.send(m)] *)
Definition send (k : provider) (message : Json) : M Json :=
  match k with
  | XeroP =>
      await XeroP (Xero.sendMCPMessage message) (send_settles W XeroP message)
  | SupabaseP =>
      await SupabaseP (Supabase.sendSupabaseMessage message)
            (send_settles W SupabaseP message)
  end.

(** The key that [GET /tools] compares with xero, supabase and all. *)
Definition listed_provider (query_provider : option string) : string :=
  Js.toLowerCase (match query_given query_provider with
                  | Some s => s
                  | None => "xero"
                  end).

(** One branch of [GET /tools]: list the tools of one provider. *)
Definition list_of (k : provider) (key : string) (all : bool)
  : M (list Json) :=
  init k ;;;
  id <- next_id k ;;
  resp <- send k (tools_list id) ;;
  tools <- tools_of resp ;;
  map_tools (fun t => if all then prefixed key t else ret t) tools.

(** [app.get('/tools')] *)
Definition get_tools (query_provider : option string) : M response :=
  let provider := listed_provider query_provider in
  let all := String.eqb provider "all" in
  try_catch
    (xs <- (if String.eqb provider "xero" || all
            then list_of XeroP "xero" all else ret []) ;;
     ss <- (if String.eqb provider "supabase" || all
            then list_of SupabaseP "supabase" all else ret []) ;;
     json (tools_result (xs ++ ss)))
    (fun e =>
       status_json 500 (error_envelope (-32000) (message_or e "tools error"))).

(** [app.get('/supabase/tools')] *)
Definition get_supabase_tools : M response :=
  try_catch
    (init SupabaseP ;;;
     id <- next_id SupabaseP ;;
     resp <- send SupabaseP
               (JObj [("jsonrpc", JStr "2.0"); ("id", JNum id);
                      ("method", JStr "tools/list")]) ;;
     json resp)
    (fun e => status_json 500 (JObj [("error", JStr e)])).

(** [app.post('/supabase/tools/:toolName')] *)
Definition post_supabase_tool (toolName : string) (req_body : option Json)
  : M response :=
  try_catch
    (init SupabaseP ;;;
     arguments <- member req_body "arguments" ;;
     let toolArguments := or_empty_object arguments in
     id <- next_id SupabaseP ;;
     resp <- send SupabaseP (tools_call id toolName toolArguments) ;;
     json resp)
    (fun e => status_json 500 (JObj [("error", JStr e)])).

(** [app.post('/supabase/mcp')] *)
Definition post_supabase_mcp (req_body : option Json) : M response :=
  try_catch
    (init SupabaseP ;;;
     id <- next_id SupabaseP ;;
     resp <- send SupabaseP
               (JObj (obj_assign [("jsonrpc", JStr "2.0"); ("id", JNum id)]
                                 (spread req_body))) ;;
     json resp)
    (fun e => status_json 500 (JObj [("error", JStr e)])).

(** The routing rule of [POST /tools/:toolName]: namespace prefix, then
    [?provider], then xero. *)
Definition route_tool (raw : string) (query_provider : option string)
  : string * string :=
  if Js.includes "." raw then (Js.toLowerCase (prefix_of raw), rest_of raw)
  else match query_given query_provider with
       | Some q => (Js.toLowerCase q, raw)
       | None => ("xero", raw)
       end.


(** [app.post('/tools/:toolName')] *)
Definition post_tool (raw : string) (query_provider : option string)
           (req_body : option Json) : M response :=
  let args := or_empty_object (js_and req_body (prop req_body "arguments")) in
  let '(providerKey, resolvedName) := route_tool raw query_provider in
  if String.eqb providerKey "all" then
    status_json 400
      (error_envelope (-32602) "provider=all not supported for tools/call")
  else
    match providers_at providerKey with
    | Undefined =>
        status_json 400
          (error_envelope (-32602) ("Unknown provider: " +:+ providerKey))
    | Inherited =>
        try_catch (throw TypeError)
          (fun e =>
             status_json 500
               (error_envelope (-32000) (message_or e "tool call failed")))
    | Registered k =>
        try_catch
          (init k ;;;
           id <- next_id (if String.eqb providerKey "supabase"
                          then SupabaseP else XeroP) ;;
           out <- send k (tools_call id resolvedName args) ;;
           json out)
          (fun e =>
             status_json 500
               (error_envelope (-32000) (message_or e "tool call failed")))
    end.

(** [msg.params.name = name] *)
Definition set_params_name (msg : Json) (name : string) : Json :=
  match msg with
  | JObj fields =>
      match obj_get fields "params" with
      | Some (JObj params) =>
          JObj (obj_set fields "params"
                        (JObj (obj_set params "name" (JStr name))))
      | _ => msg
      end
  | _ => msg
  end.

(** [req.query.provider] lower-cased, or xero. *)
Definition from_query (query_provider : option string) : string :=
  match query_given query_provider with
  | Some q => Js.toLowerCase q
  | None => "xero"
  end.

(** [msg.params.provider] lower-cased, else the query parameter, else
    xero. *)
Definition from_body_or_query (params : option Json)
           (query_provider : option string) : string :=
  if truthy (prop params "provider")
  then Js.toLowerCase (String_of (prop params "provider"))
  else from_query query_provider.

(** The routing of [POST /mcp] up to the registry lookup, for every method
    but the fan-out: the provider key and the message to forward. *)
Definition route_mcp (msg : Json) (query_provider : option string)
  : string * Json :=
  let method := prop (Some msg) "method" in
  let params := prop (Some msg) "params" in
  if strict_eq method (Some (JStr "tools/call")) then
    match js_or (prop params "name") (Some (JStr EmptyString)) with
    | Some (JStr name) =>
        if Js.includes "." name
        then (Js.toLowerCase (prefix_of name),
              set_params_name msg (rest_of name))
        else (from_body_or_query params query_provider, msg)
    | _ => (from_body_or_query params query_provider, msg)
    end
  else if strict_eq method (Some (JStr "tools/list")) then
    let want := from_body_or_query params query_provider in
    (if String.eqb want "supabase" then "supabase" else "xero", msg)
  else (from_query query_provider, msg).

(** Whether the provider hint of the body, where [POST /mcp] reads it
    ([String(msg.params.provider)] for [tools/call] without a namespace,
    [(msg.params.provider || ...).toString()] for [tools/list]), converts
    to a string; the query parameter is a string. *)
Definition provider_converts (msg : Json) : bool :=
  let method := prop (Some msg) "method" in
  let params := prop (Some msg) "params" in
  let hint := prop params "provider" in
  let read := negb (truthy hint) || converts hint in
  if strict_eq method (Some (JStr "tools/call")) then
    match js_or (prop params "name") (Some (JStr EmptyString)) with
    | Some (JStr name) => Js.includes "." name || read
    | _ => read
    end
  else if strict_eq method (Some (JStr "tools/list")) then read
  else true.

(** [want === 'all'] in the [tools/list] branch of [POST /mcp]. *)
Definition wants_all (msg : Json) (query_provider : option string) : bool :=
  strict_eq (prop (Some msg) "method") (Some (JStr "tools/list"))
  && String.eqb (from_body_or_query (prop (Some msg) "params") query_provider)
                "all".

(** [await Promise.all([providers.xero.init(), providers.supabase.init()])]:
    both are started, then both awaited. *)
Definition init_both : M Json :=
  fun b =>
    let '(sx, px) := Xero.initMCPServer (xero b) in
    let '(ss, ps) := Supabase.initSupabaseServer (supabase b) in
    let sx' := settle px (init_settles W XeroP) sx in
    let ss' := settle ps (init_settles W SupabaseP) ss in
    let b' := {| xero := sx'; supabase := ss' |} in
    match promises sx' !! px, promises ss' !! ps with
    | Some (Rejected message), _ => Thrown message b'
    | _, Some (Rejected message) => Thrown message b'
    | Some (Resolved v), Some (Resolved _) => Done v b'
    | _, _ => Blocked b'
    end.

(** [app.post('/mcp')] *)
Definition post_mcp (req_body : option Json) (query_provider : option string)
  : M response :=
  let msg := or_empty_object req_body in
  try_catch
    (if negb (provider_converts msg) then throw TypeError
     else if wants_all msg query_provider then
       init_both ;;;
       xid <- next_id XeroP ;;
       x <- send XeroP (tools_list xid) ;;
       sid <- next_id SupabaseP ;;
       s <- send SupabaseP (tools_list sid) ;;
       xs <- tools_of x ;;
       xTools <- map_tools (prefixed "xero") xs ;;
       ss <- tools_of s ;;
       sTools <- map_tools (prefixed "supabase") ss ;;
       json (tools_result (xTools ++ sTools))
     else
       let '(providerKey, msg') := route_mcp msg query_provider in
       match providers_at providerKey with
       | Undefined =>
           status_json 400
             (error_envelope (-32602) ("Unknown provider: " +:+ providerKey))
       | Inherited => throw TypeError
       | Registered k =>
           init k ;;;
           out <- send k msg' ;;
           json out
       end)
    (fun e =>
       status_json 500 (error_envelope (-32000) (message_or e "mcp error"))).

End Handlers.

(** ** The HTTP handlers of the legacy wrapper ([mcp-server.js]) *)

Module LegacyHttp.
Section Handlers.
Context `{JsonParser}.
Variable W : World.

Definition init : M Json :=
  await XeroP Legacy.initMCPServer (init_settles W XeroP).

Definition send (message : Json) : M Json :=
  await XeroP (Xero.sendMCPMessage message) (send_settles W XeroP message).

(** [app.get('/tools')] *)
Definition get_tools : M response :=
  try_catch
    (init ;;;
     id <- next_id XeroP ;;
     resp <- send (JObj [("jsonrpc", JStr "2.0"); ("id", JNum id);
                         ("method", JStr "tools/list")]) ;;
     json resp)
    (fun e => status_json 500 (JObj [("error", JStr e)])).

(** [app.post('/tools/:toolName')] *)
Definition post_tool (toolName : string) (req_body : option Json)
  : M response :=
  try_catch
    (init ;;;
     arguments <- member req_body "arguments" ;;
     let toolArguments := or_empty_object arguments in
     id <- next_id XeroP ;;
     resp <- send (tools_call id toolName toolArguments) ;;
     json resp)
    (fun e => status_json 500 (JObj [("error", JStr e)])).

(** [{ jsonrpc: "2.0", id: messageId++, ...req.body }] *)
Definition mcp_message (id : Z) (req_body : option Json) : Json :=
  JObj (obj_assign [("jsonrpc", JStr "2.0"); ("id", JNum id)]
                   (spread req_body)).

(** [app.post('/mcp')] *)
Definition post_mcp (req_body : option Json) : M response :=
  try_catch
    (init ;;;
     id <- next_id XeroP ;;
     resp <- send (mcp_message id req_body) ;;
     json resp)
    (fun e => status_json 500 (JObj [("error", JStr e)])).

End Handlers.
End LegacyHttp.

(** ** Runs and scenarios *)

(** The events of a run, in order. *)
Definition run_events (step : session -> event -> session)
           (st : session) (events : list event) : session :=
  fold_left step events st.

Definition newline : string := String "010" EmptyString.

(** One line of a child's stdout: the text and its line feed. *)
Definition line (text : string) : string := Js.quoted text +:+ newline.

Module Scenario.

(** A xero session after a successful handshake. *)
Definition xero_ready : session :=
  Xero.step (H := Parser.json_parse)
    (fst (Xero.initMCPServer fresh))
    (StdoutData 0 (line "{'jsonrpc':'2.0','id':1,'result':{}}")).

(** ... with one call in flight (id 2, promise 1). *)
Definition xero_one_call : session :=
  fst (Xero.sendMCPMessage (tools_list 2) xero_ready).

(** ... with two calls in flight (ids 2 and 3, promises 1 and 2). *)
Definition xero_two_calls : session :=
  fst (Xero.sendMCPMessage (tools_call 3 "list-contacts" (JObj []))
                           xero_one_call).

(** The same for supabase. *)
Definition supabase_ready : session :=
  Supabase.step (H := Parser.json_parse)
    (fst (Supabase.initSupabaseServer fresh))
    (StdoutData 0 (line "{'jsonrpc':'2.0','id':1,'result':{}}")).

Definition supabase_one_call : session :=
  fst (Supabase.sendSupabaseMessage (tools_list 2) supabase_ready).

Definition supabase_two_calls : session :=
  fst (Supabase.sendSupabaseMessage (tools_call 3 "list-tables" (JObj []))
                                    supabase_one_call).

(** The answers of a child to the calls 2 and 3, and to [initialize]. *)
Definition answer_2 : string :=
  "{'jsonrpc':'2.0','id':2,'result':{'tools':[]}}".
Definition answer_3 : string :=
  "{'jsonrpc':'2.0','id':3,'result':{'content':[]}}".
Definition init_error : string :=
  "{'jsonrpc':'2.0','id':1,'error':{'code':-32602,'message':'bad version'}}".
Definition frame_2 : Json :=
  JObj [("jsonrpc", JStr "2.0"); ("id", JNum 2);
        ("result", JObj [("tools", JArr [])])].
Definition frame_3 : Json :=
  JObj [("jsonrpc", JStr "2.0"); ("id", JNum 3);
        ("result", JObj [("content", JArr [])])].

(** A healthy pair of children: every handshake succeeds, xero lists one
    tool and supabase two. *)
Definition xero_listing : Json :=
  JObj [("jsonrpc", JStr "2.0"); ("id", JNum 2);
        ("result",
         JObj [("tools",
                JArr [JObj [("name", JStr "list-contacts");
                            ("inputSchema", JObj [])]])])].

Definition supabase_listing : Json :=
  JObj [("jsonrpc", JStr "2.0"); ("id", JNum 2);
        ("result",
         JObj [("tools",
                JArr [JObj [("name", JStr "list_tables")];
                      JObj [("name", JStr "execute_sql")]])])].

Definition healthy : World :=
  {| init_settles := fun _ => Resolved (JBool true);
     send_settles := fun k _ =>
       Resolved (match k with
                 | XeroP => xero_listing
                 | SupabaseP => supabase_listing
                 end) |}.

(** A [POST /mcp] body as a client writes it, without an [id]. *)
Definition call_without_id : Json :=
  JObj [("method", JStr "tools/call");
        ("params", JObj [("name", JStr "list-contacts");
                         ("arguments", JObj [])])].

(** A [POST /mcp] body that brings its own [id]. *)
Definition call_with_id_1 : Json :=
  JObj [("id", JNum 1); ("method", JStr "tools/call");
        ("params", JObj [("name", JStr "list-contacts");
                         ("arguments", JObj [])])].

End Scenario.

(** A [POST /mcp] body for [method] with a tool name and a body-level
    provider hint (an empty hint is falsy, as a missing one). *)
Definition request_params (name provider : string) : option Json :=
  Some (JObj [("name", JStr name); ("provider", JStr provider);
              ("arguments", JObj [])]).

Definition mcp_request (method name provider : string) : Json :=
  JObj [("jsonrpc", JStr "2.0"); ("method", JStr method);
        ("params", JObj [("name", JStr name); ("provider", JStr provider);
                         ("arguments", JObj [])])].

(** The text of a stream that arrives cut into [chunks]. A chunk is a
    text: a cut inside a multi-byte character is outside the model. *)
Fixpoint stream_of (chunks : list string) : string :=
  match chunks with
  | [] => EmptyString
  | data :: rest => data +:+ stream_of rest
  end.


(** ** Notions that the statements use

    Two strings that differ by the case of the letters A to Z only: the
    second one is the first one with some of its capitals A-Z replaced by
    the small letter. *)
Inductive case_variant : string -> string -> Prop :=
| variant_empty : case_variant EmptyString EmptyString
| variant_same (c : ascii) (s t : string) :
    case_variant s t -> case_variant (String c s) (String c t)
| variant_capital (c : ascii) (s t : string) :
    (65 <= nat_of_ascii c <= 90)%nat ->
    case_variant s t ->
    case_variant (String c s) (String (ascii_of_nat (nat_of_ascii c + 32)) t).



(** ** The command line of the supabase child

    The first lines of the executor of [initSupabaseServer], up to the
    [spawn] call. The file reads [defaultArgs] without declaring it: the
    name is a parameter here, [None] standing for the [ReferenceError] of an
    undeclared name. The platform is not Windows (no wrapping into
    [cmd.exe /c]). *)

Module SpawnSpec.

Record Env : Type := mkEnv {
  SUPABASE_MCP_BIN : option string;
  SUPABASE_MCP_ARGS : option string;
  SUPABASE_PROJECT_REF : option string;
  SUPABASE_FEATURES : option string;
  SUPABASE_READ_ONLY : option string
}.

(** [process.env.X || ''] *)
Definition or_empty (v : option string) : string :=
  match v with
  | Some s => s
  | None => EmptyString
  end.

(** [s.match(/\S+/g) || []]: the maximal runs without white space. *)
Fixpoint words (s : string) : list string :=
  match s with
  | EmptyString => []
  | String c r =>
      if Js.is_space c then words r
      else match r with
           | EmptyString => [String c EmptyString]
           | String c' _ =>
               if Js.is_space c' then String c EmptyString :: words r
               else match words r with
                    | w :: ws => String c w :: ws
                    | [] => [String c EmptyString]
                    end
           end
  end.

(** [s.endsWith(suffix)] *)
Fixpoint ends_with (suffix s : string) : bool :=
  String.eqb suffix s
  || match s with
     | EmptyString => false
     | String _ r => ends_with suffix r
     end.

(** [/npm(?:\.cmd)?$/i.test(bin)]; an unset variable is tested as the text
    [undefined]. *)
Definition is_npm (bin : option string) : bool :=
  let text := Js.toLowerCase (match bin with
                              | Some s => s
                              | None => "undefined"
                              end) in
  ends_with "npm" text || ends_with "npm.cmd" text.

(** [args[0] !== 'exec'] *)
Definition not_exec_first (args : list string) : bool :=
  match args with
  | first :: _ => negb (String.eqb first "exec")
  | [] => true
  end.

(** [args.some((a) => a.startsWith(flag))] *)
Definition mentions (flag : string) (args : list string) : bool :=
  existsb (String.prefix flag) args.

(** [['1','true','yes'].includes((v || '').toLowerCase())] *)
Definition switched_on (v : option string) : bool :=
  existsb (String.eqb (Js.toLowerCase (or_empty v))) ["1"; "true"; "yes"].

(** [args] after the [npm exec --] step: the arguments of
    [SUPABASE_MCP_ARGS], or else [defaultArgs], behind [exec --] when the
    program is npm. *)
Definition base_args (defaultArgs : option (list string)) (env : Env)
  : option (list string) :=
  let rawArgs := or_empty (SUPABASE_MCP_ARGS env) in
  match (if Js.nonempty rawArgs then Some (words rawArgs) else defaultArgs) with
  | None => None
  | Some args0 =>
      Some (if is_npm (SUPABASE_MCP_BIN env) && not_exec_first args0
            then "exec" :: "--" :: args0 else args0)
  end.

(** The value of [args] when [spawn] is called. *)
Definition effective_args (defaultArgs : option (list string)) (env : Env)
  : option (list string) :=
  match base_args defaultArgs env with
  | None => None
  | Some args1 =>
      let args2 :=
        if negb (mentions "--project-ref" args1)
           && Js.nonempty (or_empty (SUPABASE_PROJECT_REF env))
        then (args1
              ++ ["--project-ref=" +:+ or_empty (SUPABASE_PROJECT_REF env)])%list
        else args1 in
      let args3 :=
        if negb (mentions "--features" args2)
           && Js.nonempty (or_empty (SUPABASE_FEATURES env))
        then (args2
              ++ ["--features=" +:+ or_empty (SUPABASE_FEATURES env)])%list
        else args2 in
      let args4 :=
        if negb (existsb (String.eqb "--read-only") args3)
           && switched_on (SUPABASE_READ_ONLY env)
        then (args3 ++ ["--read-only"])%list
        else args3 in
      Some args4
  end.

(** What the executor does up to [spawn(bin, args)]: it calls [spawn] with
    a program and its arguments, or an exception leaves it before a child
    exists. [defaultArgs.slice()] throws a [ReferenceError] when the name
    is not declared, and [spawn] itself throws on a program that is
    [undefined] or the empty string; the wording is that of Node.js. *)
Inductive outcome : Type :=
| Spawns (bin : string) (args : list string)
| Throws (message : string).

Definition spawn_call (defaultArgs : option (list string)) (env : Env)
  : outcome :=
  match effective_args defaultArgs env with
  | None => Throws "defaultArgs is not defined"
  | Some args =>
      match SUPABASE_MCP_BIN env with
      | None =>
          Throws (Js.quoted "The 'file' argument must be of type string. Received undefined")
      | Some bin =>
          if Js.nonempty bin then Spawns bin args
          else Throws "The argument 'file' cannot be empty. Received ''"
      end
  end.

(** The whole of [initSupabaseServer()]: the early return when there is a
    process handle; else the executor, whose exception before [spawn]
    rejects the promise with no child spawned, no id taken and no listener
    or timer set. *)
Definition initSupabaseServer (defaultArgs : option (list string)) (env : Env)
           (st : session) : session * nat :=
  match process st, spawn_call defaultArgs env with
  | None, Throws message => new_promise (Rejected message) st
  | _, _ => Supabase.initSupabaseServer st
  end.

End SpawnSpec.

(** ** Traces: what a session goes through

    Besides the events of the event loop, a session is acted upon by the
    handlers, which call [init] and [send]. *)

Inductive action : Type :=
| Happens (e : event)
| CallsInit
| CallsSend (message : Json).

Module Trace.
Section WithParser.
Context `{JsonParser}.

Definition xero (st : session) (a : action) : session :=
  match a with
  | Happens e => Xero.step st e
  | CallsInit => fst (Xero.initMCPServer st)
  | CallsSend message => fst (Xero.sendMCPMessage message st)
  end.

Definition supabase (st : session) (a : action) : session :=
  match a with
  | Happens e => Supabase.step st e
  | CallsInit => fst (Supabase.initSupabaseServer st)
  | CallsSend message => fst (Supabase.sendSupabaseMessage message st)
  end.

(** The supabase session in an environment: [init] is the whole of
    [initSupabaseServer]. *)
Definition supabase_in (defaultArgs : option (list string))
           (env : SpawnSpec.Env) (st : session) (a : action) : session :=
  match a with
  | Happens e => Supabase.step st e
  | CallsInit => fst (SpawnSpec.initSupabaseServer defaultArgs env st)
  | CallsSend message => fst (Supabase.sendSupabaseMessage message st)
  end.

Definition run (act : session -> action -> session) (st : session)
           (actions : list action) : session :=
  fold_left act actions st.

End WithParser.
End Trace.

(** The first thing written to a child is an [initialize] request. *)
Definition greeted (c : child) : Prop :=
  exists id rest, stdin c = initMessage id :: rest.

(** The process handle, when there is one, is that of a child that has not
    exited. *)
Definition live_handle (st : session) : Prop :=
  forall h, process st = Some h ->
            exists c, children st !! h = Some c /\ exited c = false.

(** The listeners of child [h] that settle promise [p]. *)
Definition listeners_for (p h : nat) (st : session) : list listener :=
  List.filter (fun l => Nat.eqb (listener_id l) p) (listeners_of h st).

(** Promise [p] is pending and waits for the child [h] of the session to
    write: [l] is its listener on the stdout of [h], the only one that
    settles [p]. Other listeners may be on the same stdout. *)
Definition waiting (st : session) (h p : nat) (l : listener) : Prop :=
  process st = Some h
  /\ listeners_for p h st = [l]
  /\ promises st !! p = Some Pending.

(** A supabase call is in flight: its listener expects [expectedId] and
    holds [callBuffer]. *)
Definition listening (st : session) (h p : nat) (expectedId : option Json)
           (callBuffer : string) : Prop :=
  waiting st h p (SupabaseData p expectedId callBuffer).

(** The supabase handshake is in flight: its listener holds
    [initBuffer]. *)
Definition shaking_hands (st : session) (h p : nat) (initBuffer : string)
  : Prop :=
  waiting st h p (SupabaseInitData p initBuffer).

(** Every listener belongs to a promise that exists. *)
Definition listeners_allocated (st : session) : Prop :=
  forall h l, In l (listeners_of h st) ->
              (listener_id l < List.length (promises st))%nat.

(** From [st] to [st'] no listener was added for a promise that had none,
    and no promise was dropped. *)
Definition no_new_listener (st st' : session) : Prop :=
  (forall h l, In l (listeners_of h st') ->
               exists l0, In l0 (listeners_of h st)
                          /\ listener_id l0 = listener_id l)
  /\ (List.length (promises st) <= List.length (promises st'))%nat.

(** ** The handshake listener of supabase, seen on its own *)

Module Handshake.
Section WithParser.
Context `{JsonParser}.

(** [onInitData] of [initSupabaseServer] on the chunks of the stream in
    turn: does the handshake succeed? *)
Fixpoint supabase (initBuffer : string) (chunks : list string) : bool :=
  match chunks with
  | [] => false
  | data :: rest =>
      let '(lines, buffer) := Supabase.take_lines initBuffer data in
      if Supabase.result_frame_in lines then true else supabase buffer rest
  end.

(** A line that ends the handshake: what the loop of [onInitData] looks
    for. *)
Definition result_line (raw : string) : Prop :=
  looks_like_json (Js.trim raw) = true
  /\ exists response,
       JSON_parse (Js.trim raw) = Some response
       /\ truthy (Some response) = true
       /\ truthy (prop (Some response) "result") = true.

End WithParser.
End Handshake.

(** ** What a handler leaves behind *)

(** The state of the bridge when the handler stops. *)
Definition final {A} (r : result A) : bridge :=
  match r with
  | Done _ b => b
  | Thrown _ b => b
  | Blocked b => b
  end.

(** The key under which a provider is registered. *)
Definition key_of (k : provider) : string :=
  match k with
  | XeroP => "xero"
  | SupabaseP => "supabase"
  end.

(** The handler leaves the session of provider [k] as it found it. *)
Definition spares {A} (k : provider) (m : M A) : Prop :=
  forall b, session_of k (final (m b)) = session_of k b.

(** The answer of a routing handler: a 200, or the JSON-RPC error envelope
    with status 400 and code -32602 or status 500 and code -32000. *)
Definition well_answered (r : response) : Prop :=
  status r = 200%nat
  \/ exists message,
       r = mkResponse 400 (error_envelope (-32602) message)
       \/ r = mkResponse 500 (error_envelope (-32000) message).

(** The answer of a handler outside the routing ones: a 200, or a 500
    whose body has an [error] field. *)
Definition answered_or_failed (r : response) : Prop :=
  status r = 200%nat
  \/ (status r = 500%nat
      /\ exists e, prop (Some (body r)) "error" = Some e).

(** A handler answers in the way [ok], or waits; no exception gets out. *)
Definition answers (ok : response -> Prop) (r : result response) : Prop :=
  match r with
  | Done r _ => ok r
  | Thrown _ _ => False
  | Blocked _ => True
  end.

(** ** The health probe *)

Module Health.
Section Handlers.
Variable W : World.
Variable defaultArgs : option (list string).
Variable env : SpawnSpec.Env.

(** [x ? 'running' : 'stopped'] on a process handle. *)
Definition running_or_stopped (st : session) : Json :=
  JStr (match process st with Some _ => "running" | None => "stopped" end).

(** [providers.supabase.init().catch(() => {})]: started, not awaited; a
    rejection is swallowed. *)
Definition start_supabase : M unit :=
  fun b =>
    Done tt {| xero := xero b;
               supabase :=
                 fst (SpawnSpec.initSupabaseServer defaultArgs env
                        (supabase b)) |}.

(** [app.get('/health')] of the bridge; [now] is the clock when the answer
    is written and [url] the text [http://localhost:PORT]. *)
Definition get_health (now url : string) : M response :=
  try_catch
    (init W XeroP ;;;
     start_supabase ;;;
     fun b =>
       status_json 200
         (JObj [("status", JStr "ok"); ("ok", JBool true);
                ("providers",
                 JObj [("xero", JBool true);
                       ("supabase",
                        JBool (match process (supabase b) with
                               | Some _ => true
                               | None => false
                               end))]);
                ("mcpServer", running_or_stopped (xero b));
                ("supabaseServer", running_or_stopped (supabase b));
                ("timestamp", JStr now); ("url", JStr url)]) b)
    (fun e b =>
       status_json 500
         (JObj [("status", JStr "error"); ("ok", JBool false);
                ("error", JStr (message_or e "health check failed"));
                ("mcpServer", running_or_stopped (xero b));
                ("supabaseServer", running_or_stopped (supabase b));
                ("timestamp", JStr now); ("url", JStr url)]) b).

End Handlers.
End Health.

(** ** The HTTP handlers of the xero-only bridge (second half of
    [mcp-server.js]) *)

Module XeroOnly.

(** [raw.includes('.') ? raw.split('.').pop() : raw] *)
Definition resolved_name (raw : string) : string :=
  if Js.includes "." raw then snd (pop (Js.split "." raw)) else raw.

(** The rewriting of [POST /mcp]: a namespaced tool name loses everything
    up to its last dot. *)
Definition rewritten (msg : Json) : Json :=
  if strict_eq (prop (Some msg) "method") (Some (JStr "tools/call")) then
    match js_or (prop (prop (Some msg) "params") "name")
                (Some (JStr EmptyString)) with
    | Some (JStr name) =>
        if Js.includes "." name
        then set_params_name msg (snd (pop (Js.split "." name)))
        else msg
    | _ => msg
    end
  else msg.

(** [v || []] *)
Definition or_empty_array (v : option Json) : Json :=
  match js_or v (Some (JArr [])) with
  | Some j => j
  | None => JArr []
  end.

Section Handlers.
Variable W : World.

(** [app.get('/tools')] *)
Definition get_tools : M response :=
  try_catch
    (init W XeroP ;;;
     id <- next_id XeroP ;;
     resp <- send W XeroP (tools_list id) ;;
     json (JObj [("jsonrpc", JStr "2.0");
                 ("result",
                  JObj [("tools",
                         or_empty_array
                           (prop (prop (Some resp) "result") "tools"))])]))
    (fun e =>
       status_json 500 (error_envelope (-32000) (message_or e "tools error"))).

(** [app.post('/tools/:toolName')] *)
Definition post_tool (raw : string) (req_body : option Json) : M response :=
  let args := or_empty_object (js_and req_body (prop req_body "arguments")) in
  try_catch
    (init W XeroP ;;;
     id <- next_id XeroP ;;
     out <- send W XeroP (tools_call id (resolved_name raw) args) ;;
     json out)
    (fun e =>
       status_json 500
         (error_envelope (-32000) (message_or e "tool call failed"))).

(** [app.post('/mcp')] *)
Definition post_mcp (req_body : option Json) : M response :=
  try_catch
    (init W XeroP ;;;
     out <- send W XeroP (rewritten (or_empty_object req_body)) ;;
     json out)
    (fun e =>
       status_json 500 (error_envelope (-32000) (message_or e "mcp error"))).

End Handlers.
End XeroOnly.

(** * Properties *)

(** ** Lower-casing and the routing helpers *)

Lemma lower_ascii_idem (c : ascii) :
  Js.lower_ascii (Js.lower_ascii c) = Js.lower_ascii c.
Proof. destruct c as [[] [] [] [] [] [] [] []]; reflexivity. Qed.

Lemma lower_ascii_dot (c : ascii) :
  Ascii.eqb (Js.lower_ascii c) "." = Ascii.eqb c ".".
Proof. destruct c as [[] [] [] [] [] [] [] []]; reflexivity. Qed.

Lemma toLowerCase_idem (s : string) :
  Js.toLowerCase (Js.toLowerCase s) = Js.toLowerCase s.
Proof.
  induction s as [|c r IH]; simpl; [reflexivity|].
  now rewrite lower_ascii_idem, IH.
Qed.

Lemma nonempty_toLowerCase (s : string) :
  Js.nonempty (Js.toLowerCase s) = Js.nonempty s.
Proof. destruct s; reflexivity. Qed.

Lemma includes_dot_toLowerCase (s : string) :
  Js.includes "." (Js.toLowerCase s) = Js.includes "." s.
Proof.
  induction s as [|c r IH]; simpl; [reflexivity|].
  now rewrite lower_ascii_dot, IH.
Qed.

Lemma split_dot_toLowerCase (s : string) :
  Js.split "." (Js.toLowerCase s) = map Js.toLowerCase (Js.split "." s).
Proof.
  induction s as [|c r IH]; simpl; [reflexivity|].
  rewrite lower_ascii_dot, IH.
  destruct (Ascii.eqb c "."); [reflexivity|].
  destruct (Js.split "." r); reflexivity.
Qed.

Lemma prefix_of_toLowerCase (s : string) :
  prefix_of (Js.toLowerCase s) = Js.toLowerCase (prefix_of s).
Proof.
  unfold prefix_of. rewrite split_dot_toLowerCase.
  destruct (Js.split "." s); reflexivity.
Qed.

Lemma query_given_toLowerCase (q : option string) :
  query_given (Js.toLowerCase <$> q) = Js.toLowerCase <$> query_given q.
Proof.
  destruct q as [s|]; simpl; [|reflexivity].
  rewrite nonempty_toLowerCase. now destruct (Js.nonempty s).
Qed.

Lemma from_query_toLowerCase (q : option string) :
  from_query (Js.toLowerCase <$> q) = from_query q.
Proof.
  unfold from_query. rewrite query_given_toLowerCase.
  destruct (query_given q); simpl; [apply toLowerCase_idem | reflexivity].
Qed.

Lemma from_query_lower (q : option string) :
  Js.toLowerCase (from_query q) = from_query q.
Proof.
  unfold from_query.
  destruct (query_given q); [apply toLowerCase_idem | reflexivity].
Qed.

(** [params.provider] of a request built by [mcp_request]. *)
Lemma from_body_or_query_request (name hint : string) (q : option string) :
  from_body_or_query
    (Some (JObj [("name", JStr name); ("provider", JStr hint);
                 ("arguments", JObj [])])) q
  = if Js.nonempty hint then Js.toLowerCase hint else from_query q.
Proof. reflexivity. Qed.

Lemma route_mcp_request (method name hint : string) (q : option string) :
  fst (route_mcp (mcp_request method name hint) q)
  = if String.eqb method "tools/call" then
      if Js.includes "." name then Js.toLowerCase (prefix_of name)
      else from_body_or_query (request_params name hint) q
    else if String.eqb method "tools/list" then
      if String.eqb (from_body_or_query (request_params name hint) q) "supabase"
      then "supabase" else "xero"
    else from_query q.
Proof.
  unfold route_mcp, mcp_request, request_params.
  cbn [prop obj_get String.eqb Ascii.eqb Bool.eqb strict_eq].
  destruct (String.eqb method "tools/call").
  - destruct name as [|c r]; [reflexivity|].
    unfold js_or, truthy, Js.nonempty.
    destruct (Js.includes "." (String c r)); reflexivity.
  - destruct (String.eqb method "tools/list"); reflexivity.
Qed.

Lemma wants_all_request (method name hint : string) (q : option string) :
  wants_all (mcp_request method name hint) q
  = String.eqb method "tools/list"
    && String.eqb (from_body_or_query (request_params name hint) q) "all".
Proof. reflexivity. Qed.

Lemma lower_ascii_capital (c : ascii) :
  (65 <= nat_of_ascii c <= 90)%nat ->
  Js.lower_ascii c = ascii_of_nat (nat_of_ascii c + 32).
Proof.
  intros [Hlo Hhi]. unfold Js.lower_ascii.
  apply Nat.leb_le in Hlo, Hhi. now rewrite Hlo, Hhi.
Qed.

(** A string that is all, xero or supabase up to the case of its letters
    is lower-cased to that key. *)
Lemma case_variant_lower (s t : string) :
  case_variant s t -> Js.toLowerCase t = t -> Js.toLowerCase s = t.
Proof.
  induction 1 as [|c s t _ IH|c s t Hc _ IH]; cbn [Js.toLowerCase].
  - reflexivity.
  - intros Ht. injection Ht as Hc Ht. rewrite Hc. f_equal. now apply IH.
  - intros Ht. injection Ht as _ Ht.
    rewrite (lower_ascii_capital c Hc). f_equal. now apply IH.
Qed.

Lemma case_variant_nonempty (s t : string) :
  case_variant s t -> Js.nonempty s = Js.nonempty t.
Proof. now destruct 1. Qed.

Lemma case_variant_dot (s t : string) :
  case_variant s t -> Js.includes "." s = Js.includes "." t.
Proof.
  induction 1 as [|c s t _ IH|c s t Hc _ IH]; cbn [Js.includes].
  - reflexivity.
  - now rewrite IH.
  - rewrite IH. f_equal.
    destruct (Ascii.eqb_spec c ".") as [->|_];
      [change (nat_of_ascii ".") with 46%nat in Hc; lia|].
    destruct (Ascii.eqb_spec (ascii_of_nat (nat_of_ascii c + 32)) ".")
      as [He|_]; [|reflexivity].
    apply (f_equal nat_of_ascii) in He.
    rewrite nat_ascii_embedding in He by lia.
    change (nat_of_ascii ".") with 46%nat in He. lia.
Qed.

Lemma prefix_of_namespace (key rest : string) :
  Js.includes "." key = false ->
  prefix_of (key +:+ "." +:+ rest) = key
  /\ Js.includes "." (key +:+ "." +:+ rest) = true.
Proof.
  unfold prefix_of. induction key as [|c r IH]; intros Hdot.
  - split; reflexivity.
  - cbn [Js.includes] in Hdot. apply orb_false_iff in Hdot as [Hc Hr].
    destruct (IH Hr) as [IHp IHi].
    change (String c r +:+ "." +:+ rest)
      with (String c (r +:+ "." +:+ rest)).
    cbn [Js.split Js.includes]. rewrite Hc, IHi. split; [|reflexivity].
    destruct (Js.split "." (r +:+ "." +:+ rest)) as [|x t]; cbn in *;
      now subst.
Qed.

(** C10. Provider selection ignores case at every routing point. For all
    inputs, the key that [POST /tools/:toolName], [GET /tools] and
    [POST /mcp] look up is the same for a tool name, a [provider] query
    parameter and a body-level provider field as for their lower-case
    forms, and is itself in lower case. And a hint that is xero or supabase
    up to the case of its letters selects that provider at each of these
    points: as the namespace of a tool name, as the query parameter and as
    the body-level field; a hint that is all up to case asks for every
    provider. *)
Theorem C10_provider_selection_ignores_case :
  forall (raw method name hint : string) (q : option string),
    fst (route_tool (Js.toLowerCase raw) (Js.toLowerCase <$> q))
      = fst (route_tool raw q)
    /\ Js.toLowerCase (fst (route_tool raw q)) = fst (route_tool raw q)
    /\ listed_provider (Js.toLowerCase <$> q) = listed_provider q
    /\ Js.toLowerCase (listed_provider q) = listed_provider q
    /\ fst (route_mcp (mcp_request method (Js.toLowerCase name)
                                   (Js.toLowerCase hint))
                      (Js.toLowerCase <$> q))
       = fst (route_mcp (mcp_request method name hint) q)
    /\ Js.toLowerCase (fst (route_mcp (mcp_request method name hint) q))
       = fst (route_mcp (mcp_request method name hint) q)
    /\ wants_all (mcp_request method (Js.toLowerCase name)
                              (Js.toLowerCase hint))
                 (Js.toLowerCase <$> q)
       = wants_all (mcp_request method name hint) q
    /\ (forall k : provider,
          case_variant hint (key_of k) ->
          Js.includes "." name = false ->
          providers_at (fst (route_tool (hint +:+ "." +:+ raw) q))
          = Registered k
          /\ providers_at (fst (route_tool name (Some hint))) = Registered k
          /\ listed_provider (Some hint) = key_of k
          /\ providers_at
               (fst (route_mcp
                       (mcp_request "tools/call" (hint +:+ "." +:+ raw)
                                    EmptyString) q))
             = Registered k
          /\ providers_at
               (fst (route_mcp (mcp_request "tools/call" name hint) q))
             = Registered k
          /\ providers_at
               (fst (route_mcp (mcp_request "tools/list" name hint) q))
             = Registered k
          /\ providers_at
               (fst (route_mcp (mcp_request method name EmptyString)
                               (Some hint)))
             = Registered k)
    /\ (case_variant hint "all" ->
        listed_provider (Some hint) = "all"
        /\ wants_all (mcp_request "tools/list" name hint) q = true
        /\ wants_all (mcp_request "tools/list" name EmptyString) (Some hint)
           = true).
Proof.
  intros raw method name hint q.
  assert (Hb : forall n, from_body_or_query
                 (request_params n (Js.toLowerCase hint)) (Js.toLowerCase <$> q)
               = from_body_or_query (request_params name hint) q).
  { intros n. unfold request_params.
    rewrite !from_body_or_query_request, nonempty_toLowerCase,
      toLowerCase_idem, from_query_toLowerCase. reflexivity. }
  assert (Hl : Js.toLowerCase (from_body_or_query (request_params name hint) q)
               = from_body_or_query (request_params name hint) q).
  { unfold request_params. rewrite from_body_or_query_request.
    destruct (Js.nonempty hint);
      [apply toLowerCase_idem | apply from_query_lower]. }
  split; [|split; [|split; [|split; [|split; [|split; [|split; [|split]]]]]]].
  - unfold route_tool.
    rewrite includes_dot_toLowerCase, prefix_of_toLowerCase,
      query_given_toLowerCase, toLowerCase_idem.
    destruct (Js.includes "." raw); [reflexivity|].
    destruct (query_given q); simpl; [apply toLowerCase_idem | reflexivity].
  - unfold route_tool.
    destruct (Js.includes "." raw); simpl; [apply toLowerCase_idem|].
    destruct (query_given q); simpl; [apply toLowerCase_idem | reflexivity].
  - unfold listed_provider. rewrite query_given_toLowerCase.
    destruct (query_given q); simpl;
      [now rewrite toLowerCase_idem | reflexivity].
  - unfold listed_provider. apply toLowerCase_idem.
  - rewrite !route_mcp_request, includes_dot_toLowerCase,
      prefix_of_toLowerCase, toLowerCase_idem, Hb, from_query_toLowerCase.
    reflexivity.
  - rewrite route_mcp_request.
    destruct (String.eqb method "tools/call").
    + destruct (Js.includes "." name); [apply toLowerCase_idem | exact Hl].
    + destruct (String.eqb method "tools/list");
        [now destruct (String.eqb _ "supabase") | apply from_query_lower].
  - rewrite !wants_all_request, Hb. reflexivity.
  - intros k Hv Hname.
    assert (Hlow : Js.toLowerCase hint = key_of k)
      by (apply case_variant_lower; [exact Hv | now destruct k]).
    assert (Hne : Js.nonempty hint = true)
      by (rewrite (case_variant_nonempty _ _ Hv); now destruct k).
    assert (Hdot : Js.includes "." hint = false)
      by (rewrite (case_variant_dot _ _ Hv); now destruct k).
    destruct (prefix_of_namespace hint raw Hdot) as [Hpre Hinc].
    assert (Hreg : providers_at (key_of k) = Registered k) by now destruct k.
    assert (Hroute : forall m : string,
               fst (route_mcp (mcp_request m name EmptyString) (Some hint))
               = key_of k).
    { intros m. rewrite route_mcp_request, Hname.
      unfold request_params. rewrite from_body_or_query_request.
      cbn [Js.nonempty]. unfold from_query, query_given.
      rewrite Hne, Hlow.
      destruct (String.eqb m "tools/call"); [reflexivity|].
      destruct (String.eqb m "tools/list"); [now destruct k | reflexivity]. }
    repeat split.
    + unfold route_tool. rewrite Hinc, Hpre. cbn [fst]. now rewrite Hlow.
    + unfold route_tool, query_given. rewrite Hname, Hne. cbn [fst].
      now rewrite Hlow.
    + unfold listed_provider, query_given. now rewrite Hne.
    + rewrite route_mcp_request. cbn [String.eqb Ascii.eqb Bool.eqb].
      now rewrite Hinc, Hpre, Hlow.
    + rewrite route_mcp_request. cbn [String.eqb Ascii.eqb Bool.eqb].
      rewrite Hname. unfold request_params.
      now rewrite from_body_or_query_request, Hne, Hlow.
    + rewrite route_mcp_request. cbn [String.eqb Ascii.eqb Bool.eqb].
      unfold request_params.
      rewrite from_body_or_query_request, Hne, Hlow. now destruct k.
    + now rewrite Hroute.
  - intros Hv.
    assert (Hlow : Js.toLowerCase hint = "all")
      by (apply case_variant_lower; [exact Hv | reflexivity]).
    assert (Hne : Js.nonempty hint = true)
      by (now rewrite (case_variant_nonempty _ _ Hv)).
    repeat split.
    + unfold listed_provider, query_given. now rewrite Hne.
    + rewrite wants_all_request. unfold request_params.
      now rewrite from_body_or_query_request, Hne, Hlow.
    + rewrite wants_all_request. unfold request_params.
      rewrite from_body_or_query_request. cbn [Js.nonempty].
      unfold from_query, query_given. now rewrite Hne, Hlow.
Qed.

Ltac spell_variant :=
  repeat lazymatch goal with
    | |- case_variant EmptyString EmptyString => apply variant_empty
    | |- case_variant (String ?c ?s) (String ?d ?t) =>
        first
          [ apply variant_same
          | change (case_variant (String c s)
                      (String (ascii_of_nat (nat_of_ascii c + 32)) t));
            apply variant_capital; [vm_compute; lia|] ]
    end.

(** C10 on the inputs of the claim: [XERO.list-contacts] goes to xero and
    [provider=SUPABASE] to supabase. *)
Lemma C10_witness_capitals :
  providers_at (fst (route_tool "XERO.list-contacts" None)) = Registered XeroP
  /\ fst (route_tool "XERO.list-contacts" None) = "xero"
  /\ providers_at (fst (route_tool "list_tables" (Some "SUPABASE")))
     = Registered SupabaseP
  /\ listed_provider (Some "SUPABASE") = "supabase"
  /\ providers_at
       (fst (route_mcp (mcp_request "tools/call" "list_tables" "SupaBase")
                       None))
     = Registered SupabaseP
  /\ listed_provider (Some "All") = "all".
Proof.
  assert (Hx : case_variant "XERO" "xero")
    by spell_variant.
  assert (Hs : case_variant "SUPABASE" "supabase")
    by spell_variant.
  assert (Hm : case_variant "SupaBase" "supabase")
    by spell_variant.
  assert (Ha : case_variant "All" "all")
    by spell_variant.
  pose proof (C10_provider_selection_ignores_case "list-contacts" "tools/call"
                "list_tables" "XERO" None) as (_ & _ & _ & _ & _ & _ & _ & H1 & _).
  pose proof (C10_provider_selection_ignores_case "list-contacts" "tools/call"
                "list_tables" "SUPABASE" None)
    as (_ & _ & _ & _ & _ & _ & _ & H2 & _).
  pose proof (C10_provider_selection_ignores_case "list-contacts" "tools/call"
                "list_tables" "SupaBase" None)
    as (_ & _ & _ & _ & _ & _ & _ & H3 & _).
  pose proof (C10_provider_selection_ignores_case "list-contacts" "tools/call"
                "list_tables" "All" None)
    as (_ & _ & _ & _ & _ & _ & _ & _ & H4).
  destruct (H1 XeroP Hx eq_refl) as (G1 & _).
  destruct (H2 SupabaseP Hs eq_refl) as (_ & G2 & G3 & _).
  destruct (H3 SupabaseP Hm eq_refl) as (_ & _ & _ & _ & G4 & _).
  destruct (H4 Ha) as (G5 & _).
  split; [exact G1|]. split; [reflexivity|]. split; [exact G2|].
  split; [exact G3|]. split; [exact G4 | exact G5].
Defined.

(** ** Unknown providers *)

(** C4. [GET /tools?provider=ghost] is answered with status 200 and an
    empty tool list, and [POST /mcp] with [tools/list] and provider ghost is
    routed to xero, where [POST /tools/unknown-tool?provider=ghost] is
    answered with status 400; none of the three touches a session. *)
Theorem C4_unknown_provider_is_listed_as_empty :
  forall (W : World) (b : bridge),
    providers_at "ghost" = Undefined
    /\ get_tools W (Some "ghost") b = Done (mkResponse 200 (tools_result [])) b
    /\ fst (route_mcp (mcp_request "tools/list" "" "ghost") None) = "xero"
    /\ post_tool W "unknown-tool" (Some "ghost") None b
       = Done (mkResponse 400
                 (error_envelope (-32602) "Unknown provider: ghost")) b.
Proof. intros W b. repeat split. Qed.

(** ** The arguments of a tool call *)

Lemma args_of_missing_body :
  or_empty_object (js_and None (prop None "arguments")) = JObj [].
Proof. reflexivity. Qed.

Lemma args_of_body_without_arguments (fields : list (string * Json)) :
  obj_get fields "arguments" = None ->
  or_empty_object (js_and (Some (JObj fields))
                          (prop (Some (JObj fields)) "arguments")) = JObj [].
Proof. intros Hf. unfold js_and, prop, truthy. now rewrite Hf. Qed.

(** C9. [POST /supabase/tools/:toolName] without a body: once the session
    is ready the read of [req.body.arguments] throws, the answer is status
    500 and nothing is sent to the child (on a bridge that just started,
    the child has received the handshake and nothing else).
    [POST /tools/:toolName] without a body sends [arguments: {}]. *)
Theorem C9_supabase_tool_without_body_is_not_sent :
  (forall (W : World) (toolName : string) (b : bridge),
      post_supabase_tool W toolName None b
      = match init W SupabaseP b with
        | Done _ b' =>
            Done (mkResponse 500 (JObj [("error", JStr TypeError)])) b'
        | Thrown e b' => Done (mkResponse 500 (JObj [("error", JStr e)])) b'
        | Blocked b' => Blocked b'
        end)
  /\ match post_supabase_tool Scenario.healthy "list_tables" None boot with
     | Done r b =>
         r = mkResponse 500 (JObj [("error", JStr TypeError)])
         /\ map stdin (children (supabase b)) = [[initMessage 1]]
     | _ => False
     end
  /\ match post_tool Scenario.healthy "supabase.list_tables" None None boot with
     | Done r b =>
         status r = 200%nat
         /\ map stdin (children (supabase b))
            = [[initMessage 1; tools_call 2 "list_tables" (JObj [])]]
     | _ => False
     end.
Proof.
  split; [|vm_compute; repeat split].
  intros W toolName b. unfold post_supabase_tool, try_catch, bind.
  destruct (init W SupabaseP b); reflexivity.
Qed.

(** ** Request ids *)

Lemma obj_get_set_ne (fields : list (string * Json)) (k k' : string)
      (v : Json) :
  k <> k' -> obj_get (obj_set fields k v) k' = obj_get fields k'.
Proof.
  intros Hne. induction fields as [|[k0 v0] rest IH]; simpl.
  - destruct (String.eqb_spec k k'); [contradiction | reflexivity].
  - destruct (String.eqb_spec k0 k) as [->|Hk]; simpl.
    + destruct (String.eqb_spec k k'); [contradiction | reflexivity].
    + destruct (String.eqb k0 k'); [reflexivity | exact IH].
Qed.

Lemma obj_get_set_eq (fields : list (string * Json)) (k : string) (v : Json) :
  obj_get (obj_set fields k v) k = Some v.
Proof.
  induction fields as [|[k0 v0] rest IH]; simpl.
  - now rewrite String.eqb_refl.
  - destruct (String.eqb_spec k0 k) as [->|Hk]; simpl.
    + now rewrite String.eqb_refl.
    + destruct (String.eqb_spec k0 k); [contradiction | exact IH].
Qed.

(** The message that [POST /mcp] forwards carries the [id] of the request
    body, whatever that is. *)
Lemma route_mcp_keeps_id (msg : Json) (q : option string) :
  prop (Some (snd (route_mcp msg q))) "id" = prop (Some msg) "id".
Proof.
  unfold route_mcp.
  destruct (strict_eq (prop (Some msg) "method") (Some (JStr "tools/call")));
    [|now destruct (strict_eq _ _)].
  destruct (js_or _ _) as [[| | |name| |]|]; try reflexivity.
  destruct (Js.includes "." name); [|reflexivity].
  cbn [snd]. unfold set_params_name.
  destruct msg as [| | | | |fields]; try reflexivity.
  destruct (obj_get fields "params") as [[| | | | |params]|]; try reflexivity.
  cbn [prop]. now apply obj_get_set_ne.
Qed.

(** C2. On a bridge that just started, a [POST /mcp] body without an [id] reaches
    the xero child as it is, without an id, and the counter does not move
    (it is 2 after the handshake and stays 2); a body with [id: 1] is
    forwarded with id 1, the id of the handshake, twice in a row. The
    legacy [POST /mcp] lets the body's id replace the counter's. *)
Theorem C2_post_mcp_forwards_the_body_unnumbered :
  match post_mcp Scenario.healthy (Some Scenario.call_without_id) None boot with
  | Done r b =>
      map stdin (children (xero b))
        = [[initMessage 1; Scenario.call_without_id]]
      /\ prop (Some Scenario.call_without_id) "id" = None
      /\ nextId (xero b) = 2
  | _ => False
  end
  /\ match post_mcp Scenario.healthy (Some Scenario.call_with_id_1) None
                    boot with
     | Done _ b1 =>
         match post_mcp Scenario.healthy (Some Scenario.call_with_id_1) None
                        b1 with
         | Done _ b2 =>
             map (fun m => prop (Some m) "id")
                 (concat (map stdin (children (xero b2))))
             = [Some (JNum 1); Some (JNum 1); Some (JNum 1)]
         | _ => False
         end
     | _ => False
     end
  /\ prop (Some (LegacyHttp.mcp_message 2 (Some Scenario.call_with_id_1))) "id"
     = Some (JNum 1).
Proof. vm_compute. repeat split. Qed.

(** ** Awaiting the sessions *)

Lemma lookup_snoc {A} (l : list A) (x : A) :
  (l ++ [x])%list !! List.length l = Some x.
Proof. induction l; simpl; auto. Qed.

Lemma insert_snoc {A} (l : list A) (x y : A) :
  <[List.length l := y]> (l ++ [x])%list = (l ++ [y])%list.
Proof. induction l; simpl; [reflexivity | now f_equal]. Qed.

Ltac session_simpl :=
  repeat progress
    (unfold await, Xero.initMCPServer, Supabase.initSupabaseServer,
       Xero.sendMCPMessage, Supabase.sendSupabaseMessage, new_promise, settle,
       spawn, take_id, setTimeout, write, on_data, alter_child, reject,
       resolve, set_promises, set_process, set_children, set_timers;
     cbn [session_of with_session process nextId children promises timers
          uncaught fst snd xero supabase];
     rewrite ?lookup_snoc, ?insert_snoc).


(** ** What 'exit' and 'error' do to the calls in flight *)

Section Sessions.
Context `{JsonParser}.

Lemma xero_exit_keeps_process (st : session) (h : nat) (code : Z) :
  process (Xero.step st (Exit h code)) = process st.
Proof. reflexivity. Qed.

Lemma supabase_exit_clears_process (st : session) (h : nat) (code : Z) :
  process (Supabase.step st (Exit h code)) = None.
Proof. reflexivity. Qed.

(** C6. The 'exit' and 'error' handlers of both providers reject
    nothing: every promise of the session keeps its state, and every
    timer that was armed stays armed. *)
Theorem C6_exit_and_error_settle_no_call :
  forall (st : session) (h : nat) (code : Z),
    promises (Xero.step st (Exit h code)) = promises st
    /\ promises (Xero.step st (ChildError h)) = promises st
    /\ promises (Supabase.step st (Exit h code)) = promises st
    /\ promises (Supabase.step st (ChildError h)) = promises st
    /\ timers (Xero.step st (Exit h code)) = timers st
    /\ timers (Xero.step st (ChildError h)) = timers st
    /\ timers (Supabase.step st (Exit h code)) = timers st
    /\ timers (Supabase.step st (ChildError h)) = timers st.
Proof. intros st h code. repeat split. Qed.

End Sessions.


(** C6, a run against the rejection at exit. With one call in flight, the child of either
    provider exits with code 1: the call is still pending afterwards, not
    rejected. *)
Lemma C6_counterexample_call_pending_after_exit :
  let x := Xero.step (H := Parser.json_parse) Scenario.xero_one_call
                     (Exit 0 1) in
  let s := Supabase.step (H := Parser.json_parse) Scenario.supabase_one_call
                         (Exit 0 1) in
  listeners_of 0 Scenario.xero_one_call = [XeroData 1]
  /\ promises Scenario.xero_one_call !! 1%nat = Some Pending
  /\ promises x !! 1%nat = Some Pending
  /\ ~ (exists message, promises x !! 1%nat = Some (Rejected message))
  /\ listeners_of 0 Scenario.supabase_one_call
     = [SupabaseData 1 (Some (JNum 2)) EmptyString]
  /\ promises Scenario.supabase_one_call !! 1%nat = Some Pending
  /\ promises s !! 1%nat = Some Pending
  /\ ~ (exists message, promises s !! 1%nat = Some (Rejected message)).
Proof.
  vm_compute. repeat split; try (intros [m Hm]; discriminate Hm).
Qed.

(** What follows for supabase, as a concrete run: after the exit the timer
    of the call finds no process handle, its callback throws before it
    rejects, and the call is pending for good. For xero the timer
    rejects. *)
Example supabase_call_outlives_its_timer :
  let events := [Exit 0 1; TimerFires (CallTimer 1)] in
  let x := run_events (Xero.step (H := Parser.json_parse))
                      Scenario.xero_one_call events in
  let s := run_events (Supabase.step (H := Parser.json_parse))
                      Scenario.supabase_one_call events in
  promises x !! 1%nat = Some (Rejected "Timeout waiting for response")
  /\ promises s !! 1%nat = Some Pending
  /\ uncaught s = [TypeError]
  /\ timers s = [InitTimer 0].
Proof. vm_compute. repeat split. Qed.

(** ** The handshake *)

(** C8. A cold start where the child answers [initialize] with an
    [error] frame. The xero and supabase listeners ignore it (the promise
    stays pending, the listener stays registered) and the attempt ends with
    the timer; the legacy listener rejects at once. *)
Theorem C8_error_frame_is_ignored_until_the_timeout :
  let chunk := line Scenario.init_error in
  let x0 := fst (Xero.initMCPServer fresh) in
  let x1 := Xero.step (H := Parser.json_parse) x0 (StdoutData 0 chunk) in
  let s0 := fst (Supabase.initSupabaseServer fresh) in
  let s1 := Supabase.step (H := Parser.json_parse) s0 (StdoutData 0 chunk) in
  let l0 := fst (Legacy.initMCPServer fresh) in
  let l1 := Legacy.step (H := Parser.json_parse) l0 (StdoutData 0 chunk) in
  Parser.json_parse (Js.trim chunk)
  = Some (JObj [("jsonrpc", JStr "2.0"); ("id", JNum 1);
                ("error", JObj [("code", JNum (-32602));
                                ("message", JStr "bad version")])])
  /\ x1 = x0
  /\ promises x1 !! 0%nat = Some Pending
  /\ listeners_of 0 x1 = [XeroInitData 0]
  /\ promises (Xero.step (H := Parser.json_parse) x1 (TimerFires (InitTimer 0)))
       !! 0%nat
     = Some (Rejected "Timeout during initialization")
  /\ s1 = s0
  /\ promises s1 !! 0%nat = Some Pending
  /\ listeners_of 0 s1 = [SupabaseInitData 0 EmptyString]
  /\ promises (Supabase.step (H := Parser.json_parse) s1
                             (TimerFires (InitTimer 0))) !! 0%nat
     = Some (Rejected "Supabase MCP init timeout")
  /\ promises l1 !! 0%nat = Some (Rejected "MCP initialization failed").
Proof. vm_compute. repeat split. Qed.

(** ** Correlation by id *)

Section Correlation.
Context `{JsonParser}.

(** The supabase listener delivers a frame only when its [id] is the
    expected one. *)
Lemma matching_frame_has_id (expectedId : option Json) (lines : list string)
      (parsed : Json) :
  nullish expectedId = false ->
  Supabase.matching_frame expectedId lines = Some parsed ->
  strict_eq (prop (Some parsed) "id") expectedId = true.
Proof.
  intros Hn. induction lines as [|raw rest IH];
    cbn [Supabase.matching_frame]; [discriminate|].
  destruct (negb (Js.nonempty (Js.trim raw))
            || negb (looks_like_json (Js.trim raw))); [exact IH|].
  destruct (JSON_parse (Js.trim raw)) as [j|]; [|exact IH].
  rewrite Hn, orb_false_r.
  destruct (truthy (Some j) && strict_eq (prop (Some j) "id") expectedId) eqn:E;
    [|exact IH].
  intros [= <-]. now apply andb_true_iff in E.
Qed.

Lemma deliver_has_id (expectedId : option Json) (chunks : list string)
      (buffer : string) (parsed : Json) :
  nullish expectedId = false ->
  Supabase.deliver expectedId buffer chunks = Some parsed ->
  strict_eq (prop (Some parsed) "id") expectedId = true.
Proof.
  intros Hn. revert buffer.
  induction chunks as [|data rest IH]; intros buffer;
    cbn [Supabase.deliver]; [discriminate|].
  destruct (Supabase.take_lines buffer data) as [lines buffer'].
  destruct (Supabase.matching_frame expectedId lines) eqn:E.
  - intros [= <-]. eapply matching_frame_has_id; eassumption.
  - apply IH.
Qed.

(** The xero listener settles its call with whatever frame comes first:
    no [id] is looked at. *)
Lemma xero_onData_takes_any_frame (p cur : nat) (data : string) (v : Json)
      (st : session) :
  process st = Some cur ->
  promises st !! p = Some Pending ->
  Js.nonempty (Js.trim data) = true ->
  JSON_parse (Js.trim data) = Some v ->
  promises (fst (Xero.onData p data st)) !! p = Some (Resolved v).
Proof.
  intros Hcur Hp Hn Hv. unfold Xero.onData. rewrite Hn, Hcur, Hv.
  unfold removeListener. session_simpl. rewrite Hp. session_simpl.
  apply list_lookup_insert_eq. now apply lookup_lt_Some in Hp.
Qed.

End Correlation.

(** C1. Two xero calls are in flight, with ids 2 and
    3, and the child answers call 3 first. Both promises resolve with the
    frame of id 3, and the answer to call 2 that follows reaches nobody.
    On the same stream the two supabase calls get their own frames. *)
Theorem C1_xero_call_resolves_with_another_id :
  let events := [StdoutData 0 (line Scenario.answer_3);
                 StdoutData 0 (line Scenario.answer_2)] in
  let x := run_events (Xero.step (H := Parser.json_parse))
                      Scenario.xero_two_calls events in
  let s := run_events (Supabase.step (H := Parser.json_parse))
                      Scenario.supabase_two_calls events in
  map (fun m => prop (Some m) "id")
      (concat (map stdin (children Scenario.xero_two_calls)))
  = [Some (JNum 1); Some (JNum 2); Some (JNum 3)]
  /\ promises Scenario.xero_two_calls
     = [Resolved (JBool true); Pending; Pending]
  /\ promises x = [Resolved (JBool true); Resolved Scenario.frame_3;
                   Resolved Scenario.frame_3]
  /\ promises s = [Resolved (JBool true); Resolved Scenario.frame_2;
                   Resolved Scenario.frame_3].
Proof. vm_compute. repeat split. Qed.

(** ** Chunk boundaries and the supabase listener *)

Lemma split_nonempty (c : ascii) (s : string) : Js.split c s <> [].
Proof.
  destruct s as [|a r]; simpl; [discriminate|].
  destruct (Ascii.eqb a c); [discriminate|].
  destruct (Js.split c r); discriminate.
Qed.

Lemma pop_cons (x : string) (l : list string) :
  l <> [] -> pop (x :: l) = (x :: fst (pop l), snd (pop l)).
Proof.
  intros Hl. destruct l as [|y l']; [congruence|].
  change (pop (x :: y :: l'))
    with (let '(front, final) := pop (y :: l') in (x :: front, final)).
  now destruct (pop (y :: l')).
Qed.

Lemma pop_app (front l : list string) :
  l <> [] -> pop (front ++ l) = ((front ++ fst (pop l))%list, snd (pop l)).
Proof.
  intros Hl. induction front as [|x front IH];
    [cbn [app]; now destruct (pop l)|].
  cbn [app]. rewrite pop_cons, IH; [reflexivity|].
  destruct front; [exact Hl | discriminate].
Qed.

(** Splitting a text that grows: the complete lines stay, the last segment
    is continued. *)
Lemma split_app (c : ascii) (x y : string) :
  Js.split c (x +:+ y)
  = (fst (pop (Js.split c x))
     ++ Js.split c (snd (pop (Js.split c x)) +:+ y))%list.
Proof.
  induction x as [|a r IH]; [reflexivity|].
  change (String a r +:+ y) with (String a (r +:+ y)).
  cbn [Js.split]. destruct (Ascii.eqb a c) eqn:Ea.
  - rewrite pop_cons by apply split_nonempty. cbn [fst snd app].
    now rewrite IH.
  - rewrite IH. destruct (Js.split c r) as [|h t] eqn:Er;
      [now apply split_nonempty in Er|].
    destruct t as [|h2 t2].
    + cbn [pop fst snd app].
      change (String a h +:+ y) with (String a (h +:+ y)).
      cbn [Js.split]. now rewrite Ea.
    + rewrite (pop_cons (String a h)) by discriminate.
      rewrite (pop_cons h) by discriminate. reflexivity.
Qed.

(** The carry-over buffer never holds a complete line. *)
Lemma last_segment_has_no_line (c : ascii) (s : string) :
  fst (pop (Js.split c (snd (pop (Js.split c s))))) = [].
Proof.
  induction s as [|a r IH]; [reflexivity|].
  cbn [Js.split]. destruct (Ascii.eqb a c) eqn:Ea.
  - rewrite pop_cons by apply split_nonempty. exact IH.
  - destruct (Js.split c r) as [|h t] eqn:Er;
      [now apply split_nonempty in Er|].
    destruct t as [|h2 t2].
    + cbn [pop snd] in *. cbn [Js.split]. rewrite Ea.
      destruct (Js.split c h) as [|h' t'] eqn:Eh;
        [now apply split_nonempty in Eh|].
      destruct t' as [|h3 t3]; [reflexivity|].
      rewrite pop_cons in IH by discriminate. discriminate IH.
    + rewrite (pop_cons (String a h)) by discriminate.
      rewrite (pop_cons h) in IH by discriminate. exact IH.
Qed.

Lemma append_assoc (a b c : string) : (a +:+ b) +:+ c = a +:+ (b +:+ c).
Proof.
  induction a as [|x a IH]; [reflexivity|].
  change (String x (((a +:+ b) +:+ c)) = String x (a +:+ (b +:+ c))).
  now rewrite IH.
Qed.

Lemma append_empty (a : string) : a +:+ EmptyString = a.
Proof.
  induction a as [|x a IH]; [reflexivity|].
  change (String x (a +:+ EmptyString) = String x a). now rewrite IH.
Qed.

Section ChunkBoundaries.
Context `{JsonParser}.

Lemma take_lines_app (buffer data more : string) :
  Supabase.take_lines buffer (data +:+ more)
  = let '(lines, rest) := Supabase.take_lines buffer data in
    let '(lines', rest') := Supabase.take_lines rest more in
    ((lines ++ lines')%list, rest').
Proof.
  unfold Supabase.take_lines.
  rewrite <- append_assoc.
  rewrite split_app, pop_app by apply split_nonempty.
  destruct (pop (Js.split "010" (buffer +:+ data))) as [lines rest].
  cbn [fst snd]. now destruct (pop _).
Qed.

Lemma take_lines_rest_has_no_line (buffer data : string) :
  fst (Supabase.take_lines (snd (Supabase.take_lines buffer data)) EmptyString)
  = [].
Proof.
  unfold Supabase.take_lines.
  rewrite append_empty.
  apply last_segment_has_no_line.
Qed.

Lemma matching_frame_app (expectedId : option Json) (l1 l2 : list string) :
  Supabase.matching_frame expectedId (l1 ++ l2)
  = match Supabase.matching_frame expectedId l1 with
    | Some parsed => Some parsed
    | None => Supabase.matching_frame expectedId l2
    end.
Proof.
  induction l1 as [|raw rest IH]; [reflexivity|].
  cbn [app Supabase.matching_frame].
  destruct (negb (Js.nonempty (Js.trim raw))
            || negb (looks_like_json (Js.trim raw))); [exact IH|].
  destruct (JSON_parse (Js.trim raw)) as [j|]; [|exact IH].
  now destruct (truthy (Some j) && _).
Qed.

(** What the supabase listener delivers depends on the text of the stream
    only: it is the first matching frame among its complete lines. *)
Lemma deliver_stream (expectedId : option Json) (chunks : list string)
      (buffer : string) :
  fst (Supabase.take_lines buffer EmptyString) = [] ->
  Supabase.deliver expectedId buffer chunks
  = Supabase.matching_frame expectedId
      (fst (Supabase.take_lines buffer (stream_of chunks))).
Proof.
  revert buffer. induction chunks as [|data rest IH]; intros buffer Hb.
  - cbn [Supabase.deliver stream_of]. now rewrite Hb.
  - cbn [Supabase.deliver stream_of]. rewrite take_lines_app.
    pose proof (take_lines_rest_has_no_line buffer data) as Hrest.
    destruct (Supabase.take_lines buffer data) as [lines buffer'].
    cbn [snd] in Hrest. rewrite (IH buffer' Hrest).
    destruct (Supabase.take_lines buffer' (stream_of rest)) as [lines' rest'].
    cbn [fst]. now rewrite matching_frame_app.
Qed.

Lemma deliver_chunking (expectedId : option Json) (cs1 cs2 : list string) :
  stream_of cs1 = stream_of cs2 ->
  Supabase.deliver expectedId EmptyString cs1
  = Supabase.deliver expectedId EmptyString cs2.
Proof.
  intros Hs. rewrite !deliver_stream by reflexivity. now rewrite Hs.
Qed.

(** A delivered frame is the parse of a line that starts like JSON: a log
    line is never delivered. *)
Lemma matching_frame_is_a_frame (expectedId : option Json)
      (lines : list string) (parsed : Json) :
  Supabase.matching_frame expectedId lines = Some parsed ->
  exists raw,
    In raw lines
    /\ looks_like_json (Js.trim raw) = true
    /\ JSON_parse (Js.trim raw) = Some parsed.
Proof.
  induction lines as [|raw rest IH]; cbn [Supabase.matching_frame];
    [discriminate|].
  destruct (negb (Js.nonempty (Js.trim raw))
            || negb (looks_like_json (Js.trim raw))) eqn:Ek.
  - intros Hm. destruct (IH Hm) as (r & Hin & Hr). exists r.
    split; [now right | exact Hr].
  - destruct (JSON_parse (Js.trim raw)) as [j|] eqn:Ej.
    + destruct (truthy (Some j) && _).
      * intros [= <-]. exists raw. apply orb_false_iff in Ek as [_ Hl].
        apply negb_false_iff in Hl.
        repeat split; [now left | exact Hl | exact Ej].
      * intros Hm. destruct (IH Hm) as (r & Hin & Hr). exists r.
        split; [now right | exact Hr].
    + intros Hm. destruct (IH Hm) as (r & Hin & Hr). exists r.
      split; [now right | exact Hr].
Qed.

(** The listener in a session: a chunk settles the call with the first
    matching frame among the lines it completes, and with nothing else. *)
Lemma supabase_onData_settles (h p cur : nat) (expectedId : option Json)
      (callBuffer data : string) (st : session) :
  process st = Some cur ->
  promises st !! p = Some Pending ->
  promises (fst (Supabase.onData h p expectedId callBuffer data st)) !! p
  = match Supabase.matching_frame expectedId
            (fst (Supabase.take_lines callBuffer data)) with
    | Some parsed => Some (Resolved parsed)
    | None => Some Pending
    end.
Proof.
  intros Hcur Hp. unfold Supabase.onData.
  destruct (Supabase.take_lines callBuffer data) as [lines rest]. cbn [fst].
  destruct (Supabase.matching_frame expectedId lines) as [parsed|];
    unfold store_listener, removeListener; session_simpl;
    [|exact Hp].
  rewrite Hcur. session_simpl. rewrite Hp. session_simpl.
  apply list_lookup_insert_eq. now apply lookup_lt_Some in Hp.
Qed.

End ChunkBoundaries.

(** C3. One xero call is in flight and the child
    writes its answer as one line. Delivered in one chunk, the call
    resolves with the frame; delivered in two chunks, or after a log line,
    [JSON.parse] throws on the first chunk, the listener is gone and the
    call stays pending. The supabase listener delivers the frame in all
    three cases. *)
Theorem C3_xero_decoding_depends_on_the_chunks :
  let whole := line Scenario.answer_2 in
  let head := Js.quoted "{'jsonrpc':'2.0','id':2," in
  let tail := line "'result':{'tools':[]}}" in
  let log := line "[XERO MCP] Server connected to transport." in
  let x evs := run_events (Xero.step (H := Parser.json_parse))
                          Scenario.xero_one_call (map (StdoutData 0) evs) in
  let s evs := run_events (Supabase.step (H := Parser.json_parse))
                          Scenario.supabase_one_call (map (StdoutData 0) evs) in
  head +:+ tail = whole
  /\ promises (x [whole]) !! 1%nat = Some (Resolved Scenario.frame_2)
  /\ promises (x [head; tail]) !! 1%nat = Some Pending
  /\ uncaught (x [head; tail]) = [SyntaxError]
  /\ listeners_of 0 (x [head; tail]) = []
  /\ promises (x [log; whole]) !! 1%nat = Some Pending
  /\ uncaught (x [log; whole]) = [SyntaxError]
  /\ promises (s [whole]) !! 1%nat = Some (Resolved Scenario.frame_2)
  /\ promises (s [head; tail]) !! 1%nat = Some (Resolved Scenario.frame_2)
  /\ promises (s [log; whole]) !! 1%nat = Some (Resolved Scenario.frame_2).
Proof. vm_compute. repeat split. Qed.

(** ** After the child has exited *)

Section Respawning.
Context `{JsonParser}.

Lemma xero_init_after_exit_spawns_nothing (st : session) (h : nat) (code : Z) :
  process st = Some h ->
  let st1 := Xero.step st (Exit h code) in
  let '(st2, p) := Xero.initMCPServer st1 in
  children st2 = children st1
  /\ process st2 = Some h
  /\ promises st2 !! p = Some (Resolved (JBool true)).
Proof.
  intros Hp. cbn zeta. unfold Xero.initMCPServer.
  rewrite xero_exit_keeps_process, Hp. session_simpl. auto.
Qed.

Lemma supabase_init_after_exit_spawns (st : session) (h : nat) (code : Z) :
  let st1 := Supabase.step st (Exit h code) in
  let '(st2, p) := Supabase.initSupabaseServer st1 in
  process st2 = Some (List.length (children st1))
  /\ List.length (children st2) = S (List.length (children st1))
  /\ promises st2 !! p = Some Pending.
Proof.
  cbn zeta. unfold Supabase.initSupabaseServer.
  rewrite supabase_exit_clears_process. session_simpl.
  rewrite length_alter, length_alter, length_app. cbn. split; [reflexivity|].
  split; [lia|]. reflexivity.
Qed.

End Respawning.

(** C5. The xero child exits with code 1 and the
    next request runs [initMCPServer] and [sendMCPMessage]. The handle is
    kept, no child is spawned, the init promise is resolved at once, and the
    request is written to the child that exited. For supabase the same
    events end with a second child and a new handshake. *)
Theorem C5_xero_is_not_respawned_after_exit :
  let x1 := Xero.step (H := Parser.json_parse) Scenario.xero_ready (Exit 0 1) in
  let '(x2, p) := Xero.initMCPServer x1 in
  let x3 := fst (Xero.sendMCPMessage (tools_list 2) x2) in
  let s1 := Supabase.step (H := Parser.json_parse) Scenario.supabase_ready
                          (Exit 0 1) in
  let '(s2, q) := Supabase.initSupabaseServer s1 in
  process x1 = Some 0%nat
  /\ promises x2 !! p = Some (Resolved (JBool true))
  /\ map exited (children x3) = [true]
  /\ map stdin (children x3) = [[initMessage 1; tools_list 2]]
  /\ process s1 = None
  /\ process s2 = Some 1%nat
  /\ promises s2 !! q = Some Pending
  /\ map exited (children s2) = [true; false]
  /\ map stdin (children s2) = [[initMessage 1]; [initMessage 2]].
Proof. vm_compute. repeat split. Qed.

(** ** Listing the tools of every provider *)





Section Listing.
Variable W : World.







End Listing.




(** ** Invariants of a session *)

Lemma emit_invariant (P : session -> Prop)
      (run : listener -> session -> session * bool) (ls : list listener)
      (st : session) :
  (forall l st', P st' -> P (fst (run l st'))) ->
  P st -> P (emit run ls st).
Proof.
  intros Hrun. revert st. induction ls as [|l rest IH]; intros st HP;
    [exact HP|].
  cbn [emit]. pose proof (Hrun l st HP) as Hl.
  destruct (run l st) as [st' threw]. cbn [fst] in Hl.
  destruct threw; [exact Hl | now apply IH].
Qed.

Lemma run_invariant (P : session -> Prop) (act : session -> action -> session)
      (actions : list action) (st : session) :
  (forall st' a, P st' -> P (act st' a)) ->
  P st -> P (Trace.run act st actions).
Proof.
  intros Hact. unfold Trace.run. revert st.
  induction actions as [|a rest IH]; intros st HP; [exact HP|].
  cbn [fold_left]. apply IH, Hact, HP.
Qed.

Lemma settle_keeps (p q : nat) (s1 s : pstate) (st : session) :
  s <> Pending ->
  promises st !! q = Some s ->
  promises (settle p s1 st) !! q = Some s.
Proof.
  intros Hs Hq. unfold settle.
  destruct (promises st !! p) as [[| |]|] eqn:Hp; try exact Hq.
  cbn. destruct (decide (p = q)) as [->|Hne]; [congruence|].
  now rewrite list_lookup_insert_ne.
Qed.

Lemma new_promise_keeps (q : nat) (s0 s : pstate) (st : session) :
  promises st !! q = Some s ->
  promises (fst (new_promise s0 st)) !! q = Some s.
Proof. intros Hq. cbn. now apply lookup_app_l_Some. Qed.

Ltac open_session :=
  unfold Xero.step, Supabase.step, Legacy.step, Xero.timeout,
    Supabase.timeout, Legacy.timeout, Xero.run_listener,
    Supabase.run_listener, Legacy.run_listener, Xero.onInitData, Xero.onData,
    Supabase.onInitData, Supabase.onData, Legacy.onInitData,
    Xero.initMCPServer, Supabase.initSupabaseServer, Legacy.initMCPServer,
    Xero.sendMCPMessage, Supabase.sendSupabaseMessage, resolve, reject,
    new_promise, spawn, take_id in *;
  cbn beta iota zeta.

Ltac close_settled Hs Hq :=
  repeat first
    [ exact Hq
    | apply settle_keeps; [exact Hs|]
    | apply lookup_app_l_Some ];
  try exact Hq.

Section Settled.
Context `{JsonParser}.
Variables (q : nat) (s : pstate).
Hypothesis settled : s <> Pending.

Let P (st : session) : Prop := promises st !! q = Some s.

Lemma xero_listener_keeps_settled (data : string) (l : listener)
      (st : session) :
  P st -> P (fst (Xero.run_listener data l st)).
Proof.
  unfold P. intros Hq. open_session.
  repeat case_match; cbn; close_settled settled Hq.
Qed.

Lemma supabase_listener_keeps_settled (h : nat) (data : string) (l : listener)
      (st : session) :
  P st -> P (fst (Supabase.run_listener h data l st)).
Proof.
  unfold P. intros Hq. open_session.
  repeat case_match; cbn; close_settled settled Hq.
Qed.

Lemma xero_keeps_settled (st : session) (a : action) :
  P st -> P (Trace.xero st a).
Proof.
  intros Hq. destruct a as [[h data|h code|h|t]| |message]; cbn [Trace.xero].
  - unfold Xero.step. apply emit_invariant; [|exact Hq].
    intros l st'. apply xero_listener_keeps_settled.
  - exact Hq.
  - exact Hq.
  - unfold P in *. open_session. repeat case_match; cbn;
      close_settled settled Hq.
  - unfold P in *. open_session. repeat case_match; cbn;
      close_settled settled Hq.
  - unfold P in *. open_session. repeat case_match; cbn;
      close_settled settled Hq.
Qed.

Lemma supabase_keeps_settled (st : session) (a : action) :
  P st -> P (Trace.supabase st a).
Proof.
  intros Hq. destruct a as [[h data|h code|h|t]| |message];
    cbn [Trace.supabase].
  - unfold Supabase.step. apply emit_invariant; [|exact Hq].
    intros l st'. apply supabase_listener_keeps_settled.
  - exact Hq.
  - exact Hq.
  - unfold P in *. open_session. repeat case_match; cbn;
      close_settled settled Hq.
  - unfold P in *. open_session. repeat case_match; cbn;
      close_settled settled Hq.
  - unfold P in *. open_session. repeat case_match; cbn;
      close_settled settled Hq.
Qed.

End Settled.

Section SettledRuns.
Context `{JsonParser}.

Lemma xero_settled_is_final (st : session) (q : nat) (s : pstate)
      (actions : list action) :
  s <> Pending ->
  promises st !! q = Some s ->
  promises (Trace.run Trace.xero st actions) !! q = Some s.
Proof.
  intros Hs Hq.
  apply (run_invariant (fun st' => promises st' !! q = Some s)); [|exact Hq].
  intros st' a. now apply xero_keeps_settled.
Qed.

Lemma supabase_settled_is_final (st : session) (q : nat) (s : pstate)
      (actions : list action) :
  s <> Pending ->
  promises st !! q = Some s ->
  promises (Trace.run Trace.supabase st actions) !! q = Some s.
Proof.
  intros Hs Hq.
  apply (run_invariant (fun st' => promises st' !! q = Some s)); [|exact Hq].
  intros st' a. now apply supabase_keeps_settled.
Qed.

End SettledRuns.

(** ** Timers *)

Lemma armed_disarm (t : timer) (st : session) : armed t (disarm t st) = false.
Proof.
  unfold armed, disarm. cbn.
  induction (timers st) as [|t' ts IH]; [reflexivity|].
  cbn. destruct (timer_eqb t t') eqn:E; cbn; [exact IH|].
  now rewrite E.
Qed.

Lemma settle_pending (p : nat) (s1 : pstate) (st : session) :
  promises st !! p = Some Pending ->
  promises (settle p s1 st) !! p = Some s1.
Proof.
  intros Hp. unfold settle. rewrite Hp. cbn.
  apply list_lookup_insert_eq. now apply lookup_lt_Some in Hp.
Qed.

Lemma timers_settle (p : nat) (s1 : pstate) (st : session) :
  timers (settle p s1 st) = timers st.
Proof. unfold settle. now repeat case_match. Qed.

Lemma children_settle (p : nat) (s1 : pstate) (st : session) :
  children (settle p s1 st) = children st.
Proof. unfold settle. now repeat case_match. Qed.

Lemma process_settle (p : nat) (s1 : pstate) (st : session) :
  process (settle p s1 st) = process st.
Proof. unfold settle. now repeat case_match. Qed.

Lemma nextId_settle (p : nat) (s1 : pstate) (st : session) :
  nextId (settle p s1 st) = nextId st.
Proof. unfold settle. now repeat case_match. Qed.

Lemma removeListener_removes (h p : nat) (st : session) (l : listener) :
  In l (listeners_of h (removeListener h p st)) -> listener_id l <> p.
Proof.
  unfold listeners_of, removeListener, alter_child. cbn.
  rewrite list_lookup_alter_eq.
  destruct (children st !! h) as [c|]; cbn; [|contradiction].
  intros Hin. apply filter_In in Hin as [_ Hl].
  apply negb_true_iff, Nat.eqb_neq in Hl. exact Hl.
Qed.

(** X2. A call that gets no answer is rejected by its timer, once: on a
    session with a process handle, when the timer of a pending call fires
    the call is rejected with the timeout message of its provider, its
    listener is taken off the child's stdout, and nothing that happens
    later (a late frame, an exit, other calls) changes the rejection. *)
Theorem X2_call_timeout_rejects_once :
  forall `{JsonParser} (st : session) (cur p : nat) (later : list action),
    process st = Some cur ->
    armed (CallTimer p) st = true ->
    promises st !! p = Some Pending ->
    let x := Xero.step st (TimerFires (CallTimer p)) in
    let s := Supabase.step st (TimerFires (CallTimer p)) in
    promises (Trace.run Trace.xero x later) !! p
    = Some (Rejected "Timeout waiting for response")
    /\ promises (Trace.run Trace.supabase s later) !! p
       = Some (Rejected "Supabase response timeout")
    /\ armed (CallTimer p) x = false
    /\ armed (CallTimer p) s = false
    /\ (forall l, In l (listeners_of cur x) -> listener_id l <> p)
    /\ (forall l, In l (listeners_of cur s) -> listener_id l <> p).
Proof.
  intros parser st cur p later Hcur Harmed Hp. cbn zeta.
  unfold Xero.step, Supabase.step. rewrite Harmed.
  unfold Xero.timeout, Supabase.timeout.
  replace (process (disarm (CallTimer p) st)) with (Some cur) by (now cbn).
  repeat split.
  - apply xero_settled_is_final; [discriminate|].
    now apply settle_pending.
  - apply supabase_settled_is_final; [discriminate|].
    now apply settle_pending.
  - unfold reject, armed. rewrite timers_settle.
    exact (armed_disarm _ st).
  - unfold reject, armed. rewrite timers_settle.
    exact (armed_disarm _ st).
  - intros l. unfold reject, listeners_of. rewrite children_settle.
    apply removeListener_removes.
  - intros l. unfold reject, listeners_of. rewrite children_settle.
    apply removeListener_removes.
Qed.

(** X2 on the xero session with one call in flight: the timer fires, then
    the answer arrives late. *)
Lemma X2_witness_late_answer :
  promises
    (Trace.run (Trace.xero (H := Parser.json_parse))
       (Xero.step (H := Parser.json_parse) Scenario.xero_one_call
                  (TimerFires (CallTimer 1)))
       [Happens (StdoutData 0 (line Scenario.answer_2))]) !! 1%nat
  = Some (Rejected "Timeout waiting for response").
Proof.
  refine (proj1 (X2_call_timeout_rejects_once (H := Parser.json_parse)
                   Scenario.xero_one_call 0%nat 1%nat _ _ _ _));
    vm_compute; reflexivity.
Defined.

(** ** Children and process handles *)

Lemma alter_snoc {A} (f : A -> A) (l : list A) (x : A) :
  alter f (List.length l) (l ++ [x])%list = (l ++ [f x])%list.
Proof. induction l as [|y l IH]; cbn; [reflexivity | now f_equal]. Qed.

Ltac frame_session :=
  rewrite ?process_settle, ?children_settle, ?timers_settle, ?nextId_settle;
  unfold removeListener, store_listener, write, on_data, mark_exited,
    alter_child, disarm, setTimeout, throw_uncaught, set_process,
    set_children, set_promises, set_timers;
  cbn [process nextId children promises timers uncaught fst snd];
  rewrite ?length_alter.

Section Frames.
Context `{JsonParser}.

(** The listeners and the timers leave the handle and the number of
    children alone. *)
Lemma xero_listener_frame (data : string) (l : listener) (st : session) :
  process (fst (Xero.run_listener data l st)) = process st
  /\ List.length (children (fst (Xero.run_listener data l st)))
     = List.length (children st).
Proof.
  open_session. repeat case_match; cbn [fst]; frame_session; auto.
Qed.

Lemma supabase_listener_frame (h : nat) (data : string) (l : listener)
      (st : session) :
  process (fst (Supabase.run_listener h data l st)) = process st
  /\ List.length (children (fst (Supabase.run_listener h data l st)))
     = List.length (children st).
Proof.
  open_session. repeat case_match; cbn [fst]; frame_session; auto.
Qed.

Lemma xero_step_frame (st : session) (e : event) :
  process (Xero.step st e) = process st
  /\ List.length (children (Xero.step st e)) = List.length (children st).
Proof.
  destruct e as [h data|h code|h|t].
  - unfold Xero.step.
    apply (emit_invariant
             (fun st' => process st' = process st
                         /\ List.length (children st')
                            = List.length (children st))); [|auto].
    intros l st' [Hp Hl].
    destruct (xero_listener_frame data l st') as [Hp' Hl']. split; congruence.
  - open_session. frame_session. auto.
  - auto.
  - open_session. repeat case_match; frame_session; auto.
Qed.

Lemma xero_send_frame (message : Json) (st : session) :
  process (fst (Xero.sendMCPMessage message st)) = process st
  /\ List.length (children (fst (Xero.sendMCPMessage message st)))
     = List.length (children st).
Proof. open_session. repeat case_match; cbn [fst]; frame_session; auto. Qed.

Lemma xero_init_warm (st : session) (h : nat) :
  process st = Some h ->
  process (fst (Xero.initMCPServer st)) = Some h
  /\ children (fst (Xero.initMCPServer st)) = children st
  /\ nextId (fst (Xero.initMCPServer st)) = nextId st.
Proof. intros Hp. open_session. rewrite Hp. cbn. auto. Qed.

Lemma xero_init_cold (st : session) :
  process st = None ->
  process (fst (Xero.initMCPServer st)) = Some (List.length (children st))
  /\ children (fst (Xero.initMCPServer st))
     = (children st
        ++ [mkChild [initMessage (nextId st)]
                    [XeroInitData (List.length (promises st))] false])%list
  /\ nextId (fst (Xero.initMCPServer st)) = nextId st + 1.
Proof.
  intros Hp. open_session. rewrite Hp. cbn [fst]. frame_session.
  rewrite alter_snoc. cbn. rewrite alter_snoc. cbn. auto.
Qed.

Lemma supabase_init_warm (st : session) (h : nat) :
  process st = Some h ->
  process (fst (Supabase.initSupabaseServer st)) = Some h
  /\ children (fst (Supabase.initSupabaseServer st)) = children st
  /\ nextId (fst (Supabase.initSupabaseServer st)) = nextId st.
Proof. intros Hp. open_session. rewrite Hp. cbn. auto. Qed.

Lemma supabase_init_cold (st : session) :
  process st = None ->
  process (fst (Supabase.initSupabaseServer st))
  = Some (List.length (children st))
  /\ children (fst (Supabase.initSupabaseServer st))
     = (children st
        ++ [mkChild [initMessage (nextId st)]
                    [SupabaseInitData (List.length (promises st)) EmptyString]
                    false])%list
  /\ nextId (fst (Supabase.initSupabaseServer st)) = nextId st + 1.
Proof.
  intros Hp. open_session. rewrite Hp. cbn [fst]. frame_session.
  rewrite alter_snoc. cbn. rewrite alter_snoc. cbn. auto.
Qed.

End Frames.

Lemma exited_alter (f : child -> child) (i h : nat) (l : list child) :
  (forall c, exited (f c) = exited c) ->
  exited <$> alter f i l !! h = exited <$> l !! h.
Proof.
  intros Hf. rewrite list_lookup_alter. case_decide; [subst|reflexivity].
  destruct (l !! h); cbn; [now rewrite Hf | reflexivity].
Qed.

Lemma greeted_write (c : child) (message : Json) :
  greeted c ->
  greeted (mkChild (stdin c ++ [message]) (stdout_listeners c) (exited c)).
Proof. intros (id & rest & Hc). cbn. rewrite Hc. now eexists _, _. Qed.

Ltac keep_greeted :=
  repeat (apply Forall_alter;
          [|intros ? _ ?; first [assumption | now apply greeted_write]]).

Ltac keep_flags :=
  intros; rewrite ?exited_alter by (intros ?; reflexivity).

Section Handles.
Context `{JsonParser}.

Lemma xero_keeps_greeted (st : session) (a : action) :
  Forall greeted (children st) -> Forall greeted (children (Trace.xero st a)).
Proof.
  intros Hg. destruct a as [[h data|h code|h|t]| |message]; cbn [Trace.xero].
  - unfold Xero.step.
    apply (emit_invariant (fun st' => Forall greeted (children st')));
      [|exact Hg].
    clear. intros l st Hg. open_session.
    repeat case_match; cbn [fst]; frame_session; keep_greeted; exact Hg.
  - open_session. frame_session. keep_greeted. exact Hg.
  - exact Hg.
  - open_session. repeat case_match; frame_session; keep_greeted; exact Hg.
  - destruct (process st) as [h|] eqn:Hp.
    + now rewrite (proj1 (proj2 (xero_init_warm st h Hp))).
    + rewrite (proj1 (proj2 (xero_init_cold st Hp))).
      apply Forall_app. split; [exact Hg|].
      constructor; [|constructor]. now eexists _, _.
  - open_session. repeat case_match; cbn [fst]; frame_session; keep_greeted;
      exact Hg.
Qed.

Lemma supabase_keeps_greeted (st : session) (a : action) :
  Forall greeted (children st) ->
  Forall greeted (children (Trace.supabase st a)).
Proof.
  intros Hg. destruct a as [[h data|h code|h|t]| |message];
    cbn [Trace.supabase].
  - unfold Supabase.step.
    apply (emit_invariant (fun st' => Forall greeted (children st')));
      [|exact Hg].
    clear. intros l st Hg. open_session.
    repeat case_match; cbn [fst]; frame_session; keep_greeted; exact Hg.
  - open_session. frame_session. keep_greeted. exact Hg.
  - exact Hg.
  - open_session. repeat case_match; frame_session; keep_greeted; exact Hg.
  - destruct (process st) as [h|] eqn:Hp.
    + now rewrite (proj1 (proj2 (supabase_init_warm st h Hp))).
    + rewrite (proj1 (proj2 (supabase_init_cold st Hp))).
      apply Forall_app. split; [exact Hg|].
      constructor; [|constructor]. now eexists _, _.
  - open_session. repeat case_match; cbn [fst]; frame_session; keep_greeted;
      exact Hg.
Qed.

(** The exited flags and the handle, under a listener of supabase. *)
Lemma supabase_listener_flags (h : nat) (data : string) (l : listener)
      (st : session) (i : nat) :
  exited <$> children (fst (Supabase.run_listener h data l st)) !! i
  = exited <$> children st !! i.
Proof.
  open_session. repeat case_match; cbn [fst]; frame_session; keep_flags;
    reflexivity.
Qed.

Lemma live_handle_same (st st' : session) :
  process st' = process st ->
  (forall i, exited <$> children st' !! i = exited <$> children st !! i) ->
  live_handle st -> live_handle st'.
Proof.
  intros Hp Hc Hl h Hh. rewrite Hp in Hh. destruct (Hl h Hh) as (c & Hc1 & Hc2).
  specialize (Hc h). rewrite Hc1 in Hc. cbn in Hc.
  destruct (children st' !! h) as [c'|]; [|discriminate].
  exists c'. split; [reflexivity|]. cbn in Hc. congruence.
Qed.

Lemma supabase_keeps_live (st : session) (a : action) :
  live_handle st -> live_handle (Trace.supabase st a).
Proof.
  intros Hl. destruct a as [[h data|h code|h|t]| |message];
    cbn [Trace.supabase].
  - unfold Supabase.step.
    apply (emit_invariant live_handle); [|exact Hl].
    clear. intros l st Hl. eapply live_handle_same; [| |exact Hl].
    + apply supabase_listener_frame.
    + apply supabase_listener_flags.
  - intros i Hi. discriminate Hi.
  - intros i Hi. discriminate Hi.
  - eapply live_handle_same; [| |exact Hl];
      open_session; repeat case_match; frame_session; keep_flags; auto.
  - destruct (process st) as [h|] eqn:Hp.
    + eapply live_handle_same; [| |exact Hl].
      * rewrite (proj1 (supabase_init_warm st h Hp)). now rewrite Hp.
      * intros i. now rewrite (proj1 (proj2 (supabase_init_warm st h Hp))).
    + intros i Hi.
      rewrite (proj1 (supabase_init_cold st Hp)) in Hi.
      rewrite (proj1 (proj2 (supabase_init_cold st Hp))).
      injection Hi as <-. rewrite lookup_snoc. now eexists.
  - eapply live_handle_same; [| |exact Hl];
      open_session; repeat case_match; cbn [fst]; frame_session; keep_flags;
      auto.
Qed.

End Handles.

Lemma xero_run_frame `{JsonParser} (st : session) (h : nat)
      (actions : list action) :
  process st = Some h ->
  process (Trace.run Trace.xero st actions) = Some h
  /\ List.length (children (Trace.run Trace.xero st actions))
     = List.length (children st).
Proof.
  intros Hp.
  apply (run_invariant
           (fun st' => process st' = Some h
                       /\ List.length (children st')
                          = List.length (children st))); [|auto].
  intros st' a [Hp' Hl']. destruct a as [e| |message]; cbn [Trace.xero].
  - destruct (xero_step_frame st' e) as [H1 H2]. split; congruence.
  - destruct (xero_init_warm st' h Hp') as (H1 & H2 & _).
    split; congruence.
  - destruct (xero_send_frame message st') as [H1 H2]. split; congruence.
Qed.

(** X3. The xero session keeps its first child for good: once
    [mcpServerProcess] is set, nothing that happens (not even the exit of
    the child) clears or replaces the handle, and no other child is ever
    spawned. *)
Theorem X3_xero_keeps_its_first_child :
  forall `{JsonParser} (st : session) (h : nat) (actions : list action),
    process st = Some h ->
    process (Trace.run Trace.xero st actions) = Some h
    /\ List.length (children (Trace.run Trace.xero st actions))
       = List.length (children st).
Proof.
  intros parser st h actions Hp. now apply xero_run_frame.
Qed.

(** X3 on the session whose child exits: a new request does not bring a
    second child. *)
Lemma X3_witness_after_exit :
  let st := Trace.run (Trace.xero (H := Parser.json_parse)) Scenario.xero_ready
              [Happens (Exit 0 1); CallsInit; CallsSend (tools_list 2);
               Happens (TimerFires (CallTimer 2)); CallsInit] in
  process st = Some 0%nat /\ List.length (children st) = 1%nat.
Proof.
  exact (X3_xero_keeps_its_first_child (H := Parser.json_parse)
           Scenario.xero_ready 0%nat _ eq_refl).
Defined.

(** X4. The supabase handle is never that of a dead child: if
    [supabaseProcess], when set, is a child that has not exited, this stays
    so whatever happens, so that [sendSupabaseMessage] never writes to a
    child that has exited. *)
Theorem X4_supabase_handle_is_live :
  forall `{JsonParser} (st : session) (actions : list action),
    live_handle st ->
    live_handle (Trace.run Trace.supabase st actions).
Proof.
  intros parser st actions Hl.
  apply (run_invariant live_handle); [|exact Hl].
  intros st' a. apply supabase_keeps_live.
Qed.

(** X4 from the start of the bridge, through an exit and a restart. *)
Lemma X4_witness_from_the_start :
  live_handle
    (Trace.run (Trace.supabase (H := Parser.json_parse)) fresh
       [CallsInit; Happens (Exit 0 1); CallsInit; CallsSend (tools_list 3)]).
Proof.
  apply (X4_supabase_handle_is_live (H := Parser.json_parse)).
  intros h Hh. discriminate Hh.
Defined.

(** X5. The first message a child ever receives is the [initialize]
    request: if this holds of the children spawned so far, it holds after
    anything the xero or the supabase session goes through. *)
Theorem X5_children_are_greeted_first :
  forall `{JsonParser} (st : session) (actions : list action),
    Forall greeted (children st) ->
    Forall greeted (children (Trace.run Trace.xero st actions))
    /\ Forall greeted (children (Trace.run Trace.supabase st actions)).
Proof.
  intros parser st actions Hg. split.
  - apply (run_invariant (fun st' => Forall greeted (children st')));
      [|exact Hg].
    intros st' a. apply xero_keeps_greeted.
  - apply (run_invariant (fun st' => Forall greeted (children st')));
      [|exact Hg].
    intros st' a. apply supabase_keeps_greeted.
Qed.

(** X5 from the start of the bridge. *)
Lemma X5_witness_from_the_start :
  Forall greeted
    (children (Trace.run (Trace.xero (H := Parser.json_parse)) fresh
                 [CallsSend (tools_list 7); CallsInit;
                  CallsSend (tools_list 2)]))
  /\ Forall greeted
       (children (Trace.run (Trace.supabase (H := Parser.json_parse)) fresh
                    [CallsInit; Happens (ChildError 0); CallsInit;
                     CallsSend (tools_list 3)])).
Proof.
  destruct (X5_children_are_greeted_first (H := Parser.json_parse) fresh
              [CallsSend (tools_list 7); CallsInit; CallsSend (tools_list 2)]
              (Forall_nil_2 greeted)) as [Hx _].
  destruct (X5_children_are_greeted_first (H := Parser.json_parse) fresh
              [CallsInit; Happens (ChildError 0); CallsInit;
               CallsSend (tools_list 3)]
              (Forall_nil_2 greeted)) as [_ Hs].
  split; [exact Hx | exact Hs].
Defined.

(** ** The first use of a provider *)

Section FirstUse.
Context `{JsonParser}.

Lemma xero_inits_warm (st : session) (h : nat) (n : nat) :
  process st = Some h ->
  let st' := Trace.run Trace.xero st (repeat CallsInit n) in
  process st' = Some h /\ children st' = children st
  /\ nextId st' = nextId st.
Proof.
  revert st. induction n as [|n IH]; intros st Hp; [cbn; auto|].
  cbn zeta. cbn [repeat Trace.run fold_left Trace.xero].
  destruct (xero_init_warm st h Hp) as (H1 & H2 & H3).
  destruct (IH _ H1) as (H4 & H5 & H6). unfold Trace.run in *.
  repeat split; congruence.
Qed.

Lemma supabase_inits_warm (st : session) (h : nat) (n : nat) :
  process st = Some h ->
  let st' := Trace.run Trace.supabase st (repeat CallsInit n) in
  process st' = Some h /\ children st' = children st
  /\ nextId st' = nextId st.
Proof.
  revert st. induction n as [|n IH]; intros st Hp; [cbn; auto|].
  cbn zeta. cbn [repeat Trace.run fold_left Trace.supabase].
  destruct (supabase_init_warm st h Hp) as (H1 & H2 & H3).
  destruct (IH _ H1) as (H4 & H5 & H6). unfold Trace.run in *.
  repeat split; congruence.
Qed.

End FirstUse.

Section InEnvironment.
Context `{JsonParser}.
Variables (defaultArgs : option (list string)) (env : SpawnSpec.Env).

(** With a process handle, or in an environment in which [spawn] is
    reached, the whole of [initSupabaseServer] is its part from [spawn]
    on. *)
Lemma init_in_environment (st : session) :
  (is_Some (process st)
   \/ exists bin args, SpawnSpec.spawn_call defaultArgs env
                       = SpawnSpec.Spawns bin args) ->
  SpawnSpec.initSupabaseServer defaultArgs env st
  = Supabase.initSupabaseServer st.
Proof.
  unfold SpawnSpec.initSupabaseServer.
  intros [[h ->]|(bin & args & ->)]; [reflexivity|].
  now destruct (process st).
Qed.

(** Else the promise is rejected and nothing else changes. *)
Lemma init_throws (st : session) (message : string) :
  process st = None ->
  SpawnSpec.spawn_call defaultArgs env = SpawnSpec.Throws message ->
  SpawnSpec.initSupabaseServer defaultArgs env st
  = new_promise (Rejected message) st.
Proof.
  intros Hp Hs. unfold SpawnSpec.initSupabaseServer. now rewrite Hp, Hs.
Qed.

(** One step of the session in its environment is a step of the session
    that spawns, or an [init] that is rejected. *)
Lemma supabase_in_cases (st : session) (a : action) :
  Trace.supabase_in defaultArgs env st a = Trace.supabase st a
  \/ exists message,
       process st = None
       /\ Trace.supabase_in defaultArgs env st a
          = fst (new_promise (Rejected message) st).
Proof.
  destruct a as [e| |message]; [now left| |now left].
  cbn [Trace.supabase_in Trace.supabase].
  destruct (process st) as [h|] eqn:Hp.
  - left. rewrite init_in_environment; [reflexivity|]. left. now exists h.
  - destruct (SpawnSpec.spawn_call defaultArgs env) as [bin args|message]
      eqn:Hs.
    + left. rewrite init_in_environment; [reflexivity|]. right. eauto.
    + right. exists message. split; [reflexivity|].
      now rewrite (init_throws st message Hp Hs).
Qed.

Lemma supabase_in_inits_spawning (st : session) (n : nat) (bin : string)
      (args : list string) :
  SpawnSpec.spawn_call defaultArgs env = SpawnSpec.Spawns bin args ->
  Trace.run (Trace.supabase_in defaultArgs env) st (repeat CallsInit n)
  = Trace.run Trace.supabase st (repeat CallsInit n).
Proof.
  intros Hs. revert st. induction n as [|n IH]; intros st; [reflexivity|].
  cbn [repeat Trace.run fold_left Trace.supabase_in Trace.supabase].
  rewrite init_in_environment by (right; eauto). apply IH.
Qed.

Lemma supabase_in_inits_throwing (st : session) (n : nat) (message : string) :
  process st = None ->
  SpawnSpec.spawn_call defaultArgs env = SpawnSpec.Throws message ->
  Trace.run (Trace.supabase_in defaultArgs env) st (repeat CallsInit n)
  = set_promises (promises st ++ repeat (Rejected message) n) st.
Proof.
  intros Hp Hs. revert st Hp. induction n as [|n IH]; intros st Hp.
  - cbn. rewrite app_nil_r. now destruct st.
  - cbn [repeat Trace.run fold_left Trace.supabase_in].
    rewrite (init_throws st message Hp Hs).
    unfold Trace.run in IH. unfold new_promise. cbn [fst].
    rewrite IH by exact Hp. unfold set_promises. cbn.
    now rewrite <- app_assoc.
Qed.

End InEnvironment.

(** X6. [init] is lazy and idempotent: on a provider without a process
    handle, any number of [init] calls in a row (one or more) spawn exactly
    one child, write exactly one message to it, the [initialize] request
    with the current value of the id counter, and advance the counter by
    one. This is so for xero, and for supabase in an environment in which
    the executor reaches [spawn]; in any other environment every one of the
    supabase calls is rejected, and there is no child, no message and no id
    taken. *)
Theorem X6_first_use_spawns_one_child :
  forall `{JsonParser} (defaultArgs : option (list string))
         (env : SpawnSpec.Env) (st : session) (n : nat),
    process st = None ->
    let x := Trace.run Trace.xero st (repeat CallsInit (S n)) in
    let s := Trace.run (Trace.supabase_in defaultArgs env) st
               (repeat CallsInit (S n)) in
    process x = Some (List.length (children st))
    /\ map stdin (children x)
       = (map stdin (children st) ++ [[initMessage (nextId st)]])%list
    /\ nextId x = nextId st + 1
    /\ match SpawnSpec.spawn_call defaultArgs env with
       | SpawnSpec.Spawns _ _ =>
           process s = Some (List.length (children st))
           /\ map stdin (children s)
              = (map stdin (children st) ++ [[initMessage (nextId st)]])%list
           /\ nextId s = nextId st + 1
       | SpawnSpec.Throws message =>
           process s = None
           /\ children s = children st
           /\ nextId s = nextId st
           /\ promises s
              = (promises st ++ repeat (Rejected message) (S n))%list
       end.
Proof.
  intros parser defaultArgs env st n Hp. cbn zeta.
  split; [|split; [|split]].
  1-3: cbn [repeat Trace.run fold_left Trace.xero];
    destruct (xero_init_cold st Hp) as (X1 & X2 & X3);
    destruct (xero_inits_warm _ _ n X1) as (X4 & X5 & X6);
    unfold Trace.run in *; rewrite ?X4, ?X5, ?X6, ?X2, ?X3, ?map_app;
    reflexivity.
  destruct (SpawnSpec.spawn_call defaultArgs env) as [bin args|message]
    eqn:Hs.
  - rewrite (supabase_in_inits_spawning defaultArgs env st (S n) bin args Hs).
    cbn [repeat Trace.run fold_left Trace.supabase].
    destruct (supabase_init_cold st Hp) as (S1 & S2 & S3).
    destruct (supabase_inits_warm _ _ n S1) as (S4 & S5 & S6).
    unfold Trace.run in *. rewrite S4, S5, S6, S2, S3, map_app.
    repeat split.
  - rewrite (supabase_in_inits_throwing defaultArgs env st (S n) message
               Hp Hs).
    cbn. repeat split. exact Hp.
Qed.

(** X6 on a bridge that just started, with three [init] calls: with a
    program and its arguments in the environment, and with nothing set. *)
Lemma X6_witness_three_inits :
  let set := SpawnSpec.mkEnv (Some "npx")
               (Some "-y @supabase/mcp-server-supabase") None None None in
  let unset := SpawnSpec.mkEnv None None None None None in
  let inits := [CallsInit; CallsInit; CallsInit] in
  map stdin (children (Trace.run (Trace.xero (H := Parser.json_parse)) fresh
                         inits))
  = [[initMessage 1]]
  /\ map stdin
       (children (Trace.run (Trace.supabase_in (H := Parser.json_parse)
                               None set) fresh inits))
     = [[initMessage 1]]
  /\ children (Trace.run (Trace.supabase_in (H := Parser.json_parse)
                            None unset) fresh inits)
     = []
  /\ promises (Trace.run (Trace.supabase_in (H := Parser.json_parse)
                            None unset) fresh inits)
     = repeat (Rejected "defaultArgs is not defined") 3.
Proof.
  cbn zeta.
  pose proof (X6_first_use_spawns_one_child (H := Parser.json_parse) None
                (SpawnSpec.mkEnv (Some "npx")
                   (Some "-y @supabase/mcp-server-supabase") None None None)
                fresh 2 eq_refl) as Hset.
  pose proof (X6_first_use_spawns_one_child (H := Parser.json_parse) None
                (SpawnSpec.mkEnv None None None None None)
                fresh 2 eq_refl) as Hunset.
  cbn zeta in Hset, Hunset.
  destruct Hset as (_ & Hx & _ & Hs).
  destruct Hunset as (_ & _ & _ & Hu).
  change (SpawnSpec.spawn_call None
            (SpawnSpec.mkEnv (Some "npx")
               (Some "-y @supabase/mcp-server-supabase") None None None))
    with (SpawnSpec.Spawns "npx" ["-y"; "@supabase/mcp-server-supabase"])
    in Hs.
  change (SpawnSpec.spawn_call None
            (SpawnSpec.mkEnv None None None None None))
    with (SpawnSpec.Throws "defaultArgs is not defined") in Hu.
  destruct Hs as (_ & Hs & _). destruct Hu as (_ & Hu1 & _ & Hu2).
  split; [exact Hx|]. split; [exact Hs|]. split; [exact Hu1 | exact Hu2].
Defined.

(** ** Concurrent calls on one supabase child *)

Lemma settle_other (p q : nat) (s1 : pstate) (st : session) :
  p <> q -> promises (settle q s1 st) !! p = promises st !! p.
Proof.
  intros Hne. unfold settle. repeat case_match; try reflexivity.
  cbn. now apply list_lookup_insert_ne.
Qed.

Lemma listeners_of_alter (f : child -> child) (h : nat) (st : session) :
  listeners_of h (alter_child f h st)
  = match children st !! h with
    | Some c => stdout_listeners (f c)
    | None => []
    end.
Proof.
  unfold listeners_of, alter_child. cbn. rewrite list_lookup_alter_eq.
  now destruct (children st !! h).
Qed.

Lemma filter_replace_other (p : nat) (l : listener) (ls : list listener) :
  listener_id l <> p ->
  List.filter (fun x => Nat.eqb (listener_id x) p)
    (map (fun x => if Nat.eqb (listener_id x) (listener_id l) then l else x)
         ls)
  = List.filter (fun x => Nat.eqb (listener_id x) p) ls.
Proof.
  intros Hne. induction ls as [|x ls IH]; [reflexivity|]. cbn.
  destruct (Nat.eqb_spec (listener_id x) (listener_id l)) as [Hx|Hx].
  - apply Nat.eqb_neq in Hne. rewrite Hne.
    rewrite Hx, Hne. exact IH.
  - destruct (Nat.eqb (listener_id x) p); [now rewrite IH | exact IH].
Qed.

Lemma filter_replace_own (l : listener) (ls : list listener) :
  List.filter (fun x => Nat.eqb (listener_id x) (listener_id l))
    (map (fun x => if Nat.eqb (listener_id x) (listener_id l) then l else x)
         ls)
  = map (fun _ => l)
        (List.filter (fun x => Nat.eqb (listener_id x) (listener_id l)) ls).
Proof.
  induction ls as [|x ls IH]; [reflexivity|]. cbn.
  destruct (Nat.eqb_spec (listener_id x) (listener_id l)) as [Hx|Hx].
  - rewrite Nat.eqb_refl. cbn. now rewrite IH.
  - apply Nat.eqb_neq in Hx. now rewrite Hx.
Qed.

Lemma filter_remove_other (p q : nat) (ls : list listener) :
  q <> p ->
  List.filter (fun x => Nat.eqb (listener_id x) p)
    (List.filter (fun x => negb (Nat.eqb (listener_id x) q)) ls)
  = List.filter (fun x => Nat.eqb (listener_id x) p) ls.
Proof.
  intros Hne. induction ls as [|x ls IH]; [reflexivity|]. cbn.
  destruct (Nat.eqb_spec (listener_id x) q) as [Hx|Hx]; cbn.
  - subst q. apply Nat.eqb_neq in Hne. now rewrite Hne.
  - destruct (Nat.eqb (listener_id x) p); [now rewrite IH | exact IH].
Qed.

Section Concurrent.
Context `{JsonParser}.
Variables (h p : nat).

(** With a process handle, no listener of supabase throws. *)
Lemma supabase_listener_quiet (data : string) (l : listener) (st : session)
      (cur : nat) :
  process st = Some cur ->
  snd (Supabase.run_listener h data l st) = false.
Proof.
  intros Hp. open_session. unfold store_listener, alter_child, set_children.
  cbn [process]. rewrite Hp. now repeat case_match.
Qed.

(** The listener of another promise leaves this one as it is. *)
Lemma other_listener_keeps_waiting (data : string) (l : listener)
      (st : session) (l0 : listener) :
  listener_id l <> p ->
  waiting st h p l0 ->
  waiting (fst (Supabase.run_listener h data l st)) h p l0.
Proof.
  intros Hne (Hp & Hls & Hq). unfold waiting, listeners_for in *.
  destruct (supabase_listener_frame h data l st) as [Hp' _].
  split; [congruence|]. clear Hp'.
  destruct l as [q|q|q|q ib|q e' cb]; cbn [listener_id] in Hne;
    try (cbn; auto; fail).
  - cbn [Supabase.run_listener fst]. unfold Supabase.onInitData.
    destruct (Supabase.take_lines ib data) as [lines rest].
    unfold store_listener at 1 2 3.
    assert (Hst : List.filter (fun x => Nat.eqb (listener_id x) p)
                    (listeners_of h
                       (store_listener h (SupabaseInitData q rest) st))
                  = [l0]).
    { unfold store_listener. rewrite listeners_of_alter.
      unfold listeners_of in Hls. destruct (children st !! h) as [c|];
        [|discriminate]. cbn.
      now rewrite (filter_replace_other p (SupabaseInitData q rest)). }
    fold (store_listener h (SupabaseInitData q rest) st).
    destruct (Supabase.result_frame_in lines); [|now split].
    replace (process (store_listener h (SupabaseInitData q rest) st))
      with (Some h) by (now rewrite <- Hp).
    unfold resolve, listeners_of. rewrite children_settle, settle_other by auto.
    split; [|exact Hq].
    fold (listeners_of h (removeListener h q
                            (store_listener h (SupabaseInitData q rest) st))).
    unfold removeListener. rewrite listeners_of_alter.
    unfold listeners_of in Hst.
    destruct (children (store_listener h (SupabaseInitData q rest) st) !! h)
      as [c|]; [|discriminate]. cbn.
    now rewrite filter_remove_other.
  - cbn [Supabase.run_listener fst]. unfold Supabase.onData.
    destruct (Supabase.take_lines cb data) as [lines rest].
    assert (Hst : List.filter (fun x => Nat.eqb (listener_id x) p)
                    (listeners_of h
                       (store_listener h (SupabaseData q e' rest) st))
                  = [l0]).
    { unfold store_listener. rewrite listeners_of_alter.
      unfold listeners_of in Hls. destruct (children st !! h) as [c|];
        [|discriminate]. cbn.
      now rewrite (filter_replace_other p (SupabaseData q e' rest)). }
    destruct (Supabase.matching_frame e' lines) as [parsed|]; [|now split].
    replace (process (store_listener h (SupabaseData q e' rest) st))
      with (Some h) by (now rewrite <- Hp).
    cbn [fst].
    unfold resolve, listeners_of. rewrite children_settle, settle_other by auto.
    split; [|exact Hq].
    fold (listeners_of h (removeListener h q
                            (store_listener h (SupabaseData q e' rest) st))).
    unfold removeListener. rewrite listeners_of_alter.
    unfold listeners_of in Hst.
    destruct (children (store_listener h (SupabaseData q e' rest) st) !! h)
      as [c|]; [|discriminate]. cbn.
    now rewrite filter_remove_other.
Qed.

(** All the listeners of one [data] event, from the point of view of one
    promise: what its own listener establishes, and the others keep, holds
    after the event. *)
Lemma emit_own (data : string) (l0 : listener) (R : session -> Prop)
      (ls : list listener) (st : session) :
  (forall st1, R st1 -> process st1 = Some h) ->
  (forall st1, waiting st1 h p l0 ->
               R (fst (Supabase.run_listener h data l0 st1))) ->
  (forall l st1, listener_id l <> p -> R st1 ->
                 R (fst (Supabase.run_listener h data l st1))) ->
  waiting st h p l0 ->
  List.filter (fun l => Nat.eqb (listener_id l) p) ls = [l0] ->
  R (emit (Supabase.run_listener h data) ls st).
Proof.
  intros Hproc Hown Hothers. revert st.
  induction ls as [|l ls IH]; intros st Hw Hf; [discriminate|].
  cbn [emit]. pose proof (supabase_listener_quiet data l st h (proj1 Hw)) as Hq.
  destruct (Supabase.run_listener h data l st) as [st1 threw] eqn:Hrun.
  cbn [snd] in Hq. subst threw. cbn [List.filter] in Hf.
  destruct (Nat.eqb_spec (listener_id l) p) as [Hid|Hid].
  - injection Hf as Hl0 Hrest. subst l.
    pose proof (Hown st Hw) as HR. rewrite Hrun in HR. cbn [fst] in HR.
    clear IH Hrun Hw. revert st1 HR.
    induction ls as [|l ls IH]; intros st1 HR; [exact HR|].
    cbn [emit]. cbn [List.filter] in Hrest.
    destruct (Nat.eqb_spec (listener_id l) p) as [Hl|Hl]; [discriminate|].
    pose proof (supabase_listener_quiet data l st1 h (Hproc _ HR)) as Hq.
    pose proof (Hothers l st1 Hl HR) as Ho.
    destruct (Supabase.run_listener h data l st1) as [st2 threw].
    cbn [snd fst] in *. subst threw. now apply IH.
  - pose proof (other_listener_keeps_waiting data l st l0 Hid Hw) as Ho.
    rewrite Hrun in Ho. cbn [fst] in Ho. now apply IH.
Qed.

(** The listener of the call itself: it delivers the first matching frame
    among the lines that the chunk completes, or keeps the rest. *)
Lemma own_listener_delivers (data : string) (st : session)
      (e : option Json) (buffer : string) :
  listening st h p e buffer ->
  let st' := fst (Supabase.run_listener h data (SupabaseData p e buffer) st) in
  match Supabase.matching_frame e
          (fst (Supabase.take_lines buffer data)) with
  | Some parsed => promises st' !! p = Some (Resolved parsed)
  | None =>
      listening st' h p e (snd (Supabase.take_lines buffer data))
  end.
Proof.
  intros (Hp & Hls & Hq). cbn zeta. cbn [Supabase.run_listener].
  pose proof (supabase_onData_settles h p h e buffer data st Hp Hq) as Hs.
  unfold Supabase.onData in *.
  destruct (Supabase.take_lines buffer data) as [lines rest]. cbn [fst snd] in *.
  destruct (Supabase.matching_frame e lines) as [parsed|]; [exact Hs|].
  cbn [fst] in *. split; [exact Hp|]. split; [|exact Hq].
  unfold listeners_for, store_listener. rewrite listeners_of_alter.
  unfold listeners_for, listeners_of in Hls.
  destruct (children st !! h) as [c|]; [|discriminate]. cbn [stdout_listeners].
  change p with (listener_id (SupabaseData p e rest)) at 1.
  rewrite filter_replace_own. cbn [listener_id]. now rewrite Hls.
Qed.

(** One chunk on the stdout of the child, for a call. *)
Lemma chunk_delivers (data : string) (st : session) (e : option Json)
      (buffer : string) :
  listening st h p e buffer ->
  let st' := Supabase.step st (StdoutData h data) in
  match Supabase.matching_frame e
          (fst (Supabase.take_lines buffer data)) with
  | Some parsed => promises st' !! p = Some (Resolved parsed)
  | None =>
      listening st' h p e (snd (Supabase.take_lines buffer data))
  end.
Proof.
  intros Hl. cbn zeta. unfold Supabase.step.
  pose proof (own_listener_delivers data) as Hown.
  destruct (Supabase.matching_frame e
              (fst (Supabase.take_lines buffer data))) as [parsed|] eqn:Hm.
  - refine (proj2 (emit_own data (SupabaseData p e buffer)
                     (fun st' => process st' = Some h
                                 /\ promises st' !! p = Some (Resolved parsed))
                     _ st _ _ _ Hl (proj1 (proj2 Hl)))).
    + now intros st1 [Hp _].
    + intros st1 Hw. specialize (Hown st1 e buffer Hw). cbn zeta in Hown.
      rewrite Hm in Hown. split; [|exact Hown].
      destruct (supabase_listener_frame h data (SupabaseData p e buffer) st1)
        as [Hp _]. rewrite Hp. exact (proj1 Hw).
    + intros l st1 _ [Hp Hq]. split.
      * destruct (supabase_listener_frame h data l st1) as [Hp' _]. congruence.
      * now apply supabase_listener_keeps_settled.
  - refine (emit_own data (SupabaseData p e buffer)
              (fun st' => listening st' h p e
                            (snd (Supabase.take_lines buffer data)))
              _ st _ _ _ Hl (proj1 (proj2 Hl))).
    + now intros st1 [Hp _].
    + intros st1 Hw. specialize (Hown st1 e buffer Hw). cbn zeta in Hown.
      now rewrite Hm in Hown.
    + intros l st1 Hne Hw. now apply other_listener_keeps_waiting.
Qed.

(** The handshake listener itself: it resolves [initSupabaseServer] when a
    line that the chunk completes is a frame with a result, or keeps the
    rest. *)
Lemma init_listener_delivers (data : string) (st : session)
      (buffer : string) :
  shaking_hands st h p buffer ->
  let st' := fst (Supabase.run_listener h data (SupabaseInitData p buffer)
                    st) in
  if Supabase.result_frame_in (fst (Supabase.take_lines buffer data))
  then promises st' !! p = Some (Resolved (JBool true))
  else shaking_hands st' h p (snd (Supabase.take_lines buffer data)).
Proof.
  intros (Hp & Hls & Hq). cbn zeta. cbn [Supabase.run_listener fst].
  unfold Supabase.onInitData.
  destruct (Supabase.take_lines buffer data) as [lines rest]. cbn [fst snd].
  assert (Hst : listeners_for p h
                  (store_listener h (SupabaseInitData p rest) st)
                = [SupabaseInitData p rest]).
  { unfold listeners_for, store_listener. rewrite listeners_of_alter.
    unfold listeners_for, listeners_of in Hls.
    destruct (children st !! h) as [c|]; [|discriminate].
    cbn [stdout_listeners].
    change p with (listener_id (SupabaseInitData p rest)) at 1.
    rewrite filter_replace_own. cbn [listener_id]. now rewrite Hls. }
  destruct (Supabase.result_frame_in lines).
  - replace (process (store_listener h (SupabaseInitData p rest) st))
      with (Some h) by (now rewrite <- Hp).
    unfold resolve, removeListener, store_listener. session_simpl.
    rewrite Hq. session_simpl.
    apply list_lookup_insert_eq. now apply lookup_lt_Some in Hq.
  - split; [exact Hp|]. split; [exact Hst | exact Hq].
Qed.

(** One chunk on the stdout of the child, for the handshake. *)
Lemma chunk_shakes_hands (data : string) (st : session) (buffer : string) :
  shaking_hands st h p buffer ->
  let st' := Supabase.step st (StdoutData h data) in
  if Supabase.result_frame_in (fst (Supabase.take_lines buffer data))
  then promises st' !! p = Some (Resolved (JBool true))
  else shaking_hands st' h p (snd (Supabase.take_lines buffer data)).
Proof.
  intros Hl. cbn zeta. unfold Supabase.step.
  pose proof (init_listener_delivers data) as Hown.
  destruct (Supabase.result_frame_in
              (fst (Supabase.take_lines buffer data))) eqn:Hm.
  - refine (proj2 (emit_own data (SupabaseInitData p buffer)
                     (fun st' => process st' = Some h
                                 /\ promises st' !! p
                                    = Some (Resolved (JBool true)))
                     _ st _ _ _ Hl (proj1 (proj2 Hl)))).
    + now intros st1 [Hp _].
    + intros st1 Hw. specialize (Hown st1 buffer Hw). cbn zeta in Hown.
      rewrite Hm in Hown. split; [|exact Hown].
      destruct (supabase_listener_frame h data (SupabaseInitData p buffer)
                  st1) as [Hp _]. rewrite Hp. exact (proj1 Hw).
    + intros l st1 _ [Hp Hq]. split.
      * destruct (supabase_listener_frame h data l st1) as [Hp' _]. congruence.
      * now apply supabase_listener_keeps_settled.
  - refine (emit_own data (SupabaseInitData p buffer)
              (fun st' => shaking_hands st' h p
                            (snd (Supabase.take_lines buffer data)))
              _ st _ _ _ Hl (proj1 (proj2 Hl))).
    + now intros st1 [Hp _].
    + intros st1 Hw. specialize (Hown st1 buffer Hw). cbn zeta in Hown.
      now rewrite Hm in Hown.
    + intros l st1 Hne Hw. now apply other_listener_keeps_waiting.
Qed.

Lemma run_events_as_trace (st : session) (events : list event) :
  run_events Supabase.step st events
  = Trace.run Trace.supabase st (map Happens events).
Proof.
  unfold run_events, Trace.run. revert st.
  induction events as [|e es IH]; intros st; [reflexivity|].
  cbn. apply IH.
Qed.

(** The chunks of the stream in turn: the call ends as [deliver] says. *)
Lemma stream_delivers (chunks : list string) (st : session)
      (e : option Json) (buffer : string) :
  listening st h p e buffer ->
  promises (run_events Supabase.step st (map (StdoutData h) chunks)) !! p
  = match Supabase.deliver e buffer chunks with
    | Some parsed => Some (Resolved parsed)
    | None => Some Pending
    end.
Proof.
  revert st buffer. induction chunks as [|data rest IH]; intros st buffer Hl.
  - cbn. exact (proj2 (proj2 Hl)).
  - cbn [map run_events fold_left Supabase.deliver].
    pose proof (chunk_delivers data st e buffer Hl) as Hc. cbn zeta in Hc.
    destruct (Supabase.take_lines buffer data) as [lines buffer'].
    cbn [fst snd] in Hc.
    destruct (Supabase.matching_frame e lines) as [parsed|].
    + fold (run_events Supabase.step
              (Supabase.step st (StdoutData h data))
              (map (StdoutData h) rest)).
      rewrite run_events_as_trace.
      apply supabase_settled_is_final; [discriminate | exact Hc].
    + apply IH, Hc.
Qed.

(** The chunks of the stream in turn: the handshake ends as
    [Handshake.supabase] says. *)
Lemma stream_shakes_hands (chunks : list string) (st : session)
      (buffer : string) :
  shaking_hands st h p buffer ->
  promises (run_events Supabase.step st (map (StdoutData h) chunks)) !! p
  = if Handshake.supabase buffer chunks
    then Some (Resolved (JBool true))
    else Some Pending.
Proof.
  revert st buffer. induction chunks as [|data rest IH]; intros st buffer Hl.
  - cbn. exact (proj2 (proj2 Hl)).
  - cbn [map run_events fold_left Handshake.supabase].
    pose proof (chunk_shakes_hands data st buffer Hl) as Hc. cbn zeta in Hc.
    destruct (Supabase.take_lines buffer data) as [lines buffer'].
    cbn [fst snd] in Hc.
    destruct (Supabase.result_frame_in lines).
    + fold (run_events Supabase.step
              (Supabase.step st (StdoutData h data))
              (map (StdoutData h) rest)).
      rewrite run_events_as_trace.
      apply supabase_settled_is_final; [discriminate | exact Hc].
    + apply IH, Hc.
Qed.

End Concurrent.

Section HandshakeStream.
Context `{JsonParser}.

Lemma result_frame_in_app (l1 l2 : list string) :
  Supabase.result_frame_in (l1 ++ l2)
  = Supabase.result_frame_in l1 || Supabase.result_frame_in l2.
Proof.
  induction l1 as [|raw rest IH]; [reflexivity|].
  cbn [app Supabase.result_frame_in].
  destruct (negb (Js.nonempty (Js.trim raw))
            || negb (looks_like_json (Js.trim raw))); [exact IH|].
  destruct (JSON_parse (Js.trim raw)) as [j|]; [|exact IH].
  now destruct (truthy (Some j) && _).
Qed.

Lemma handshake_stream (chunks : list string) (buffer : string) :
  fst (Supabase.take_lines buffer EmptyString) = [] ->
  Handshake.supabase buffer chunks
  = Supabase.result_frame_in
      (fst (Supabase.take_lines buffer (stream_of chunks))).
Proof.
  revert buffer. induction chunks as [|data rest IH]; intros buffer Hb.
  - cbn [Handshake.supabase stream_of]. now rewrite Hb.
  - cbn [Handshake.supabase stream_of]. rewrite take_lines_app.
    pose proof (take_lines_rest_has_no_line buffer data) as Hrest.
    destruct (Supabase.take_lines buffer data) as [lines buffer'].
    cbn [snd] in Hrest. rewrite (IH buffer' Hrest).
    destruct (Supabase.take_lines buffer' (stream_of rest)) as [lines' rest'].
    cbn [fst]. rewrite result_frame_in_app.
    now destruct (Supabase.result_frame_in lines).
Qed.

Lemma result_frame_in_spec (lines : list string) :
  Supabase.result_frame_in lines = true
  <-> exists raw, In raw lines /\ Handshake.result_line raw.
Proof.
  unfold Handshake.result_line. induction lines as [|raw rest IH].
  - split; [discriminate | now intros (? & [] & _)].
  - cbn [Supabase.result_frame_in].
    destruct (Js.nonempty (Js.trim raw)) eqn:Hne; cbn [negb orb].
    + destruct (looks_like_json (Js.trim raw)) eqn:Hj; cbn [negb].
      * destruct (JSON_parse (Js.trim raw)) as [j|] eqn:Hparse.
        -- destruct (truthy (Some j)) eqn:Ht; cbn [andb].
           ++ destruct (truthy (prop (Some j) "result")) eqn:Hr.
              ** split; [intros _|reflexivity].
                 exists raw. split; [now left|]. split; [exact Hj|].
                 now exists j.
              ** rewrite IH. split.
                 --- intros (x & Hin & Hx). exists x. split; [now right|exact Hx].
                 --- intros (x & [<-|Hin] & Hlj & r & Hp & Ht' & Hr').
                     +++ congruence.
                     +++ exists x. split; [exact Hin|]. split; [exact Hlj|].
                         now exists r.
           ++ rewrite IH. split.
              --- intros (x & Hin & Hx). exists x. split; [now right|exact Hx].
              --- intros (x & [<-|Hin] & Hlj & r & Hp & Ht' & Hr').
                  +++ congruence.
                  +++ exists x. split; [exact Hin|]. split; [exact Hlj|].
                      now exists r.
        -- rewrite IH. split.
           ++ intros (x & Hin & Hx). exists x. split; [now right|exact Hx].
           ++ intros (x & [<-|Hin] & Hlj & r & Hp & Ht' & Hr').
              ** congruence.
              ** exists x. split; [exact Hin|]. split; [exact Hlj|].
                 now exists r.
      * rewrite IH. split.
        -- intros (x & Hin & Hx). exists x. split; [now right|exact Hx].
        -- intros (x & [<-|Hin] & Hlj & r & Hp & Ht' & Hr').
           ++ congruence.
           ++ exists x. split; [exact Hin|]. split; [exact Hlj|].
              now exists r.
    + rewrite IH. split.
      * intros (x & Hin & Hx). exists x. split; [now right|exact Hx].
      * intros (x & [<-|Hin] & Hlj & r & Hp & Ht' & Hr').
        -- exfalso. destruct (Js.trim raw); [discriminate Hlj | discriminate Hne].
        -- exists x. split; [exact Hin|]. split; [exact Hlj|].
           now exists r.
Qed.

End HandshakeStream.

(** X7. Calls on one supabase child are told apart by their ids, whatever
    the number of calls in flight: for a pending call that listens for a
    (non-null) id on the child's stdout, however the stream is cut into
    chunks and whatever the other calls do, if the call is resolved it is
    resolved with a frame that carries its id, and that frame is the parse
    of a line of the stream that starts like JSON. *)
Theorem X7_supabase_call_gets_its_own_frame :
  forall `{JsonParser} (st : session) (h p : nat) (expectedId : option Json)
         (chunks : list string) (frame : Json),
    listening st h p expectedId EmptyString ->
    nullish expectedId = false ->
    promises (run_events Supabase.step st (map (StdoutData h) chunks)) !! p
    = Some (Resolved frame) ->
    strict_eq (prop (Some frame) "id") expectedId = true
    /\ exists raw,
         In raw (Js.split "010" (stream_of chunks))
         /\ looks_like_json (Js.trim raw) = true
         /\ JSON_parse (Js.trim raw) = Some frame.
Proof.
  intros parser st h p e chunks frame Hl Hn Hres.
  rewrite (stream_delivers h p chunks st e EmptyString Hl) in Hres.
  destruct (Supabase.deliver e EmptyString chunks) as [parsed|] eqn:Hd;
    [|discriminate].
  injection Hres as ->. split.
  - eapply deliver_has_id; eassumption.
  - rewrite deliver_stream in Hd by reflexivity.
    destruct (matching_frame_is_a_frame e _ frame Hd) as (raw & Hin & Hraw).
    exists raw. split; [|exact Hraw].
    unfold Supabase.take_lines in Hin. cbn [String.append] in Hin.
    change (EmptyString +:+ stream_of chunks) with (stream_of chunks) in Hin.
    clear -Hin. revert Hin.
    generalize (Js.split "010" (stream_of chunks)). intros l.
    induction l as [|x l IH]; [contradiction|].
    destruct l as [|y l]; [contradiction|].
    change (pop (x :: y :: l))
      with (let '(front, final) := pop (y :: l) in (x :: front, final)).
    destruct (pop (y :: l)) as [front final] eqn:Ep. cbn [fst].
    intros [->|Hin]; [now left|]. right. apply IH. exact Hin.
Qed.

(** X7 on two calls in flight: the answer of the other call comes first, the
    answer of this one is cut in two. *)
Lemma X7_witness_second_answer :
  let chunks := [line Scenario.answer_3;
                 Js.quoted "{'jsonrpc':'2.0','id':2,";
                 line "'result':{'tools':[]}}"] in
  strict_eq (prop (Some Scenario.frame_2) "id") (Some (JNum 2)) = true
  /\ exists raw,
       In raw (Js.split "010" (stream_of chunks))
       /\ looks_like_json (Js.trim raw) = true
       /\ Parser.json_parse (Js.trim raw) = Some Scenario.frame_2.
Proof.
  cbn zeta.
  refine (X7_supabase_call_gets_its_own_frame (H := Parser.json_parse)
            Scenario.supabase_two_calls 0%nat 1%nat (Some (JNum 2))
            _ Scenario.frame_2 _ _ _).
  - repeat split; vm_compute; reflexivity.
  - reflexivity.
  - vm_compute. reflexivity.
Defined.

(** X8. What a supabase call is resolved with does not depend on how the
    child's output is cut into chunks, nor on the other calls in flight: it
    is decided by the text of the stream. *)
Theorem X8_supabase_call_ignores_chunk_boundaries :
  forall `{JsonParser} (st : session) (h p : nat) (expectedId : option Json)
         (chunks chunks' : list string),
    listening st h p expectedId EmptyString ->
    stream_of chunks = stream_of chunks' ->
    promises (run_events Supabase.step st (map (StdoutData h) chunks)) !! p
    = promises (run_events Supabase.step st (map (StdoutData h) chunks')) !! p.
Proof.
  intros parser st h p e chunks chunks' Hl Hs.
  rewrite !(stream_delivers h p _ st e EmptyString Hl).
  now rewrite (deliver_chunking e chunks chunks' Hs).
Qed.

(** X8 on two calls in flight: the answer of the other call comes first, the
    answer of this one is cut in two. *)
Lemma X8_witness_cut_answer :
  let chunks := [line Scenario.answer_3;
                 Js.quoted "{'jsonrpc':'2.0','id':2,";
                 line "'result':{'tools':[]}}"] in
  let chunks' := [line Scenario.answer_3; line Scenario.answer_2] in
  promises (run_events (Supabase.step (H := Parser.json_parse))
              Scenario.supabase_two_calls (map (StdoutData 0) chunks))
    !! 1%nat
  = promises (run_events (Supabase.step (H := Parser.json_parse))
                Scenario.supabase_two_calls (map (StdoutData 0) chunks'))
      !! 1%nat.
Proof.
  cbn zeta.
  refine (X8_supabase_call_ignores_chunk_boundaries (H := Parser.json_parse)
            Scenario.supabase_two_calls 0%nat 1%nat (Some (JNum 2)) _ _ _ _).
  - repeat split; vm_compute; reflexivity.
  - vm_compute. reflexivity.
Defined.

(** X15. The supabase handshake is decided by the text that the child
    writes, not by its chunks, and is not disturbed by log lines or by the
    calls in flight: while the process handle stays, [initSupabaseServer]
    is resolved when and only when a complete line of the stream parses to
    a frame with a truthy [result]; until then it stays pending. *)
Theorem X15_supabase_handshake_reads_lines :
  forall `{JsonParser} (st : session) (h p : nat) (chunks : list string),
    shaking_hands st h p EmptyString ->
    let outcome :=
      promises (run_events Supabase.step st (map (StdoutData h) chunks)) !! p
    in
    (outcome = Some (Resolved (JBool true)) \/ outcome = Some Pending)
    /\ (outcome = Some (Resolved (JBool true))
        <-> exists raw,
              In raw (fst (Supabase.take_lines EmptyString
                             (stream_of chunks)))
              /\ Handshake.result_line raw).
Proof.
  intros parser st h p chunks Hl. cbn zeta.
  rewrite (stream_shakes_hands h p chunks st EmptyString Hl).
  rewrite handshake_stream by reflexivity.
  rewrite <- result_frame_in_spec.
  destruct (Supabase.result_frame_in _).
  - split; [now left|]. split; reflexivity.
  - split; [now right|]. split; discriminate.
Qed.

(** X15 on a fresh session: the child logs a line, then answers in two
    chunks. *)
Lemma X15_witness_cut_handshake :
  let chunks := [line "Supabase MCP server starting";
                 Js.quoted "{'jsonrpc':'2.0',";
                 line "'id':1,'result':{}}"] in
  promises (run_events (Supabase.step (H := Parser.json_parse))
              (fst (Supabase.initSupabaseServer fresh))
              (map (StdoutData 0) chunks)) !! 0%nat
  = Some (Resolved (JBool true)).
Proof.
  cbn zeta.
  refine (proj2 (proj2 (X15_supabase_handshake_reads_lines
                          (H := Parser.json_parse)
                          (fst (Supabase.initSupabaseServer fresh))
                          0%nat 0%nat _ _)) _).
  - repeat split; vm_compute; reflexivity.
  - exists (Js.quoted "{'jsonrpc':'2.0','id':1,'result':{}}").
    split; [vm_compute; tauto|]. split; [vm_compute; reflexivity|].
    exists (JObj [("jsonrpc", JStr "2.0"); ("id", JNum 1);
                  ("result", JObj [])]).
    repeat split; vm_compute; reflexivity.
Defined.

(** ** What the handlers answer *)

Lemma bind_done {A B} (m : M A) (k : A -> M B) (b : bridge) (r : B)
      (b' : bridge) :
  bind m k b = Done r b' ->
  exists a b1, m b = Done a b1 /\ k a b1 = Done r b'.
Proof.
  unfold bind. destruct (m b) as [a b1| |]; [|discriminate..]. eauto.
Qed.

(** A [try] block that answers 200 or the 400 envelope, with the [catch]
    of the routing handlers. *)
Lemma try_catch_answers (m : M response) (fallback : string) (b : bridge) :
  (forall r b', m b = Done r b' ->
                status r = 200%nat
                \/ exists message,
                     r = mkResponse 400 (error_envelope (-32602) message)) ->
  match try_catch m
          (fun e =>
             status_json 500
               (error_envelope (-32000) (message_or e fallback))) b with
  | Done r _ => well_answered r
  | Thrown _ _ => False
  | Blocked _ => True
  end.
Proof.
  intros Hm. unfold try_catch. destruct (m b) as [r b'|e b'|b'] eqn:E.
  - destruct (Hm r b' eq_refl) as [H200|[msg H400]]; [now left|].
    right. exists msg. now left.
  - cbn. right. eexists. now right.
  - exact I.
Qed.

Ltac answer_200 H :=
  repeat (apply bind_done in H as (? & ? & _ & H));
  first [ injection H as <- _; left; reflexivity
        | idtac ].

(** X9. The routing handlers never let an exception out and always answer
    in one of three shapes: whatever the request and whatever the children
    do, [GET /tools], [POST /tools/:toolName] and [POST /mcp] either wait,
    or answer 200, or answer the JSON-RPC error envelope with status 400
    (code -32602) or status 500 (code -32000). *)
Theorem X9_routing_handlers_answer_in_shape :
  forall (W : World) (raw : string) (q : option string)
         (req_body : option Json) (b : bridge),
    match get_tools W q b with
    | Done r _ => well_answered r
    | Thrown _ _ => False
    | Blocked _ => True
    end
    /\ match post_tool W raw q req_body b with
       | Done r _ => well_answered r
       | Thrown _ _ => False
       | Blocked _ => True
       end
    /\ match post_mcp W req_body q b with
       | Done r _ => well_answered r
       | Thrown _ _ => False
       | Blocked _ => True
       end.
Proof.
  intros W raw q req_body b. repeat split.
  - unfold get_tools. apply try_catch_answers. intros r b' Hr.
    answer_200 Hr.
  - unfold post_tool. destruct (route_tool raw q) as [key name].
    destruct (String.eqb key "all").
    + cbn. right. eexists. now left.
    + destruct (providers_at key) as [k| |].
      * apply try_catch_answers. intros r b' Hr. answer_200 Hr.
      * cbn. right. eexists. now right.
      * cbn. right. eexists. now left.
  - unfold post_mcp. apply try_catch_answers. intros r b' Hr.
    destruct (provider_converts _); cbn [negb] in Hr; [|discriminate Hr].
    destruct (wants_all _ _).
    + answer_200 Hr.
    + destruct (route_mcp _ _) as [key msg].
      destruct (providers_at key) as [k| |].
      * answer_200 Hr.
      * discriminate Hr.
      * injection Hr as <- _. right. now eexists.
Qed.

(** ** The registry and the routes *)

Lemma providers_at_registered (key : string) (k : provider) :
  providers_at key = Registered k <-> key = key_of k.
Proof.
  unfold providers_at, providers.
  destruct (decide (key = "xero")) as [->|Hx].
  { split; [intros [= <-]; reflexivity|].
    destruct k; [reflexivity | discriminate]. }
  destruct (decide (key = "supabase")) as [->|Hs].
  { split; [intros [= <-]; reflexivity|].
    destruct k; [discriminate | reflexivity]. }
  rewrite lookup_insert_ne, lookup_insert_ne, lookup_empty by congruence.
  split; [now case_match|]. intros ->. destruct k; cbn in *; congruence.
Qed.

Lemma providers_at_undefined (key : string) :
  key <> "xero" -> key <> "supabase" -> ~ In key inherited_names ->
  providers_at key = Undefined.
Proof.
  intros Hx Hs Hi. unfold providers_at, providers.
  rewrite lookup_insert_ne, lookup_insert_ne, lookup_empty by congruence.
  destruct (existsb (String.eqb key) inherited_names) eqn:E; [|reflexivity].
  apply existsb_exists in E as (x & Hin & Hx').
  apply String.eqb_eq in Hx'. now subst x.
Qed.

(** X10. A tool call to a provider that is not registered is refused
    before anything is touched: when the routed key is not xero, not
    supabase and not a name inherited from [Object.prototype],
    [POST /tools/:toolName] answers 400 with code -32602, naming the key
    (or refusing [all]), and the bridge is as it was: no child spawned, no
    id taken, nothing written. *)
Theorem X10_unknown_key_is_refused_untouched :
  forall (W : World) (raw : string) (q : option string)
         (req_body : option Json) (b : bridge),
    let key := fst (route_tool raw q) in
    key <> "xero" -> key <> "supabase" -> ~ In key inherited_names ->
    post_tool W raw q req_body b
    = Done (mkResponse 400
              (error_envelope (-32602)
                 (if String.eqb key "all"
                  then "provider=all not supported for tools/call"
                  else "Unknown provider: " +:+ key))) b.
Proof.
  intros W raw q req_body b key Hx Hs Hi. unfold post_tool.
  subst key. destruct (route_tool raw q) as [key name]. cbn [fst] in *.
  destruct (String.eqb key "all"); [reflexivity|].
  now rewrite providers_at_undefined.
Qed.

(** X10 on a key that is nobody's, given as a namespace and in
    capitals. *)
Lemma X10_witness_ghost_prefix :
  post_tool Scenario.healthy "GHOST.list" (Some "xero") None boot
  = Done (mkResponse 400
            (error_envelope (-32602) "Unknown provider: ghost")) boot.
Proof.
  apply (X10_unknown_key_is_refused_untouched Scenario.healthy "GHOST.list"
           (Some "xero") None boot).
  - discriminate.
  - discriminate.
  - cbn. intuition discriminate.
Defined.

(** ** One provider at a time *)

Lemma spares_ret {A} (k : provider) (a : A) : spares k (ret a).
Proof. intros b. reflexivity. Qed.

Lemma spares_throw {A} (k : provider) (e : string) : spares k (@throw A e).
Proof. intros b. reflexivity. Qed.

Lemma spares_bind {A B} (k : provider) (m : M A) (f : A -> M B) :
  spares k m -> (forall a, spares k (f a)) -> spares k (bind m f).
Proof.
  intros Hm Hf b. unfold bind. specialize (Hm b).
  destruct (m b) as [a b1|e b1|b1]; cbn [final] in *; [|exact Hm..].
  rewrite <- Hm. apply Hf.
Qed.

Lemma spares_try_catch {A} (k : provider) (m : M A) (f : string -> M A) :
  spares k m -> (forall e, spares k (f e)) -> spares k (try_catch m f).
Proof.
  intros Hm Hf b. unfold try_catch. specialize (Hm b).
  destruct (m b) as [a b1|e b1|b1]; cbn [final] in *; [exact Hm| |exact Hm].
  rewrite <- Hm. apply Hf.
Qed.

Lemma spares_await (k k' : provider) (start : session -> session * nat)
      (how : pstate) :
  k <> k' -> spares k (await k' start how).
Proof.
  intros Hne b. unfold await.
  destruct (start (session_of k' b)) as [st p].
  repeat case_match; cbn [final]; destruct k, k'; try congruence; reflexivity.
Qed.

Lemma spares_next_id (k k' : provider) : k <> k' -> spares k (next_id k').
Proof.
  intros Hne b. unfold next_id. cbn.
  destruct k, k'; try congruence; reflexivity.
Qed.

Lemma spares_init (W : World) (k k' : provider) :
  k <> k' -> spares k (init W k').
Proof. intros Hne. destruct k'; now apply spares_await. Qed.

Lemma spares_send (W : World) (k k' : provider) (message : Json) :
  k <> k' -> spares k (send W k' message).
Proof. intros Hne. destruct k'; now apply spares_await. Qed.

Lemma spares_tools_of (k : provider) (resp : Json) : spares k (tools_of resp).
Proof. intros b. unfold tools_of. now repeat case_match. Qed.

Lemma spares_prefixed (k : provider) (key : string) (t : Json) :
  spares k (prefixed key t).
Proof.
  intros b. unfold prefixed, bind.
  destruct t; cbn [member]; try reflexivity;
    now destruct (converts _).
Qed.

Lemma spares_map_tools (k : provider) (f : Json -> M Json)
      (tools : list Json) :
  (forall t, spares k (f t)) -> spares k (map_tools f tools).
Proof.
  intros Hf. induction tools as [|t rest IH]; [apply spares_ret|].
  cbn [map_tools]. apply spares_bind; [apply Hf|]. intros t'.
  apply spares_bind; [exact IH|]. intros rest'. apply spares_ret.
Qed.

Lemma spares_list_of (W : World) (k k' : provider) (key : string)
      (all : bool) :
  k <> k' -> spares k (list_of W k' key all).
Proof.
  intros Hne. unfold list_of.
  apply spares_bind; [now apply spares_init|]. intros _.
  apply spares_bind; [now apply spares_next_id|]. intros id.
  apply spares_bind; [now apply spares_send|]. intros resp.
  apply spares_bind; [apply spares_tools_of|]. intros tools.
  apply spares_map_tools. intros t.
  destruct all; [apply spares_prefixed | apply spares_ret].
Qed.

(** X11. A request goes to one provider and leaves the other alone: the
    session of a provider (its child, its counter, its promises) is not
    changed by a [POST /tools/:toolName] that is routed to another key, nor
    by a [GET /tools] that lists another provider (and not all). *)
Theorem X11_the_other_provider_is_left_alone :
  forall (W : World) (k : provider) (raw : string) (q q' : option string)
         (req_body : option Json) (b : bridge),
    fst (route_tool raw q) <> key_of k ->
    listed_provider q' <> key_of k ->
    listed_provider q' <> "all" ->
    session_of k (final (post_tool W raw q req_body b)) = session_of k b
    /\ session_of k (final (get_tools W q' b)) = session_of k b.
Proof.
  intros W k raw q q' req_body b Hroute Hlist Hall. split.
  - unfold post_tool. destruct (route_tool raw q) as [key name].
    cbn [fst] in Hroute.
    destruct (String.eqb key "all"); [reflexivity|].
    destruct (providers_at key) as [k'| |] eqn:Hk; [|reflexivity..].
    apply providers_at_registered in Hk. subst key.
    assert (Hne : k <> k') by congruence.
    apply spares_try_catch; [|intros e; apply spares_ret].
    apply spares_bind; [now apply spares_init|]. intros _.
    apply spares_bind.
    { destruct k'; cbn; now apply spares_next_id. }
    intros id. apply spares_bind; [now apply spares_send|]. intros out.
    apply spares_ret.
  - unfold get_tools.
    apply String.eqb_neq in Hall. rewrite Hall, !orb_false_r.
    apply spares_try_catch; [|intros e; apply spares_ret].
    apply spares_bind.
    { destruct (String.eqb_spec (listed_provider q') "xero") as [Hx|Hx];
        [|apply spares_ret].
      apply spares_list_of. destruct k; [now rewrite Hx in Hlist | discriminate]. }
    intros xs. apply spares_bind; [|intros ss; apply spares_ret].
    destruct (String.eqb_spec (listed_provider q') "supabase") as [Hs|Hs];
      [|apply spares_ret].
    apply spares_list_of. destruct k; [discriminate | now rewrite Hs in Hlist].
Qed.

(** X11 on xero, while supabase is called and listed. *)
Lemma X11_witness_xero_untouched :
  xero (final (post_tool Scenario.healthy "supabase.list_tables" None None
                         boot)) = fresh
  /\ xero (final (get_tools Scenario.healthy (Some "SUPABASE") boot)) = fresh.
Proof.
  apply (X11_the_other_provider_is_left_alone Scenario.healthy XeroP
           "supabase.list_tables" None (Some "SUPABASE") None boot);
    discriminate.
Defined.

(** ** The id and the message of a tool call *)

Lemma await_final (k : provider) (start : session -> session * nat)
      (how : pstate) (b : bridge) :
  session_of k (final (await k start how b))
  = settle (snd (start (session_of k b))) how (fst (start (session_of k b))).
Proof.
  unfold await. destruct (start (session_of k b)) as [st p]. cbn [fst snd].
  repeat case_match; cbn [final]; destruct k; reflexivity.
Qed.

Lemma final_try_catch_status (m : M response) (code : nat)
      (f : string -> Json) (b : bridge) :
  final (try_catch m (fun e => status_json code (f e)) b) = final (m b).
Proof. unfold try_catch. now destruct (m b). Qed.

Section ToolCall.
Variable W : World.

Lemma init_warm_state (k : provider) (b : bridge) (h : nat) :
  process (session_of k b) = Some h ->
  exists v b1,
    init W k b = Done v b1
    /\ process (session_of k b1) = Some h
    /\ children (session_of k b1) = children (session_of k b)
    /\ nextId (session_of k b1) = nextId (session_of k b).
Proof.
  intros Hp. unfold init.
  destruct k; cbn [session_of] in *; session_simpl; rewrite Hp;
    session_simpl; eexists _, _; (split; [reflexivity|]); cbn; auto.
Qed.

Lemma send_writes (k : provider) (message : Json) (b : bridge) (h : nat)
      (c : child) :
  process (session_of k b) = Some h ->
  children (session_of k b) !! h = Some c ->
  let st' := session_of k (final (send W k message b)) in
  nextId st' = nextId (session_of k b)
  /\ exists c', children st' !! h = Some c'
                /\ stdin c' = (stdin c ++ [message])%list.
Proof.
  intros Hp Hc. cbn zeta. unfold send.
  destruct k; rewrite await_final; rewrite nextId_settle, children_settle;
    cbn [session_of] in *;
    unfold Xero.sendMCPMessage, Supabase.sendSupabaseMessage, new_promise;
    cbn [process set_promises]; rewrite Hp; cbn [fst snd];
    unfold setTimeout, write, on_data, alter_child, set_timers, set_children,
      set_promises;
    cbn [children nextId]; (split; [reflexivity|]);
    rewrite !list_lookup_alter_eq, Hc; cbn; eexists; split; reflexivity.
Qed.

End ToolCall.

(** X12. A tool call takes one id and writes one message: when
    [POST /tools/:toolName] is routed to a registered provider whose child
    is there, then, whatever the child does next, the provider's counter has
    advanced by one and the child's stdin has received one more message,
    the [tools/call] request with the old value of the counter as its id,
    the resolved tool name, and the arguments of the body or [{}]. *)
Theorem X12_tool_call_takes_one_id :
  forall (W : World) (k : provider) (raw : string) (q : option string)
         (req_body : option Json) (b : bridge) (h : nat) (c : child),
    fst (route_tool raw q) = key_of k ->
    process (session_of k b) = Some h ->
    children (session_of k b) !! h = Some c ->
    let st := session_of k b in
    let st' := session_of k (final (post_tool W raw q req_body b)) in
    nextId st' = nextId st + 1
    /\ exists c',
         children st' !! h = Some c'
         /\ stdin c'
            = (stdin c
               ++ [tools_call (nextId st) (snd (route_tool raw q))
                     (or_empty_object
                        (js_and req_body (prop req_body "arguments")))])%list.
Proof.
  intros W k raw q req_body b h c Hkey Hp Hc. cbn zeta. unfold post_tool.
  destruct (route_tool raw q) as [key name]. cbn [fst snd] in *. subst key.
  assert (Hall : String.eqb (key_of k) "all" = false) by now destruct k.
  rewrite Hall, (proj2 (providers_at_registered (key_of k) k) eq_refl).
  rewrite final_try_catch_status.
  assert (Hk : (if String.eqb (key_of k) "supabase" then SupabaseP else XeroP)
               = k) by now destruct k.
  rewrite Hk. unfold bind.
  destruct (init_warm_state W k b h Hp) as (v & b1 & Hinit & Hp1 & Hc1 & Hn1).
  rewrite !Hinit.
  change (next_id k b1)
    with (Done (nextId (session_of k b1))
               (with_session k (snd (take_id (session_of k b1))) b1)).
  cbn beta iota.
  set (b2 := with_session k (snd (take_id (session_of k b1))) b1).
  assert (Hp2 : process (session_of k b2) = Some h)
    by (subst b2; destruct k; exact Hp1).
  assert (Hc2 : children (session_of k b2) !! h = Some c)
    by (subst b2; destruct k; cbn; cbn in Hc1; now rewrite Hc1).
  assert (Hn2 : nextId (session_of k b2) = nextId (session_of k b) + 1)
    by (subst b2; destruct k; cbn; cbn in Hn1; now rewrite Hn1).
  rewrite Hn1.
  pose proof (send_writes W k
                (tools_call (nextId (session_of k b)) name
                   (or_empty_object
                      (js_and req_body (prop req_body "arguments"))))
                b2 h c Hp2 Hc2) as Hsend.
  cbn zeta in Hsend.
  destruct (send W k _ b2) as [out b3|e b3|b3]; cbn [final json ret] in *;
    rewrite <- Hn2; exact Hsend.
Qed.

(** X12 on a supabase session that is ready: the call gets id 2. *)
Lemma X12_witness_ready_supabase :
  let b := {| xero := fresh; supabase := Scenario.supabase_ready |} in
  let st' := supabase (final (post_tool Scenario.healthy "Supabase.list_tables"
                                        None None b)) in
  nextId st' = 3
  /\ exists c',
       children st' !! 0%nat = Some c'
       /\ stdin c' = [initMessage 1; tools_call 2 "list_tables" (JObj [])].
Proof.
  exact (X12_tool_call_takes_one_id Scenario.healthy SupabaseP
           "Supabase.list_tables" None None
           {| xero := fresh; supabase := Scenario.supabase_ready |} 0%nat
           (mkChild [initMessage 1] [] false) eq_refl eq_refl eq_refl).
Defined.

(** ** Namespaces *)

Lemma join_split (c : ascii) (s : string) :
  Js.join (String c EmptyString) (Js.split c s) = s.
Proof.
  induction s as [|a r IH]; [reflexivity|]. cbn [Js.split].
  pose proof (split_nonempty c r) as Hne.
  destruct (Ascii.eqb_spec a c) as [->|Ha].
  - destruct (Js.split c r) as [|h t]; [contradiction|].
    change (Js.join (String c EmptyString) (EmptyString :: h :: t))
      with (String c (Js.join (String c EmptyString) (h :: t))).
    now rewrite IH.
  - destruct (Js.split c r) as [|h t]; [contradiction|].
    destruct t as [|h2 t2].
    + cbn in *. now rewrite IH.
    + change (Js.join (String c EmptyString) (String a h :: h2 :: t2))
        with (String a (Js.join (String c EmptyString) (h :: h2 :: t2))).
      now rewrite IH.
Qed.

Lemma first_segment_is_plain (c : ascii) (s : string) :
  match Js.split c s with
  | first :: _ => Js.includes c first = false
  | [] => True
  end.
Proof.
  induction s as [|a r IH]; [reflexivity|]. cbn [Js.split].
  destruct (Ascii.eqb a c) eqn:Ea; [reflexivity|].
  destruct (Js.split c r) as [|h t]; cbn; [now rewrite Ea|].
  now rewrite Ea, IH.
Qed.

Lemma split_of_includes (c : ascii) (s : string) :
  Js.includes c s = true ->
  exists first second rest, Js.split c s = first :: second :: rest.
Proof.
  induction s as [|a r IH]; [discriminate|]. cbn [Js.includes Js.split].
  pose proof (split_nonempty c r) as Hne.
  destruct (Ascii.eqb a c); cbn.
  - intros _. destruct (Js.split c r) as [|h t]; [contradiction|]. eauto.
  - intros Hr. destruct (IH Hr) as (f & s2 & t & ->). eauto.
Qed.

(** X13. A namespace is cut off without loss: for a tool name with a dot,
    [POST /tools/:toolName] routes to the lower-cased text before the first
    dot, whatever [?provider] says, and calls the tool by the text after
    that dot; the prefix has no dot, and prefix, dot and resolved name
    together are the name that was given. *)
Theorem X13_namespace_is_cut_at_the_first_dot :
  forall (raw : string) (q : option string),
    Js.includes "." raw = true ->
    route_tool raw q = (Js.toLowerCase (prefix_of raw), rest_of raw)
    /\ prefix_of raw +:+ "." +:+ rest_of raw = raw
    /\ Js.includes "." (prefix_of raw) = false.
Proof.
  intros raw q Hdot. unfold route_tool. rewrite Hdot.
  split; [reflexivity|]. unfold prefix_of, rest_of.
  pose proof (join_split "." raw) as Hj.
  pose proof (first_segment_is_plain "." raw) as Hf.
  destruct (split_of_includes "." raw Hdot) as (f & s2 & t & Hs).
  rewrite Hs in *. split; [|exact Hf].
  change (Js.join "." (f :: s2 :: t))
    with (f +:+ "." +:+ Js.join "." (s2 :: t)) in Hj.
  exact Hj.
Qed.

(** X13 on a supabase tool with a dot in its own name. *)
Lemma X13_witness_dotted_tool :
  route_tool "Supabase.storage.list" (Some "xero")
  = ("supabase", "storage.list").
Proof.
  exact (proj1 (X13_namespace_is_cut_at_the_first_dot "Supabase.storage.list"
                  (Some "xero") eq_refl)).
Defined.

Lemma last_segment_is_plain (c : ascii) (s : string) :
  Js.includes c (snd (pop (Js.split c s))) = false.
Proof.
  induction s as [|a r IH]; [reflexivity|]. cbn [Js.split].
  destruct (Ascii.eqb a c) eqn:Ea.
  - rewrite pop_cons by apply split_nonempty. exact IH.
  - destruct (Js.split c r) as [|h t] eqn:Er;
      [now apply split_nonempty in Er|].
    destruct t as [|h2 t2].
    + cbn in *. now rewrite Ea, IH.
    + rewrite (pop_cons (String a h)) by discriminate.
      rewrite (pop_cons h) in IH by discriminate. exact IH.
Qed.

(** ** The id of a raw MCP message *)

Lemma obj_get_None_not_key (fields : list (string * Json)) (k : string) :
  k ∉ map fst fields -> obj_get fields k = None.
Proof.
  induction fields as [|[k0 v0] rest IH]; [reflexivity|]. cbn.
  rewrite not_elem_of_cons. intros [Hne Hn].
  destruct (String.eqb_spec k0 k) as [->|Hk]; [contradiction|].
  now apply IH.
Qed.

(** [{...a, ...b}[k]]: the value of [b] when it has the key, else that of
    [a]. *)
Lemma obj_get_assign (a b : list (string * Json)) (k : string) :
  NoDup (map fst b) ->
  obj_get (obj_assign a b) k
  = match obj_get b k with
    | Some v => Some v
    | None => obj_get a k
    end.
Proof.
  unfold obj_assign. revert a.
  induction b as [|[k0 v0] rest IH]; intros a Hnd; [reflexivity|].
  cbn [fold_left fst snd obj_get]. cbn [map fst] in Hnd.
  apply NoDup_cons in Hnd as [Hk0 Hnd]. rewrite (IH _ Hnd).
  destruct (String.eqb_spec k0 k) as [->|Hk].
  - now rewrite (obj_get_None_not_key rest k Hk0), obj_get_set_eq.
  - now rewrite obj_get_set_ne.
Qed.

(** X16. [POST /supabase/mcp] numbers a message only when the body brings no
    id: with a supabase child that is there and a body that is an object,
    the child receives one message whose [id] is the body's own [id] when
    it has one, and the value of the counter otherwise; the counter advances
    by one in both cases. *)
Theorem X16_supabase_mcp_lets_the_body_set_the_id :
  forall (W : World) (fields : list (string * Json)) (b : bridge) (h : nat)
         (c : child),
    NoDup (map fst fields) ->
    process (supabase b) = Some h ->
    children (supabase b) !! h = Some c ->
    let st := supabase b in
    let st' := supabase (final (post_supabase_mcp W (Some (JObj fields)) b)) in
    nextId st' = nextId st + 1
    /\ exists c' message,
         children st' !! h = Some c'
         /\ stdin c' = (stdin c ++ [message])%list
         /\ prop (Some message) "id"
            = match obj_get fields "id" with
              | Some v => Some v
              | None => Some (JNum (nextId st))
              end.
Proof.
  intros W fields b h c Hnd Hp Hc. cbn zeta. unfold post_supabase_mcp.
  rewrite final_try_catch_status. unfold bind.
  destruct (init_warm_state W SupabaseP b h Hp)
    as (v & b1 & Hinit & Hp1 & Hc1 & Hn1).
  rewrite !Hinit.
  change (next_id SupabaseP b1)
    with (Done (nextId (session_of SupabaseP b1))
               (with_session SupabaseP
                  (snd (take_id (session_of SupabaseP b1))) b1)).
  cbn beta iota.
  set (b2 := with_session SupabaseP
               (snd (take_id (session_of SupabaseP b1))) b1).
  cbn [session_of] in *.
  assert (Hp2 : process (supabase b2) = Some h) by exact Hp1.
  assert (Hc2 : children (supabase b2) !! h = Some c)
    by (subst b2; cbn; now rewrite Hc1).
  assert (Hn2 : nextId (supabase b2) = nextId (supabase b) + 1)
    by (subst b2; cbn; now rewrite Hn1).
  rewrite Hn1. cbn [spread].
  set (message := JObj (obj_assign [("jsonrpc", JStr "2.0");
                                    ("id", JNum (nextId (supabase b)))]
                                   fields)).
  pose proof (send_writes W SupabaseP message b2 h c Hp2 Hc2) as Hsend.
  cbn zeta in Hsend. cbn [session_of] in Hsend.
  assert (Hid : prop (Some message) "id"
                = match obj_get fields "id" with
                  | Some v => Some v
                  | None => Some (JNum (nextId (supabase b)))
                  end).
  { subst message. cbn [prop]. now rewrite obj_get_assign. }
  destruct (send W SupabaseP message b2) as [out b3|e b3|b3];
    cbn [final json ret] in *; rewrite <- Hn2;
    (split; [exact (proj1 Hsend)|]);
    destruct (proj2 Hsend) as (c' & Hc' & Hin);
    exists c', message; auto.
Qed.

(** X16 on a supabase session that is ready, with a body that brings the id
    of the handshake. *)
Lemma X16_witness_body_with_id_1 :
  let b := {| xero := fresh; supabase := Scenario.supabase_ready |} in
  let st' := supabase (final (post_supabase_mcp Scenario.healthy
                                (Some Scenario.call_with_id_1) b)) in
  nextId st' = 3
  /\ exists c' message,
       children st' !! 0%nat = Some c'
       /\ stdin c' = [initMessage 1; message]
       /\ prop (Some message) "id" = Some (JNum 1).
Proof.
  refine (X16_supabase_mcp_lets_the_body_set_the_id Scenario.healthy _
            {| xero := fresh; supabase := Scenario.supabase_ready |} 0%nat
            (mkChild [initMessage 1] [] false) _ eq_refl eq_refl).
  apply (bool_decide_unpack _). vm_compute. exact I.
Defined.

Section NumberedCall.
Variable W : World.

(** [await init(); const id = counter++; await send(make(id))] on a child
    that is there. *)
Lemma numbered_call_writes (k : provider) (make : Z -> Json) (b : bridge)
      (h : nat) (c : child) :
  process (session_of k b) = Some h ->
  children (session_of k b) !! h = Some c ->
  let st := session_of k b in
  let st' := session_of k
               (final ((init W k ;;;
                        id <- next_id k ;;
                        out <- send W k (make id) ;;
                        json out) b)) in
  nextId st' = nextId st + 1
  /\ exists c', children st' !! h = Some c'
                /\ stdin c' = (stdin c ++ [make (nextId st)])%list.
Proof.
  intros Hp Hc. cbn zeta. unfold bind.
  destruct (init_warm_state W k b h Hp) as (v & b1 & Hinit & Hp1 & Hc1 & Hn1).
  rewrite !Hinit.
  change (next_id k b1)
    with (Done (nextId (session_of k b1))
               (with_session k (snd (take_id (session_of k b1))) b1)).
  cbn beta iota.
  set (b2 := with_session k (snd (take_id (session_of k b1))) b1).
  assert (Hp2 : process (session_of k b2) = Some h)
    by (subst b2; destruct k; exact Hp1).
  assert (Hc2 : children (session_of k b2) !! h = Some c)
    by (subst b2; destruct k; cbn; cbn in Hc1; now rewrite Hc1).
  assert (Hn2 : nextId (session_of k b2) = nextId (session_of k b) + 1)
    by (subst b2; destruct k; cbn; cbn in Hn1; now rewrite Hn1).
  rewrite Hn1.
  pose proof (send_writes W k (make (nextId (session_of k b))) b2 h c Hp2 Hc2)
    as Hsend.
  cbn zeta in Hsend.
  destruct (send W k _ b2) as [out b3|e b3|b3]; cbn [final json ret] in *;
    rewrite <- Hn2; exact Hsend.
Qed.

End NumberedCall.

Lemma split_plain (c : ascii) (s : string) :
  Js.includes c s = false -> Js.split c s = [s].
Proof.
  induction s as [|a r IH]; [reflexivity|]. cbn [Js.includes Js.split].
  intros Hs. apply orb_false_iff in Hs as [Ha Hr].
  now rewrite Ha, (IH Hr).
Qed.

(** With a separator in it, a string is something, the separator and its
    last segment. *)
Lemma last_segment_after_separator (c : ascii) (s : string) :
  Js.includes c s = true ->
  exists before, s = before +:+ String c (snd (pop (Js.split c s))).
Proof.
  induction s as [|a r IH]; [discriminate|]. cbn [Js.includes Js.split].
  destruct (Ascii.eqb_spec a c) as [->|Ha]; cbn [orb].
  - intros _. rewrite pop_cons by apply split_nonempty. cbn [snd].
    destruct (Js.includes c r) eqn:Hr.
    + destruct (IH eq_refl) as [before Hb]. exists (String c before).
      change (String c r
              = String c (before +:+ String c (snd (pop (Js.split c r))))).
      now f_equal.
    + exists EmptyString. now rewrite (split_plain c r Hr).
  - intros Hr. destruct (IH Hr) as [before Hb].
    destruct (split_of_includes c r Hr) as (f & s2 & t & Hs).
    rewrite Hs in *. rewrite (pop_cons (String a f)) by discriminate.
    rewrite (pop_cons f) in Hb by discriminate.
    exists (String a before).
    change (String a r
            = String a (before +:+ String c (snd (pop (s2 :: t))))).
    now f_equal.
Qed.

(** X14. The xero-only bridge drops every namespace: with a xero child that
    is there, [POST /tools/:toolName] takes one id from the counter and
    writes one message, the [tools/call] request with that id, for a name
    without a dot: the text after the last dot of the name that was given,
    or the whole of it when it has no dot. *)
Theorem X14_xero_only_drops_every_namespace :
  forall (W : World) (raw : string) (req_body : option Json) (b : bridge)
         (h : nat) (c : child),
    process (xero b) = Some h ->
    children (xero b) !! h = Some c ->
    let st' := xero (final (XeroOnly.post_tool W raw req_body b)) in
    exists name c',
      children st' !! h = Some c'
      /\ stdin c'
         = (stdin c
            ++ [JObj [("jsonrpc", JStr "2.0");
                      ("id", JNum (nextId (xero b)));
                      ("method", JStr "tools/call");
                      ("params",
                       JObj [("name", JStr name);
                             ("arguments",
                              or_empty_object
                                (js_and req_body
                                        (prop req_body "arguments")))])]])%list
      /\ nextId st' = nextId (xero b) + 1
      /\ Js.includes "." name = false
      /\ (if Js.includes "." raw
          then exists before, raw = before +:+ "." +:+ name
          else name = raw).
Proof.
  intros W raw req_body b h c Hp Hc. cbn zeta. unfold XeroOnly.post_tool.
  rewrite final_try_catch_status.
  destruct (numbered_call_writes W XeroP
              (fun id => tools_call id (XeroOnly.resolved_name raw)
                           (or_empty_object
                              (js_and req_body (prop req_body "arguments"))))
              b h c Hp Hc) as (Hn & c' & Hc' & Hin).
  exists (XeroOnly.resolved_name raw), c'.
  split; [exact Hc'|]. split; [exact Hin|]. split; [exact Hn|].
  unfold XeroOnly.resolved_name.
  destruct (Js.includes "." raw) eqn:Hdot.
  - split; [apply last_segment_is_plain|].
    now apply last_segment_after_separator.
  - split; [exact Hdot | reflexivity].
Qed.

(** X14 on a xero session that is ready: the tool of [a.b.list-contacts] is
    [list-contacts]. *)
Lemma X14_witness_deep_namespace :
  let b := {| xero := Scenario.xero_ready; supabase := fresh |} in
  let st' := xero (final (XeroOnly.post_tool Scenario.healthy
                            "a.b.list-contacts" None b)) in
  (exists name c',
     children st' !! 0%nat = Some c'
     /\ stdin c'
        = [initMessage 1;
           JObj [("jsonrpc", JStr "2.0"); ("id", JNum 2);
                 ("method", JStr "tools/call");
                 ("params",
                  JObj [("name", JStr name); ("arguments", JObj [])])]]
     /\ nextId st' = 3
     /\ Js.includes "." name = false
     /\ exists before, "a.b.list-contacts" = before +:+ "." +:+ name)
  /\ stdin <$> children st' !! 0%nat
     = Some [initMessage 1;
             JObj [("jsonrpc", JStr "2.0"); ("id", JNum 2);
                   ("method", JStr "tools/call");
                   ("params",
                    JObj [("name", JStr "list-contacts");
                          ("arguments", JObj [])])]].
Proof.
  cbn zeta. split; [|vm_compute; reflexivity].
  exact (X14_xero_only_drops_every_namespace Scenario.healthy
           "a.b.list-contacts" None
           {| xero := Scenario.xero_ready; supabase := fresh |} 0%nat
           (mkChild [initMessage 1] [] false) eq_refl eq_refl).
Defined.

(** ** The health probe *)

(** X17. While the bridge is there (no exception has left a callback of
    either session), once xero has a process handle [GET /health] answers
    200 with [status: 'ok'] and [mcpServer: 'running'], whatever has
    happened to the xero child since (its exit included), whatever the
    supabase session is and however the environment is set. *)
Theorem X17_health_is_ok_once_xero_was_started :
  forall `{JsonParser} (W : World) (defaultArgs : option (list string))
         (env : SpawnSpec.Env) (now url : string) (st sb : session) (h : nat)
         (actions : list action),
    process st = Some h ->
    alive (Trace.run Trace.xero st actions) ->
    alive sb ->
    let b := {| xero := Trace.run Trace.xero st actions; supabase := sb |} in
    exists r b',
      Health.get_health W defaultArgs env now url b = Done r b'
      /\ status r = 200%nat
      /\ prop (Some (body r)) "status" = Some (JStr "ok")
      /\ prop (Some (body r)) "mcpServer" = Some (JStr "running").
Proof.
  intros parser W defaultArgs env now url st sb h actions Hp _ _. cbn zeta.
  destruct (xero_run_frame st h actions Hp) as [Hrun _].
  set (b := {| xero := Trace.run Trace.xero st actions; supabase := sb |}).
  destruct (init_warm_state W XeroP b h Hrun)
    as (v & b1 & Hinit & Hp1 & _ & _).
  unfold Health.get_health, try_catch, bind. rewrite Hinit.
  cbn [Health.start_supabase status_json ret].
  eexists _, _. split; [reflexivity|]. cbn [status body].
  split; [reflexivity|]. split; [reflexivity|].
  cbn [session_of] in Hp1. cbn. unfold Health.running_or_stopped. cbn.
  now rewrite Hp1.
Qed.

(** X17 after the exit of the xero child, with nothing set for supabase. *)
Lemma X17_witness_after_exit :
  let b := {| xero := Trace.run (Trace.xero (H := Parser.json_parse))
                        Scenario.xero_ready [Happens (Exit 0 1)];
              supabase := fresh |} in
  exists r b',
    Health.get_health Scenario.healthy None
      (SpawnSpec.mkEnv None None None None None) "now" "http://localhost:3000"
      b = Done r b'
    /\ status r = 200%nat
    /\ prop (Some (body r)) "status" = Some (JStr "ok")
    /\ prop (Some (body r)) "mcpServer" = Some (JStr "running").
Proof.
  exact (X17_health_is_ok_once_xero_was_started (H := Parser.json_parse)
           Scenario.healthy None (SpawnSpec.mkEnv None None None None None)
           "now" "http://localhost:3000" Scenario.xero_ready fresh 0%nat
           [Happens (Exit 0 1)] eq_refl eq_refl eq_refl).
Defined.

(** ** The command line of the supabase child *)

Lemma existsb_snoc {A} (f : A -> bool) (l : list A) (x : A) :
  existsb f (l ++ [x]) = existsb f l || f x.
Proof. rewrite existsb_app. cbn. now rewrite orb_false_r. Qed.

Lemma filter_none {A} (f : A -> bool) (l : list A) :
  existsb f l = false -> List.filter f l = [].
Proof.
  induction l as [|x l IH]; [reflexivity|]. cbn.
  destruct (f x); [discriminate|]. exact IH.
Qed.

Lemma project_ref_flag (s : string) :
  String.prefix "--project-ref" ("--project-ref=" +:+ s) = true
  /\ String.prefix "--features" ("--project-ref=" +:+ s) = false
  /\ String.eqb "--read-only" ("--project-ref=" +:+ s) = false.
Proof. repeat split; reflexivity. Qed.

Lemma features_flag (s : string) :
  String.prefix "--features" ("--features=" +:+ s) = true
  /\ String.prefix "--project-ref" ("--features=" +:+ s) = false
  /\ String.eqb "--read-only" ("--features=" +:+ s) = false.
Proof. repeat split; reflexivity. Qed.

(** X18. A flag of [SUPABASE_MCP_ARGS] wins over the environment, and the
    three environment flags do not disturb each other: the command line of
    the supabase child is the given arguments followed by at most three
    flags and nothing else, in this order: [--project-ref=] with a
    non-empty [SUPABASE_PROJECT_REF] unless an argument that starts with
    [--project-ref] was given, [--features=] with a non-empty
    [SUPABASE_FEATURES] unless an argument that starts with [--features]
    was given, and [--read-only] when [SUPABASE_READ_ONLY] is 1, true or
    yes unless [--read-only] was given. So its [--project-ref] arguments
    are those given, or else the one made from the environment, or else
    none, and likewise for the other two. *)
Theorem X18_given_flags_win_over_the_environment :
  forall (defaultArgs : option (list string)) (env : SpawnSpec.Env)
         (given : list string),
    SpawnSpec.base_args defaultArgs env = Some given ->
    let ref := SpawnSpec.or_empty (SpawnSpec.SUPABASE_PROJECT_REF env) in
    let features := SpawnSpec.or_empty (SpawnSpec.SUPABASE_FEATURES env) in
    let args :=
      (given
       ++ (if negb (SpawnSpec.mentions "--project-ref" given)
              && Js.nonempty ref
           then ["--project-ref=" +:+ ref] else [])
       ++ (if negb (SpawnSpec.mentions "--features" given)
              && Js.nonempty features
           then ["--features=" +:+ features] else [])
       ++ (if negb (existsb (String.eqb "--read-only") given)
              && SpawnSpec.switched_on (SpawnSpec.SUPABASE_READ_ONLY env)
           then ["--read-only"] else []))%list in
    SpawnSpec.effective_args defaultArgs env = Some args
    /\ List.filter (String.prefix "--project-ref") args
       = (if SpawnSpec.mentions "--project-ref" given
          then List.filter (String.prefix "--project-ref") given
          else if Js.nonempty ref then ["--project-ref=" +:+ ref] else [])
    /\ List.filter (String.prefix "--features") args
       = (if SpawnSpec.mentions "--features" given
          then List.filter (String.prefix "--features") given
          else if Js.nonempty features then ["--features=" +:+ features]
               else [])
    /\ List.filter (String.eqb "--read-only") args
       = (if existsb (String.eqb "--read-only") given
          then List.filter (String.eqb "--read-only") given
          else if SpawnSpec.switched_on (SpawnSpec.SUPABASE_READ_ONLY env)
               then ["--read-only"]
               else []).
Proof.
  intros defaultArgs env given Hgiven. cbn zeta.
  unfold SpawnSpec.effective_args.
  rewrite Hgiven. cbn zeta. unfold SpawnSpec.mentions.
  set (ref := SpawnSpec.or_empty (SpawnSpec.SUPABASE_PROJECT_REF env)).
  set (features := SpawnSpec.or_empty (SpawnSpec.SUPABASE_FEATURES env)).
  destruct (project_ref_flag ref) as (Hp1 & Hp2 & Hp3).
  destruct (features_flag features) as (Hf1 & Hf2 & Hf3).
  destruct (existsb (String.prefix "--project-ref") given) eqn:Hp;
    destruct (Js.nonempty ref) eqn:Href;
    destruct (existsb (String.prefix "--features") given) eqn:Hf;
    destruct (Js.nonempty features) eqn:Hfeat;
    destruct (existsb (String.eqb "--read-only") given) eqn:Hr;
    destruct (SpawnSpec.switched_on (SpawnSpec.SUPABASE_READ_ONLY env));
    cbn [negb andb app];
    rewrite ?existsb_snoc, ?Hp, ?Hf, ?Hr, ?Hp1, ?Hp2, ?Hp3, ?Hf1, ?Hf2, ?Hf3;
    cbn [negb andb orb];
    rewrite ?existsb_snoc, ?Hp, ?Hf, ?Hr, ?Hp1, ?Hp2, ?Hp3, ?Hf1, ?Hf2, ?Hf3;
    cbn [negb andb orb];
    (split; [rewrite <- ?app_assoc, ?app_nil_r; reflexivity|]);
    rewrite !List.filter_app;
    rewrite ?(filter_none _ _ Hp), ?(filter_none _ _ Hf), ?(filter_none _ _ Hr);
    repeat first
      [ rewrite Hp1 | rewrite Hp2 | rewrite Hp3
      | rewrite Hf1 | rewrite Hf2 | rewrite Hf3
      | progress change (String.prefix "--project-ref" "--read-only")
          with false
      | progress change (String.prefix "--features" "--read-only") with false
      | progress change (String.eqb "--read-only" "--read-only") with true
      | progress cbn [List.filter app] ];
    rewrite ?app_nil_r;
    repeat split; reflexivity.
Qed.

(** X18 on npm with a feature list given and the rest left to the
    environment. *)
Lemma X18_witness_npm :
  let env := SpawnSpec.mkEnv (Some "npm")
               (Some "-y @supabase/mcp --features=a") (Some "abc")
               (Some "docs") (Some "TRUE") in
  let args := ["exec"; "--"; "-y"; "@supabase/mcp"; "--features=a";
               "--project-ref=abc"; "--read-only"] in
  SpawnSpec.effective_args None env = Some args
  /\ List.filter (String.prefix "--project-ref") args = ["--project-ref=abc"]
  /\ List.filter (String.prefix "--features") args = ["--features=a"]
  /\ List.filter (String.eqb "--read-only") args = ["--read-only"].
Proof.
  exact (X18_given_flags_win_over_the_environment None
           (SpawnSpec.mkEnv (Some "npm")
              (Some "-y @supabase/mcp --features=a") (Some "abc")
              (Some "docs") (Some "TRUE"))
           ["exec"; "--"; "-y"; "@supabase/mcp"; "--features=a"] eq_refl).
Defined.

(** ** Every call has one listener of its own *)

Lemma no_new_listener_refl (st : session) : no_new_listener st st.
Proof. split; [|lia]. intros h l Hin. now exists l. Qed.

Lemma no_new_listener_settle (p : nat) (s1 : pstate) (st x : session) :
  no_new_listener st x -> no_new_listener st (settle p s1 x).
Proof.
  intros [Hl Hp]. split.
  - intros h l. unfold listeners_of. rewrite children_settle. apply Hl.
  - unfold settle. repeat case_match; try exact Hp.
    cbn. now rewrite length_insert.
Qed.

Lemma no_new_listener_alter (f : child -> child) (h : nat) (st x : session) :
  (forall c l, In l (stdout_listeners (f c)) ->
               exists l0, In l0 (stdout_listeners c)
                          /\ listener_id l0 = listener_id l) ->
  no_new_listener st x -> no_new_listener st (alter_child f h x).
Proof.
  intros Hf [Hl Hp]. split; [|exact Hp].
  intros h' l. unfold listeners_of, alter_child. cbn.
  destruct (Nat.eq_dec h' h) as [->|Hne].
  - rewrite list_lookup_alter_eq.
    pose proof (Hl h) as Hh. unfold listeners_of in Hh.
    destruct (children x !! h) as [c|]; cbn; [|contradiction].
    intros Hin. destruct (Hf c l Hin) as (l0 & Hin0 & Hid).
    destruct (Hh l0 Hin0) as (l1 & Hin1 & Hid1).
    exists l1. split; [exact Hin1 | congruence].
  - rewrite list_lookup_alter_ne by congruence. apply Hl.
Qed.

Lemma no_new_listener_removeListener (h p : nat) (st x : session) :
  no_new_listener st x -> no_new_listener st (removeListener h p x).
Proof.
  apply no_new_listener_alter. intros c l. cbn.
  rewrite filter_In. intros [Hin _]. now exists l.
Qed.

Lemma no_new_listener_store (h : nat) (l : listener) (st x : session) :
  no_new_listener st x -> no_new_listener st (store_listener h l x).
Proof.
  apply no_new_listener_alter. intros c l'. cbn.
  rewrite in_map_iff. intros (l0 & Hl0 & Hin). exists l0.
  split; [exact Hin|]. subst l'.
  destruct (Nat.eqb_spec (listener_id l0) (listener_id l)); congruence.
Qed.

Lemma no_new_listener_mark_exited (h : nat) (st x : session) :
  no_new_listener st x -> no_new_listener st (mark_exited h x).
Proof. apply no_new_listener_alter. intros c l Hin. now exists l. Qed.

Lemma no_new_listener_same (st x y : session) :
  children y = children x ->
  promises y = promises x ->
  no_new_listener st x -> no_new_listener st y.
Proof.
  intros Hc Hp [Hl Hn]. unfold no_new_listener, listeners_of in *.
  rewrite Hc, Hp. now split.
Qed.

Lemma no_new_listener_set_process (v : option nat) (st x : session) :
  no_new_listener st x -> no_new_listener st (set_process v x).
Proof. now apply no_new_listener_same. Qed.

Lemma no_new_listener_disarm (t : timer) (st x : session) :
  no_new_listener st x -> no_new_listener st (disarm t x).
Proof. now apply no_new_listener_same. Qed.

Lemma no_new_listener_throw (what : string) (st x : session) :
  no_new_listener st x -> no_new_listener st (throw_uncaught what x).
Proof. now apply no_new_listener_same. Qed.

Ltac no_new :=
  repeat first
    [ apply no_new_listener_refl
    | apply no_new_listener_settle
    | apply no_new_listener_removeListener
    | apply no_new_listener_store
    | apply no_new_listener_mark_exited
    | apply no_new_listener_set_process
    | apply no_new_listener_disarm
    | apply no_new_listener_throw ].

Lemma no_new_listener_trans (st x y : session) :
  no_new_listener st x -> no_new_listener x y -> no_new_listener st y.
Proof.
  intros [Hl1 Hp1] [Hl2 Hp2]. split; [|lia].
  intros h l Hin. destruct (Hl2 h l Hin) as (l0 & Hin0 & Hid0).
  destruct (Hl1 h l0 Hin0) as (l1 & Hin1 & Hid1).
  exists l1. split; [exact Hin1 | congruence].
Qed.

Lemma allocated_no_new (st st' : session) :
  no_new_listener st st' -> listeners_allocated st -> listeners_allocated st'.
Proof.
  intros [Hl Hp] Ha h l Hin. destruct (Hl h l Hin) as (l0 & Hin0 & Hid).
  specialize (Ha h l0 Hin0). lia.
Qed.

Section OwnListener.
Context `{JsonParser}.

Lemma supabase_listener_adds_none (h : nat) (data : string) (l : listener)
      (st : session) :
  no_new_listener st (fst (Supabase.run_listener h data l st)).
Proof.
  unfold Supabase.run_listener, Supabase.onInitData, Supabase.onData,
    resolve.
  repeat case_match; cbn [fst]; no_new.
Qed.

Lemma supabase_step_adds_none (st : session) (e : event) :
  no_new_listener st (Supabase.step st e).
Proof.
  destruct e as [h data|h code|h|t]; cbn [Supabase.step].
  - generalize (listeners_of h st). intros ls.
    assert (Hgen : forall x, no_new_listener st x ->
                             no_new_listener st
                               (emit (Supabase.run_listener h data) ls x)).
    { induction ls as [|l ls IH]; intros x Hx; [exact Hx|]. cbn [emit].
      pose proof (supabase_listener_adds_none h data l x) as Hl.
      destruct (Supabase.run_listener h data l x) as [x' threw].
      cbn [fst] in Hl.
      pose proof (no_new_listener_trans _ _ _ Hx Hl) as Hx'.
      destruct threw; [exact Hx' | now apply IH]. }
    apply Hgen, no_new_listener_refl.
  - no_new.
  - no_new.
  - unfold Supabase.timeout, reject. repeat case_match; no_new.
Qed.

(** The listener that [on_data] adds for a new promise is the only one for
    it. *)
Lemma listeners_for_new (st : session) (h p : nat) (l : listener) (c : child) :
  children st !! h = Some c ->
  (forall l0, In l0 (stdout_listeners c) -> listener_id l0 <> p) ->
  listener_id l = p ->
  listeners_for p h (on_data h l st) = [l].
Proof.
  intros Hc Hother Hid. unfold listeners_for, on_data.
  rewrite listeners_of_alter, Hc. cbn [stdout_listeners].
  rewrite List.filter_app. cbn [List.filter]. rewrite Hid, Nat.eqb_refl.
  rewrite filter_none; [reflexivity|].
  apply not_true_is_false. intros Hex. apply existsb_exists in Hex.
  destruct Hex as (l0 & Hin & Heq). apply Nat.eqb_eq in Heq.
  exact (Hother l0 Hin Heq).
Qed.

Lemma listeners_of_write (h' h : nat) (message : Json) (st : session) :
  listeners_of h' (write h message st) = listeners_of h' st.
Proof.
  unfold listeners_of, write, alter_child. cbn.
  destruct (Nat.eq_dec h' h) as [->|Hne].
  - rewrite list_lookup_alter_eq. now destruct (children st !! h).
  - now rewrite list_lookup_alter_ne by congruence.
Qed.

Lemma supabase_send_listens (message : Json) (st : session) (h : nat) :
  listeners_allocated st ->
  live_handle st ->
  process st = Some h ->
  listening (fst (Supabase.sendSupabaseMessage message st)) h
    (snd (Supabase.sendSupabaseMessage message st))
    (prop (Some message) "id") EmptyString.
Proof.
  intros Ha Hlive Hp. destruct (Hlive h Hp) as (c & Hc & _).
  unfold Supabase.sendSupabaseMessage, new_promise. cbn [process set_promises].
  rewrite Hp. cbn [fst snd]. split; [exact Hp|]. split.
  - unfold listeners_for.
    change (listeners_of h (setTimeout ?t ?x)) with (listeners_of h x).
    rewrite listeners_of_write.
    apply (listeners_for_new _ h _ _ c); [exact Hc| |reflexivity].
    intros l0 Hin Hid. specialize (Ha h l0). unfold listeners_of in Ha.
    rewrite Hc in Ha. specialize (Ha Hin). lia.
  - cbn. apply lookup_snoc.
Qed.

Lemma supabase_init_shakes_hands (st : session) :
  process st = None ->
  shaking_hands (fst (Supabase.initSupabaseServer st))
    (List.length (children st)) (List.length (promises st)) EmptyString.
Proof.
  intros Hp. unfold Supabase.initSupabaseServer. rewrite Hp.
  unfold new_promise, spawn, take_id. cbn [fst snd]. split; [reflexivity|].
  split.
  - unfold listeners_for, listeners_of, setTimeout, write, on_data,
      alter_child. cbn.
    rewrite !list_lookup_alter_eq, lookup_snoc. cbn.
    now rewrite Nat.eqb_refl.
  - cbn. apply lookup_snoc.
Qed.

Lemma supabase_action_keeps_allocated (st : session) (a : action) :
  listeners_allocated st -> listeners_allocated (Trace.supabase st a).
Proof.
  intros Ha. destruct a as [e| |message]; cbn [Trace.supabase].
  - exact (allocated_no_new _ _ (supabase_step_adds_none st e) Ha).
  - unfold Supabase.initSupabaseServer, new_promise, spawn, take_id.
    destruct (process st); cbn [fst].
    + intros h l Hin. cbn. rewrite length_app. specialize (Ha h l Hin). lia.
    + intros h l. unfold listeners_of, setTimeout, write, on_data, alter_child.
      cbn. rewrite length_app. cbn.
      destruct (Nat.eq_dec h (List.length (children st))) as [->|Hne].
      * rewrite !list_lookup_alter_eq, lookup_snoc. cbn.
        intros [<-|[]]. cbn. lia.
      * rewrite !list_lookup_alter_ne by congruence.
        intros Hin. enough (listener_id l < List.length (promises st))%nat
          by lia.
        apply (Ha h). unfold listeners_of.
        destruct (Nat.lt_ge_cases h (List.length (children st))) as [Hlt|Hge].
        -- now rewrite lookup_app_l in Hin.
        -- rewrite lookup_ge_None_2 in Hin; [contradiction|].
           rewrite length_app. cbn. lia.
  - unfold Supabase.sendSupabaseMessage, new_promise.
    cbn [process set_promises]. destruct (process st) as [h0|]; cbn [fst].
    + intros h l. unfold listeners_of, setTimeout, write, on_data, alter_child.
      cbn. rewrite length_app. cbn.
      destruct (Nat.eq_dec h h0) as [->|Hne].
      * rewrite !list_lookup_alter_eq.
        specialize (Ha h0). unfold listeners_of in Ha.
        destruct (children st !! h0) as [c|]; cbn; [|contradiction].
        rewrite in_app_iff. intros [Hin|[<-|[]]]; [|cbn; lia].
        specialize (Ha l Hin). lia.
      * rewrite !list_lookup_alter_ne by congruence. intros Hin.
        specialize (Ha h l Hin). lia.
    + apply (allocated_no_new (set_promises (promises st ++ [Pending]) st)).
      * unfold reject. no_new.
      * intros h l Hin. cbn. rewrite length_app. specialize (Ha h l Hin). lia.
Qed.

End OwnListener.

Section OwnListenerInEnvironment.
Context `{JsonParser}.
Variables (defaultArgs : option (list string)) (env : SpawnSpec.Env).

Lemma supabase_in_keeps_allocated (st : session) (a : action) :
  listeners_allocated st ->
  listeners_allocated (Trace.supabase_in defaultArgs env st a).
Proof.
  intros Ha.
  destruct (supabase_in_cases defaultArgs env st a)
    as [->|(message & _ & ->)].
  - now apply supabase_action_keeps_allocated.
  - intros h l Hin. cbn. rewrite length_app. specialize (Ha h l Hin). lia.
Qed.

Lemma supabase_in_keeps_live (st : session) (a : action) :
  live_handle st -> live_handle (Trace.supabase_in defaultArgs env st a).
Proof.
  intros Hl.
  destruct (supabase_in_cases defaultArgs env st a)
    as [->|(message & _ & ->)].
  - now apply supabase_keeps_live.
  - exact Hl.
Qed.

End OwnListenerInEnvironment.

(** X20. Every supabase call has one listener of its own: after anything
    that can happen to a bridge that just started, in any environment, a
    call made while there is a process handle is pending, with exactly one
    listener registered for it on the child's stdout, which expects the
    [id] of the message and holds an empty buffer. And an
    [initSupabaseServer] made while there is no handle is, in an
    environment in which the executor reaches [spawn], a pending handshake
    with exactly one listener on the new child, and in any other
    environment a rejected promise, with no child and no handle. *)
Theorem X20_supabase_call_has_its_own_listener :
  forall `{JsonParser} (defaultArgs : option (list string))
         (env : SpawnSpec.Env) (actions : list action) (message : Json),
    let st := Trace.run (Trace.supabase_in defaultArgs env) fresh actions in
    let st' := fst (SpawnSpec.initSupabaseServer defaultArgs env st) in
    (forall h, process st = Some h ->
               listening (fst (Supabase.sendSupabaseMessage message st)) h
                 (snd (Supabase.sendSupabaseMessage message st))
                 (prop (Some message) "id") EmptyString)
    /\ (process st = None ->
        match SpawnSpec.spawn_call defaultArgs env with
        | SpawnSpec.Spawns _ _ =>
            shaking_hands st' (List.length (children st))
              (List.length (promises st)) EmptyString
        | SpawnSpec.Throws text =>
            promises st' !! List.length (promises st) = Some (Rejected text)
            /\ children st' = children st
            /\ process st' = None
        end).
Proof.
  intros parser defaultArgs env actions message. cbn zeta. split.
  - intros h Hp. apply supabase_send_listens; [| |exact Hp].
    + apply (run_invariant listeners_allocated).
      * intros st' a. apply supabase_in_keeps_allocated.
      * intros h' l Hin. destruct h'; contradiction.
    + apply (run_invariant live_handle).
      * intros st' a. apply supabase_in_keeps_live.
      * intros h' Hh'. discriminate Hh'.
  - intros Hp.
    destruct (SpawnSpec.spawn_call defaultArgs env) as [bin args|text]
      eqn:Hs.
    + rewrite init_in_environment by (right; eauto).
      now apply supabase_init_shakes_hands.
    + rewrite (init_throws defaultArgs env _ text Hp Hs).
      cbn. split; [apply lookup_snoc|]. split; [reflexivity | exact Hp].
Qed.

(** X20 with a program and its arguments in the environment: on a session
    that is ready the first call listens for id 2 on promise 1, and on a
    bridge that just started the handshake is pending on child 0. *)
Lemma X20_witness_first_call :
  let env := SpawnSpec.mkEnv (Some "npx")
               (Some "-y @supabase/mcp-server-supabase") None None None in
  listening
    (fst (Supabase.sendSupabaseMessage (tools_list 2)
            Scenario.supabase_ready))
    0%nat 1%nat (Some (JNum 2)) EmptyString
  /\ shaking_hands (fst (SpawnSpec.initSupabaseServer None env fresh))
       0%nat 0%nat EmptyString.
Proof.
  cbn zeta. split.
  - exact (proj1 (X20_supabase_call_has_its_own_listener
                    (H := Parser.json_parse) None
                    (SpawnSpec.mkEnv (Some "npx")
                       (Some "-y @supabase/mcp-server-supabase")
                       None None None)
                    [CallsInit;
                     Happens (StdoutData 0
                                (line "{'jsonrpc':'2.0','id':1,'result':{}}"))]
                    (tools_list 2)) 0%nat eq_refl).
  - exact (proj2 (X20_supabase_call_has_its_own_listener
                    (H := Parser.json_parse) None
                    (SpawnSpec.mkEnv (Some "npx")
                       (Some "-y @supabase/mcp-server-supabase")
                       None None None)
                    [] (tools_list 2)) eq_refl).
Defined.

(** ** What the other handlers answer *)

Lemma try_catch_200_or_500 (m : M response) (h : string -> M response)
      (b : bridge) :
  (forall r b', m b = Done r b' -> status r = 200%nat) ->
  (forall e b', exists r, h e b' = Done r b' /\ status r = 500%nat
                          /\ exists v, prop (Some (body r)) "error" = Some v) ->
  answers answered_or_failed (try_catch m h b).
Proof.
  intros Hm Hh. unfold try_catch, answers.
  destruct (m b) as [r b'|e b'|b'] eqn:E.
  - left. now apply (Hm r b').
  - destruct (Hh e b') as (r & -> & Hs & Hv). now right.
  - exact I.
Qed.

Ltac status_200 H :=
  repeat (apply bind_done in H as (? & ? & _ & H));
  injection H as <- _; reflexivity.

Ltac status_500 :=
  intros ? ?; eexists; split; [reflexivity|]; split; [reflexivity|];
  eexists; reflexivity.

(** X19. No handler lets an exception out: whatever the request and whatever
    the children do, the supabase handlers, the health probe, the handlers
    of the xero-only bridge and those of the legacy wrapper either wait,
    or answer 200, or answer 500 with an [error] field. *)
Theorem X19_handlers_answer_200_or_500 :
  forall `{JsonParser} (W : World) (name : string) (req_body : option Json)
         (defaultArgs : option (list string)) (env : SpawnSpec.Env)
         (now url : string) (b : bridge),
    answers answered_or_failed (get_supabase_tools W b)
    /\ answers answered_or_failed (post_supabase_tool W name req_body b)
    /\ answers answered_or_failed (post_supabase_mcp W req_body b)
    /\ answers answered_or_failed
         (Health.get_health W defaultArgs env now url b)
    /\ answers answered_or_failed (XeroOnly.get_tools W b)
    /\ answers answered_or_failed (XeroOnly.post_tool W name req_body b)
    /\ answers answered_or_failed (XeroOnly.post_mcp W req_body b)
    /\ answers answered_or_failed (LegacyHttp.get_tools W b)
    /\ answers answered_or_failed (LegacyHttp.post_tool W name req_body b)
    /\ answers answered_or_failed (LegacyHttp.post_mcp W req_body b).
Proof.
  intros parser W name req_body defaultArgs env now url b.
  repeat split;
    (apply try_catch_200_or_500;
     [intros r b' Hr; status_200 Hr | status_500]).
Qed.
